(** * seller-apis: reconciliation of a supplier feed with marketplace listings

    A shallow embedding of the reconciliation core of [seller.py] (Ozon) and
    [market.py] (Yandex Market): [price_conversion], [divide],
    [create_stocks] and [create_prices], followed by the properties of these
    functions.

    Conventions of the embedding.
    - A Python [str] is a [string] holding its UTF-8 bytes.  The two string
      operations of the source that look at characters ([split(".")] and
      [re.sub("[^0-9]", ...)]) only distinguish ASCII characters, and every
      byte of a non-ASCII character is above 127, so working on bytes gives
      the bytes of the Python result.
    - A supplier row is a [dict] from column names to cell values; a cell is
      [None], a [str] or an [int] ([pyval]).  Floating-point cells are not
      modelled.
    - [int(s)] is modelled on ASCII text, with the interpreter's optional cap
      on the number of digits switched off.
    - A function that mutates an argument or reads the clock is a computation
      [M S A] over the state [S] it touches: it returns a value or raises, and
      leaves a state behind in both cases. *)

From Stdlib Require Import ZArith String Ascii List DecimalString Lia.
From stdpp Require Import base tactics option list gmap strings.

Open Scope Z_scope.

(** ** Python values, exceptions and effects *)

Module Py.

Inductive pyval : Type :=
| PyNone
| PyStr (s : string)
| PyInt (z : Z).

Inductive pyexc : Type :=
| ValueError
| TypeError
| AttributeError.

Inductive result (A : Type) : Type :=
| Ok (a : A)
| Raise (e : pyexc).
Arguments Ok {A} a.
Arguments Raise {A} e.

Definition result_map {A B} (f : A -> B) (r : result A) : result B :=
  match r with
  | Ok a => Ok (f a)
  | Raise e => Raise e
  end.

(** A computation over a mutable state [S]. *)
Definition M (S A : Type) : Type := S -> result A * S.

Definition ret {S A} (a : A) : M S A := fun s => (Ok a, s).

Definition bind {S A B} (m : M S A) (k : A -> M S B) : M S B :=
  fun s =>
    match m s with
    | (Ok a, s') => k a s'
    | (Raise e, s') => (Raise e, s')
    end.

Definition get {S} : M S S := fun s => (Ok s, s).

Definition put {S} (s : S) : M S unit := fun _ => (Ok tt, s).

Definition lift {S A} (r : result A) : M S A := fun s => (r, s).

Notation "'let!' x ':=' m 'in' k" := (bind m (fun x => k))
  (at level 10, x name, m at level 100, k at level 200,
   format "'[v' 'let!'  x  ':='  m  'in' '/' k ']'").

(** [for x in xs: acc = body x acc], the loop-carried variables in [acc]. *)
Fixpoint for_each {S A B} (xs : list A) (acc : B) (body : A -> B -> M S B)
  : M S B :=
  match xs with
  | [] => ret acc
  | x :: xs' =>
      let! acc' := body x acc in
      for_each xs' acc' body
  end.

(** *** Characters *)

Definition is_digit (c : ascii) : bool :=
  let n := nat_of_ascii c in ((48 <=? n) && (n <=? 57))%nat.

Definition digit_value (c : ascii) : Z := Z.of_nat (nat_of_ascii c) - 48.

(** The ASCII characters [int()] skips around a numeral: tab, line feed,
    vertical tab, form feed, carriage return and space. *)
Definition is_space (c : ascii) : bool :=
  let n := nat_of_ascii c in (((9 <=? n) && (n <=? 13)) || (n =? 32))%nat.

(** *** [str(v)] *)

Definition py_str (v : pyval) : string :=
  match v with
  | PyNone => "None"
  | PyStr s => s
  | PyInt z => NilZero.string_of_int (Z.to_int z)
  end.

(** *** [int(v)] *)

Fixpoint lstrip (s : string) : string :=
  match s with
  | String c s' => if is_space c then lstrip s' else s
  | EmptyString => EmptyString
  end.

Fixpoint rstrip (s : string) : string :=
  match s with
  | String c s' =>
      match rstrip s' with
      | EmptyString => if is_space c then EmptyString else String c EmptyString
      | r => String c r
      end
  | EmptyString => EmptyString
  end.

(** Digits with single underscores between them; [after_digit] tells
    whether the previous character was a digit. *)
Fixpoint parse_digits (acc : Z) (after_digit : bool) (s : string) : option Z :=
  match s with
  | EmptyString => if after_digit then Some acc else None
  | String c s' =>
      if is_digit c then parse_digits (10 * acc + digit_value c) true s'
      else if Ascii.eqb c "_" && after_digit then parse_digits acc false s'
      else None
  end.

Definition int_of_string (s : string) : result Z :=
  let body := rstrip (lstrip s) in
  let parsed :=
    match body with
    | String "-" digits => Z.opp <$> parse_digits 0 false digits
    | String "+" digits => parse_digits 0 false digits
    | _ => parse_digits 0 false body
    end in
  match parsed with
  | Some z => Ok z
  | None => Raise ValueError
  end.

Definition py_int (v : pyval) : result Z :=
  match v with
  | PyNone => Raise TypeError
  | PyStr s => int_of_string s
  | PyInt z => Ok z
  end.

(** *** [s.split(sep)] for a one-character separator *)

Fixpoint split_from (sep : ascii) (cur : string) (s : string) : list string :=
  match s with
  | EmptyString => [cur]
  | String c s' =>
      if Ascii.eqb c sep then cur :: split_from sep EmptyString s'
      else split_from sep (cur +:+ String c EmptyString) s'
  end.

Definition str_split (s : string) (sep : ascii) : list string :=
  split_from sep EmptyString s.

(** *** [re.sub("[^0-9]", "", s)] *)

Fixpoint re_sub_non_digits (s : string) : string :=
  match s with
  | EmptyString => EmptyString
  | String c s' =>
      if is_digit c then String c (re_sub_non_digits s')
      else re_sub_non_digits s'
  end.

(** *** [watch.get(key)] *)

Definition dict_get (d : gmap string pyval) (key : string) : pyval :=
  default PyNone (d !! key).

(** *** [list.remove(x)]: drops the first occurrence *)

Fixpoint list_remove (x : string) (l : list string) : option (list string) :=
  match l with
  | [] => None
  | y :: l' =>
      if decide (x = y) then Some l' else cons y <$> list_remove x l'
  end.

(** *** [range(start, stop, step)] *)

Definition py_range (start stop step : Z) : result (list Z) :=
  if decide (step = 0) then Raise ValueError
  else
    let count :=
      if decide (0 < step) then (stop - start + step - 1) / step
      else (start - stop - step - 1) / (- step) in
    Ok ((fun k : nat => start + Z.of_nat k * step) <$> seq 0 (Z.to_nat count)).

(** *** [lst[i:j]] *)

Definition slice_index (len i : Z) : nat :=
  Z.to_nat (if decide (i < 0) then Z.max 0 (i + len) else Z.min i len).

Definition py_slice {A} (lst : list A) (i j : Z) : list A :=
  let len := Z.of_nat (length lst) in
  let lo := slice_index len i in
  let hi := slice_index len j in
  take (hi - lo) (drop lo lst).

End Py.

Import Py.

(** ** seller.py *)

Module Seller.

(** An entry of the stock payload: [{"offer_id": ..., "stock": ...}]. *)
Record stock_item : Type := {
  offer_id : string;
  stock : Z;
}.

(** An entry of the price payload. *)
Record price_item : Type := {
  auto_action_enabled : string;
  currency_code : string;
  price_offer_id : string;
  old_price : string;
  price : string;
}.

(** [re.sub("[^0-9]", "", price.split(".")[0])].  [split] never returns an
    empty list ([str_split_head] below), so element 0 always exists. *)
Definition price_conversion (price : string) : string :=
  re_sub_non_digits (hd EmptyString (str_split price ".")).

(** The call [price_conversion(v)] on a cell: [v.split] exists only on a
    [str]. *)
Definition price_conversion_cell (v : pyval) : result string :=
  match v with
  | PyStr s => Ok (price_conversion s)
  | _ => Raise AttributeError
  end.

(** [offer_ids.remove(x)] on the list the caller passed in. *)
Definition offer_ids_remove (x : string) : M (list string) unit :=
  fun offer_ids =>
    match list_remove x offer_ids with
    | Some rest => (Ok tt, rest)
    | None => (Raise ValueError, offer_ids)
    end.

(** The state is the caller's [offer_ids] list, mutated in place. *)
Definition create_stocks (watch_remnants : list (gmap string pyval))
  : M (list string) (list stock_item) :=
  let! stocks :=
    for_each watch_remnants [] (fun watch stocks =>
      let! offer_ids := get in
      if bool_decide (py_str (dict_get watch "Код") ∈ offer_ids) then
        let count := py_str (dict_get watch "Количество") in
        let! stock :=
          lift (if decide (count = ">10") then Ok 100
                else if decide (count = "1") then Ok 0
                else py_int (dict_get watch "Количество")) in
        let stocks :=
          stocks ++ [{| offer_id := py_str (dict_get watch "Код");
                        stock := stock |}] in
        let! _ := offer_ids_remove (py_str (dict_get watch "Код")) in
        ret stocks
      else ret stocks) in
  let! offer_ids := get in
  for_each offer_ids stocks (fun offer_id stocks =>
    ret (stocks ++ [{| offer_id := offer_id; stock := 0 |}])).

Definition create_prices (watch_remnants : list (gmap string pyval))
  : M (list string) (list price_item) :=
  for_each watch_remnants [] (fun watch prices =>
    let! offer_ids := get in
    if bool_decide (py_str (dict_get watch "Код") ∈ offer_ids) then
      let! converted := lift (price_conversion_cell (dict_get watch "Цена")) in
      let price :=
        {| auto_action_enabled := "UNKNOWN";
           currency_code := "RUB";
           price_offer_id := py_str (dict_get watch "Код");
           old_price := "0";
           price := converted |} in
      ret (prices ++ [price])
    else ret prices).

(** [list(divide(lst, n))]: the chunks the generator yields, in order.  The
    state is the list [lst] itself, read by [len(lst)] and by every
    slice. *)
Definition divide {A} (n : Z) : M (list A) (list (list A)) :=
  let! lst := get in
  let! indices := lift (py_range 0 (Z.of_nat (length lst)) n) in
  for_each indices [] (fun i chunks =>
    let! lst := get in
    ret (chunks ++ [py_slice lst i (i + n)])).

End Seller.

(** ** market.py *)

Module Market.

Record item : Type := {
  count : Z;
  type : string;
  updatedAt : string;
}.

(** An entry of the stock payload:
    [{"sku": ..., "warehouseId": ..., "items": [...]}]. *)
Record sku_item : Type := {
  sku : string;
  warehouseId : string;
  items : list item;
}.

Record price_value : Type := {
  value : Z;
  currencyId : string;
}.

(** An entry of the price payload: [{"id": ..., "price": {...}}]. *)
Record offer_price : Type := {
  id : string;
  price : price_value;
}.

(** What [create_stocks] touches: the caller's [offer_ids] list and the
    system clock.  [utc k] is the text
    [utcnow().replace(microsecond=0).isoformat() + "Z"] of the [k]-th
    reading of the clock and [ticks] counts the readings made so far. *)
Record world : Type := {
  offer_ids : list string;
  utc : nat -> string;
  ticks : nat;
}.

Definition utcnow_iso : M world string :=
  fun w =>
    (Ok (utc w (ticks w)),
     {| offer_ids := offer_ids w; utc := utc w; ticks := S (ticks w) |}).

Definition get_offer_ids : M world (list string) :=
  fun w => (Ok (offer_ids w), w).

Definition offer_ids_remove (x : string) : M world unit :=
  fun w =>
    match list_remove x (offer_ids w) with
    | Some rest =>
        (Ok tt, {| offer_ids := rest; utc := utc w; ticks := ticks w |})
    | None => (Raise ValueError, w)
    end.

Definition create_stocks (watch_remnants : list (gmap string pyval))
  (warehouse_id : string) : M world (list sku_item) :=
  let! date := utcnow_iso in
  let! stocks :=
    for_each watch_remnants [] (fun watch stocks =>
      let! offer_ids := get_offer_ids in
      if bool_decide (py_str (dict_get watch "Код") ∈ offer_ids) then
        let count := py_str (dict_get watch "Количество") in
        let! stock :=
          lift (if decide (count = ">10") then Ok 100
                else if decide (count = "1") then Ok 0
                else py_int (dict_get watch "Количество")) in
        let stocks :=
          stocks ++ [{| sku := py_str (dict_get watch "Код");
                        warehouseId := warehouse_id;
                        items := [{| count := stock;
                                     type := "FIT";
                                     updatedAt := date |}] |}] in
        let! _ := offer_ids_remove (py_str (dict_get watch "Код")) in
        ret stocks
      else ret stocks) in
  let! offer_ids := get_offer_ids in
  for_each offer_ids stocks (fun offer_id stocks =>
    ret (stocks ++ [{| sku := offer_id;
                       warehouseId := warehouse_id;
                       items := [{| count := 0;
                                    type := "FIT";
                                    updatedAt := date |}] |}])).

Definition create_prices (watch_remnants : list (gmap string pyval))
  : M (list string) (list offer_price) :=
  for_each watch_remnants [] (fun watch prices =>
    let! offer_ids := get in
    if bool_decide (py_str (dict_get watch "Код") ∈ offer_ids) then
      let! converted :=
        lift (Seller.price_conversion_cell (dict_get watch "Цена")) in
      let! value := lift (py_int (PyStr converted)) in
      let price :=
        {| id := py_str (dict_get watch "Код");
           price := {| value := value; currencyId := "RUR" |} |} in
      ret (prices ++ [price])
    else ret prices).

End Market.

(** ** Definitions used in the statements and proofs *)

(** A supplier row with the three columns the reconcilers read. *)
Definition watch_row (code quantity price : pyval) : gmap string pyval :=
  {[ "Код" := code; "Количество" := quantity; "Цена" := price ]}.

(** The first [count] chunks of width [size] of [lst]. *)
Definition chunks_of {A : Type} (size : nat) (lst : list A) (count : nat)
  : list (list A) :=
  (fun k => take size (drop (k * size) lst)) <$> seq 0 count.

(** The part of [s] before the first occurrence of [sep]. *)
Fixpoint before_first (sep : ascii) (s : string) : string :=
  match s with
  | EmptyString => EmptyString
  | String c s' =>
      if Ascii.eqb c sep then EmptyString else String c (before_first sep s')
  end.

(** [str(watch.get("Код"))]. *)
Definition code (watch : gmap string pyval) : string :=
  py_str (dict_get watch "Код").

(** The quantity rule table, applied to the row's quantity cell. *)
Definition stock_rule (watch : gmap string pyval) : result Z :=
  let count := py_str (dict_get watch "Количество") in
  if decide (count = ">10") then Ok 100
  else if decide (count = "1") then Ok 0
  else py_int (dict_get watch "Количество").

(** The list left by [offer_ids.remove(x)]; the list itself when [x] is
    not in it. *)
Definition without_first (x : string) (l : list string) : list string :=
  default l (list_remove x l).

(** One round of the first loop of [seller.py]'s [create_stocks]. *)
Definition seller_round (watch : gmap string pyval)
  (stocks : list Seller.stock_item) (offer_ids : list string)
  : result (list Seller.stock_item) * list string :=
  if bool_decide (code watch ∈ offer_ids) then
    match stock_rule watch with
    | Ok stock =>
        (Ok (stocks ++ [{| Seller.offer_id := code watch;
                           Seller.stock := stock |}]),
         without_first (code watch) offer_ids)
    | Raise e => (Raise e, offer_ids)
    end
  else (Ok stocks, offer_ids).

(** The first loop of [seller.py]'s [create_stocks]. *)
Fixpoint seller_rounds (watch_remnants : list (gmap string pyval))
  (stocks : list Seller.stock_item) (offer_ids : list string)
  : result (list Seller.stock_item) * list string :=
  match watch_remnants with
  | [] => (Ok stocks, offer_ids)
  | watch :: rest =>
      match seller_round watch stocks offer_ids with
      | (Ok stocks', offer_ids') => seller_rounds rest stocks' offer_ids'
      | (Raise e, offer_ids') => (Raise e, offer_ids')
      end
  end.

Definition zero_stock (offer_id : string) : Seller.stock_item :=
  {| Seller.offer_id := offer_id; Seller.stock := 0 |}.

(** The [market.py] record carrying what a [seller.py] record carries. *)
Definition to_sku (warehouse_id date : string) (r : Seller.stock_item)
  : Market.sku_item :=
  {| Market.sku := Seller.offer_id r;
     Market.warehouseId := warehouse_id;
     Market.items := [{| Market.count := Seller.stock r;
                         Market.type := "FIT";
                         Market.updatedAt := date |}] |}.

(** One round of the first loop of [market.py]'s [create_stocks], [date]
    being the timestamp read before the loop. *)
Definition market_round (warehouse_id date : string)
  (watch : gmap string pyval) (stocks : list Market.sku_item)
  : M Market.world (list Market.sku_item) :=
  let! offer_ids := Market.get_offer_ids in
  if bool_decide (py_str (dict_get watch "Код") ∈ offer_ids) then
    let count := py_str (dict_get watch "Количество") in
    let! stock :=
      lift (if decide (count = ">10") then Ok 100
            else if decide (count = "1") then Ok 0
            else py_int (dict_get watch "Количество")) in
    let stocks :=
      stocks ++ [{| Market.sku := py_str (dict_get watch "Код");
                    Market.warehouseId := warehouse_id;
                    Market.items := [{| Market.count := stock;
                                        Market.type := "FIT";
                                        Market.updatedAt := date |}] |}] in
    let! _ := Market.offer_ids_remove (py_str (dict_get watch "Код")) in
    ret stocks
  else ret stocks.

Definition with_offer_ids (ids : list string) (w : Market.world) : Market.world :=
  {| Market.offer_ids := ids; Market.utc := Market.utc w;
     Market.ticks := Market.ticks w |}.

Definition after_clock_read (w : Market.world) : Market.world :=
  {| Market.offer_ids := Market.offer_ids w; Market.utc := Market.utc w;
     Market.ticks := S (Market.ticks w) |}.

Definition example_rows : list (gmap string pyval) :=
  [watch_row (PyStr "A") (PyStr ">10") (PyStr "999.00");
   watch_row (PyStr "B") (PyStr "1") (PyStr "15.50")].

Definition two_second_clock (k : nat) : string :=
  match k with
  | O => "2024-05-01T10:00:00Z"
  | _ => "2024-05-01T10:00:01Z"
  end.

Definition example_world : Market.world :=
  {| Market.offer_ids := ["A"; "B"; "C"];
     Market.utc := two_second_clock;
     Market.ticks := 0 |}.

(** [call(..., list(offer_ids))] in [seller.py]: the call works on a copy of
    the caller's list, which stays as it was. *)
Definition on_copy {A : Type} (call : M (list string) A) : M (list string) A :=
  fun offer_ids => ((call offer_ids).1, offer_ids).

(** The same for [market.py]: the list stays as it was, the clock does
    not. *)
Definition on_copy_at {A : Type} (call : M Market.world A) : M Market.world A :=
  fun w => ((call w).1, with_offer_ids (Market.offer_ids w) (call w).2).

(** Two runs of the stock reconciler in a row on the same rows, each on a
    fresh copy of the same identifiers. *)
Definition seller_twice (watch_remnants : list (gmap string pyval))
  : M (list string) (list Seller.stock_item * list Seller.stock_item) :=
  let! first := on_copy (Seller.create_stocks watch_remnants) in
  let! second := on_copy (Seller.create_stocks watch_remnants) in
  ret (first, second).

Definition market_twice (watch_remnants : list (gmap string pyval))
  (warehouse_id : string)
  : M Market.world (list Market.sku_item * list Market.sku_item) :=
  let! first := on_copy_at (Market.create_stocks watch_remnants warehouse_id) in
  let! second := on_copy_at (Market.create_stocks watch_remnants warehouse_id) in
  ret (first, second).

(** A [market.py] stock record without its timestamps. *)
Definition without_timestamp (r : Market.sku_item)
  : string * string * list (Z * string) :=
  (Market.sku r, Market.warehouseId r,
   (fun i => (Market.count i, Market.type i)) <$> Market.items r).

(** The [seller.py] record [r] is what the rule table makes of the row
    [watch]. *)
Definition record_of (watch : gmap string pyval) (r : Seller.stock_item) : Prop :=
  Seller.offer_id r = code watch /\ stock_rule watch = Ok (Seller.stock r).

(** [stocks] holds, for each identifier of [offer_ids], exactly one record
    with that identifier as its [key], and the record's quantity is the one
    the rule table gives for a row of that code, or zero when no row has
    that code. *)
Definition reconciled {R : Type} (key : R -> string) (quantity : R -> Z -> Prop)
  (watch_remnants : list (gmap string pyval)) (offer_ids : list string)
  (stocks : list R) : Prop :=
  forall id : string,
    id ∈ offer_ids ->
    exists (k : nat) (r : R),
      stocks !! k = Some r /\ key r = id
      /\ (forall (k' : nat) (r' : R),
             stocks !! k' = Some r' -> key r' = id -> k' = k)
      /\ ((exists watch q,
              watch ∈ watch_remnants /\ code watch = id
              /\ stock_rule watch = Ok q /\ quantity r q)
          \/ ((forall watch, watch ∈ watch_remnants -> code watch <> id)
              /\ quantity r 0)).

Definition row_B5 : gmap string pyval :=
  watch_row (PyStr "B") (PyStr "5") (PyStr "15.50").

(** The number a string of decimal digits denotes. *)
Fixpoint decimal_from (acc : Z) (s : string) : Z :=
  match s with
  | EmptyString => acc
  | String c s' => decimal_from (10 * acc + digit_value c) s'
  end.

Definition decimal_value (s : string) : Z := decimal_from 0 s.

(** The price record [seller.py] builds from a row. *)
Definition seller_price_of (watch : gmap string pyval) : result Seller.price_item :=
  result_map
    (fun converted =>
       {| Seller.auto_action_enabled := "UNKNOWN";
          Seller.currency_code := "RUB";
          Seller.price_offer_id := code watch;
          Seller.old_price := "0";
          Seller.price := converted |})
    (Seller.price_conversion_cell (dict_get watch "Цена")).

(** The price record [market.py] builds from a row. *)
Definition market_price_of (watch : gmap string pyval) : result Market.offer_price :=
  match Seller.price_conversion_cell (dict_get watch "Цена") with
  | Ok converted =>
      result_map
        (fun value =>
           {| Market.id := code watch;
              Market.price := {| Market.value := value;
                                 Market.currencyId := "RUR" |} |})
        (py_int (PyStr converted))
  | Raise e => Raise e
  end.

(** The loop of [create_prices], for either way of building a record. *)
Fixpoint price_rounds {R : Type} (price_of : gmap string pyval -> result R)
  (offer_ids : list string) (watch_remnants : list (gmap string pyval))
  (prices : list R) : result (list R) :=
  match watch_remnants with
  | [] => Ok prices
  | watch :: rest =>
      if bool_decide (code watch ∈ offer_ids) then
        match price_of watch with
        | Ok price => price_rounds price_of offer_ids rest (prices ++ [price])
        | Raise e => Raise e
        end
      else price_rounds price_of offer_ids rest prices
  end.

(** A row with a text price and the [seller.py] record made from it. *)
Definition seller_price_record (watch : gmap string pyval)
  (p : Seller.price_item) : Prop :=
  exists s : string,
    dict_get watch "Цена" = PyStr s
    /\ p = {| Seller.auto_action_enabled := "UNKNOWN";
              Seller.currency_code := "RUB";
              Seller.price_offer_id := code watch;
              Seller.old_price := "0";
              Seller.price := Seller.price_conversion s |}.

(** A row with a text price and the [market.py] record made from it. *)
Definition market_price_record (watch : gmap string pyval)
  (p : Market.offer_price) : Prop :=
  exists s : string,
    dict_get watch "Цена" = PyStr s
    /\ p = {| Market.id := code watch;
              Market.price :=
                {| Market.value := decimal_value (Seller.price_conversion s);
                   Market.currencyId := "RUR" |} |}.

Fixpoint all_digits (s : string) : bool :=
  match s with
  | EmptyString => true
  | String c s' => is_digit c && all_digits s'
  end.

Definition row_A999 : gmap string pyval :=
  watch_row (PyStr "A") (PyStr "5") (PyStr "999.00").

Definition row_fraction_only : gmap string pyval :=
  watch_row (PyStr "A") (PyStr "5") (PyStr ".12").

Definition row_bad_quantity : gmap string pyval :=
  watch_row (PyStr "A") (PyStr "abc") (PyStr "10.00").

(** ** The calls to the outside *)

(** The functions around the reconcilers talk to the marketplace, download
    the feed, read the environment and print.  They are computations over a
    trace of the events so far; what the outside answers is given by
    oracles: the marketplace's answer may depend on everything that happened
    before.  The answers are taken to follow the marketplace's schema. *)
Module Io.

(** What a call of [requests], [raise_for_status()] or [json()] raises. *)
Inductive failure : Type :=
| ReadTimeout
| ConnectionError
| HTTPError
| JSONDecodeError.

(** An exception on its way up: one of Python's own, one of [requests], or
    one of another class, named. *)
Inductive exc : Type :=
| Builtin (e : pyexc)
| Requests (f : failure)
| Other (class : string).

(** How a computation ends: it returns, it raises, or, for a [while True]
    loop, it is still running when the fuel is used up. *)
Inductive outcome (A : Type) : Type :=
| Returned (a : A)
| Raised (e : exc)
| Unfinished.
Arguments Returned {A} a.
Arguments Raised {A} e.
Arguments Unfinished {A}.

(** A line written by [print]: the text, after the exception when one is
    printed before it. *)
Record line : Type := {
  printed_error : option exc;
  printed_text : string;
}.

(** An event of a run; [Q] is the type of the requests. *)
Inductive event (Q : Type) : Type :=
| Sent (q : Q)
| FeedDownloaded
| Printed (l : line).
Arguments Sent {Q} q.
Arguments FeedDownloaded {Q}.
Arguments Printed {Q} l.

Definition IO (W A : Type) : Type := W -> outcome A * W.

Definition io_ret {W A} (a : A) : IO W A := fun w => (Returned a, w).

Definition io_bind {W A B} (m : IO W A) (k : A -> IO W B) : IO W B :=
  fun w =>
    match m w with
    | (Returned a, w') => k a w'
    | (Raised e, w') => (Raised e, w')
    | (Unfinished, w') => (Unfinished, w')
    end.

Definition io_raise {W A} (e : exc) : IO W A := fun w => (Raised e, w).

Definition unfinished {W A} : IO W A := fun w => (Unfinished, w).

Notation "'let*' x ':=' m 'in' k" := (io_bind m (fun x => k))
  (at level 10, x name, m at level 100, k at level 200,
   format "'[v' 'let*'  x  ':='  m  'in' '/' k ']'").

(** [for x in xs: body x]. *)
Fixpoint io_for_each {W A} (xs : list A) (body : A -> IO W unit) : IO W unit :=
  match xs with
  | [] => io_ret tt
  | x :: xs' =>
      let* _ := body x in
      io_for_each xs' body
  end.

(** A call of one of the reconcilers on a list object: the value it returns
    together with the list as the call leaves it. *)
Definition call {W S A} (f : M S A) (s : S) : IO W (A * S) :=
  fun w =>
    match f s with
    | (Ok a, s') => (Returned (a, s'), w)
    | (Raise e, _) => (Raised (Builtin e), w)
    end.

(** [try: body except ...: handler]. *)
Definition try_except {W A} (body : IO W A) (handler : exc -> IO W A) : IO W A :=
  fun w =>
    match body w with
    | (Raised e, w') => handler e w'
    | other => other
    end.

(** A call of a function defined with [async def] that is not awaited: it
    builds a coroutine object and does not run the body. *)
Definition unawaited {W A} (body : IO W A) : IO W unit := io_ret tt.

(** [env.str(name)]. *)
Definition env_str {W} (env : gmap string string) (name : string) : IO W string :=
  match env !! name with
  | Some value => io_ret value
  | None => io_raise (Other "EnvError")
  end.

End Io.

Import Io.

(** ** seller.py: the calls to Ozon *)

Module SellerApi.

(** The [json=] argument of a request. *)
Inductive payload : Type :=
| ProductListPayload (visibility : string) (last_id : string) (limit : Z)
| PricesPayload (prices : list Seller.price_item)
| StocksPayload (stocks : list Seller.stock_item).

(** A [requests.post(url, json=payload, headers=headers)]. *)
Record request : Type := {
  url : string;
  headers : list (string * string);
  json : payload;
}.

Record product : Type := {
  offer_id : string;
}.

(** The ["result"] member of the answer to a product-list request. *)
Record product_page : Type := {
  items : list product;
  total : Z;
  last_id : string;
}.

(** A JSON document: one with a ["result"] member, or any other. *)
Inductive document : Type :=
| ResultDocument (result : product_page)
| OtherDocument (text : string).

(** What comes of [requests.post(...)], [raise_for_status()] and
    [json()]. *)
Inductive reply : Type :=
| Answer (d : document)
| Failed (f : failure).

Section Outside.

(** The marketplace, the supplier's file and the environment. *)
Variable server : list (event request) -> request -> reply.
Variable feed : list (event request) -> list (gmap string pyval) + exc.
Variable env : gmap string string.

Definition post (q : request) : IO (list (event request)) document :=
  fun trace =>
    (match server trace q with
     | Answer d => Returned d
     | Failed f => Raised (Requests f)
     end,
     trace ++ [Sent q]).

Definition print (l : line) : IO (list (event request)) unit :=
  fun trace => (Returned tt, trace ++ [Printed l]).

Definition get_product_list (last_id client_id seller_token : string)
  : IO (list (event request)) (option product_page) :=
  let url := "https://api-seller.ozon.ru/v2/product/list" in
  let headers := [("Client-Id", client_id); ("Api-Key", seller_token)] in
  let payload := ProductListPayload "ALL" last_id 1000 in
  let* response_object :=
    post {| url := url; headers := headers; json := payload |} in
  io_ret (match response_object with
          | ResultDocument result => Some result
          | OtherDocument _ => None
          end).

(** The [while True] loop of [get_offer_ids]; each round uses one unit of
    [fuel]. *)
Fixpoint get_offer_ids_loop (fuel : nat) (client_id seller_token : string)
  (last_id : string) (product_list : list product)
  : IO (list (event request)) (list product) :=
  match fuel with
  | O => unfinished
  | S fuel' =>
      let* some_prod := get_product_list last_id client_id seller_token in
      match some_prod with
      | None => io_raise (Builtin AttributeError)
      | Some some_prod =>
          let product_list := product_list ++ items some_prod in
          let total := total some_prod in
          let last_id := SellerApi.last_id some_prod in
          if decide (total = Z.of_nat (length product_list)) then
            io_ret product_list
          else
            get_offer_ids_loop fuel' client_id seller_token last_id product_list
      end
  end.

Definition get_offer_ids (fuel : nat) (client_id seller_token : string)
  : IO (list (event request)) (list string) :=
  let* product_list := get_offer_ids_loop fuel client_id seller_token "" [] in
  io_ret (offer_id <$> product_list).

Definition update_price (prices : list Seller.price_item)
  (client_id seller_token : string) : IO (list (event request)) document :=
  let url := "https://api-seller.ozon.ru/v1/product/import/prices" in
  let headers := [("Client-Id", client_id); ("Api-Key", seller_token)] in
  let payload := PricesPayload prices in
  post {| url := url; headers := headers; json := payload |}.

Definition update_stocks (stocks : list Seller.stock_item)
  (client_id seller_token : string) : IO (list (event request)) document :=
  let url := "https://api-seller.ozon.ru/v1/product/import/stocks" in
  let headers := [("Client-Id", client_id); ("Api-Key", seller_token)] in
  let payload := StocksPayload stocks in
  post {| url := url; headers := headers; json := payload |}.

(** [download_stock()]: the download, the archive and the spreadsheet are
    the outside's; what comes back is the rows, or an exception. *)
Definition download_stock : IO (list (event request)) (list (gmap string pyval)) :=
  fun trace =>
    (match feed trace with
     | inl watch_remnants => Returned watch_remnants
     | inr e => Raised e
     end,
     trace ++ [FeedDownloaded]).

(** The body of the coroutine [upload_prices]. *)
Definition upload_prices (fuel : nat)
  (watch_remnants : list (gmap string pyval)) (client_id seller_token : string)
  : IO (list (event request)) (list Seller.price_item) :=
  let* offer_ids := get_offer_ids fuel client_id seller_token in
  let* prices := call (Seller.create_prices watch_remnants) offer_ids in
  let* chunks := call (Seller.divide 1000) prices.1 in
  let* _ :=
    io_for_each chunks.1 (fun some_price =>
      let* _ := update_price some_price client_id seller_token in
      io_ret tt) in
  io_ret chunks.2.


(** The [except] clauses of [main]. *)
Definition report (error : exc) : IO (list (event request)) unit :=
  match error with
  | Requests ReadTimeout =>
      print {| printed_error := None;
               printed_text := "Превышено время ожидания..." |}
  | Requests ConnectionError =>
      print {| printed_error := Some error;
               printed_text := "Ошибка соединения" |}
  | _ =>
      print {| printed_error := Some error; printed_text := "ERROR_2" |}
  end.

Definition main (fuel : nat) : IO (list (event request)) unit :=
  let* seller_token := env_str env "SELLER_TOKEN" in
  let* client_id := env_str env "CLIENT_ID" in
  try_except
    (let* offer_ids := get_offer_ids fuel client_id seller_token in
     let* watch_remnants := download_stock in
     let* stocks := call (Seller.create_stocks watch_remnants) offer_ids in
     let* chunks := call (Seller.divide 100) stocks.1 in
     let* _ :=
       io_for_each chunks.1 (fun some_stock =>
         let* _ := update_stocks some_stock client_id seller_token in
         io_ret tt) in
     let* prices := call (Seller.create_prices watch_remnants) stocks.2 in
     let* chunks := call (Seller.divide 900) prices.1 in
     io_for_each chunks.1 (fun some_price =>
       let* _ := update_price some_price client_id seller_token in
       io_ret tt))
    report.

End Outside.

End SellerApi.

(** ** Requests and answers of a run with Ozon *)

(** The request [get_product_list] sends for the cursor [last_id]. *)
Definition ozon_listing_request (client_id seller_token last_id : string)
  : SellerApi.request :=
  {| SellerApi.url := "https://api-seller.ozon.ru/v2/product/list";
     SellerApi.headers := [("Client-Id", client_id); ("Api-Key", seller_token)];
     SellerApi.json := SellerApi.ProductListPayload "ALL" last_id 1000 |}.

(** The request [update_stocks] sends for a batch. *)
Definition ozon_stocks_request (client_id seller_token : string)
  (stocks : list Seller.stock_item) : SellerApi.request :=
  {| SellerApi.url := "https://api-seller.ozon.ru/v1/product/import/stocks";
     SellerApi.headers := [("Client-Id", client_id); ("Api-Key", seller_token)];
     SellerApi.json := SellerApi.StocksPayload stocks |}.

(** The request [update_price] sends for a batch. *)
Definition ozon_prices_request (client_id seller_token : string)
  (prices : list Seller.price_item) : SellerApi.request :=
  {| SellerApi.url := "https://api-seller.ozon.ru/v1/product/import/prices";
     SellerApi.headers := [("Client-Id", client_id); ("Api-Key", seller_token)];
     SellerApi.json := SellerApi.PricesPayload prices |}.

(** What the marketplace answers when the requests [sent] are made one after
    the other, starting after [trace]. *)
Fixpoint ozon_transcript
  (server : list (event SellerApi.request) -> SellerApi.request -> SellerApi.reply)
  (trace : list (event SellerApi.request)) (sent : list SellerApi.request)
  : list SellerApi.reply :=
  match sent with
  | [] => []
  | q :: rest =>
      server trace q :: ozon_transcript server (trace ++ [Sent q]) rest
  end.

(** The cursors of the requests that fetch [pages], the first page being
    asked for with the cursor [first]: each page is asked for with the
    [last_id] of the page before it. *)
Definition ozon_cursors (first : string) (pages : list SellerApi.product_page)
  : list string :=
  take (length pages) (first :: (SellerApi.last_id <$> pages)).

(** The number of products on the first [k] of [pages]. *)
Definition ozon_count (k : nat) (pages : list SellerApi.product_page) : nat :=
  length (concat (SellerApi.items <$> take k pages)).

(** A marketplace with three products on two pages, which accepts every
    update. *)
Definition example_page_1 : SellerApi.product_page :=
  {| SellerApi.items := [{| SellerApi.offer_id := "A" |};
                         {| SellerApi.offer_id := "B" |}];
     SellerApi.total := 3;
     SellerApi.last_id := "p1" |}.

Definition example_page_2 : SellerApi.product_page :=
  {| SellerApi.items := [{| SellerApi.offer_id := "C" |}];
     SellerApi.total := 3;
     SellerApi.last_id := "p2" |}.

Definition example_ozon (trace : list (event SellerApi.request))
  (q : SellerApi.request) : SellerApi.reply :=
  match SellerApi.json q with
  | SellerApi.ProductListPayload _ last_id _ =>
      if decide (last_id = EmptyString)
      then SellerApi.Answer (SellerApi.ResultDocument example_page_1)
      else SellerApi.Answer (SellerApi.ResultDocument example_page_2)
  | _ => SellerApi.Answer (SellerApi.OtherDocument "{}")
  end.

(** A marketplace that reports fewer products than it serves. *)
Definition overfull_ozon (trace : list (event SellerApi.request))
  (q : SellerApi.request) : SellerApi.reply :=
  SellerApi.Answer
    (SellerApi.ResultDocument
       {| SellerApi.items := [{| SellerApi.offer_id := "A" |};
                              {| SellerApi.offer_id := "B" |}];
          SellerApi.total := 1;
          SellerApi.last_id := "p1" |}).

(** The event is a price update sent to Ozon. *)
Definition is_ozon_price_update (ev : event SellerApi.request) : Prop :=
  exists q prices,
    ev = Sent q /\ SellerApi.json q = SellerApi.PricesPayload prices.

(** ** market.py: the calls to Yandex Market *)

Module MarketApi.

Inductive method : Type :=
| GET
| PUT
| POST.

(** The [params=] or [json=] argument of a request. *)
Inductive payload : Type :=
| ListingParams (page_token : string) (limit : Z)
| SkusPayload (skus : list Market.sku_item)
| OffersPayload (offers : list Market.offer_price).

Record request : Type := {
  verb : method;
  url : string;
  headers : list (string * string);
  body : payload;
}.

Record offer : Type := {
  shopSku : string;
}.

Record entry : Type := {
  entry_offer : offer;
}.

Record paging_info : Type := {
  nextPageToken : option string;
}.

(** The ["result"] member of the answer to a listing request. *)
Record listing : Type := {
  offerMappingEntries : list entry;
  paging : paging_info;
}.

Inductive document : Type :=
| ResultDocument (result : listing)
| OtherDocument (text : string).

Inductive reply : Type :=
| Answer (d : document)
| Failed (f : failure).

(** The events so far and the number of readings of the clock. *)
Record world : Type := {
  trace : list (event request);
  ticks : nat;
}.

Definition add_event (ev : event request) (w : world) : world :=
  {| trace := trace w ++ [ev]; ticks := ticks w |}.

Section Outside.

Variable server : list (event request) -> request -> reply.
Variable feed : list (event request) -> list (gmap string pyval) + exc.
Variable env : gmap string string.
Variable utc : nat -> string.

(** [requests.get], [put] or [post], then [raise_for_status()] and
    [json()]. *)
Definition send (q : request) : IO world document :=
  fun w =>
    (match server (trace w) q with
     | Answer d => Returned d
     | Failed f => Raised (Requests f)
     end,
     add_event (Sent q) w).

Definition print (l : line) : IO world unit :=
  fun w => (Returned tt, add_event (Printed l) w).

(** [download_stock], imported from [seller.py]. *)
Definition download_stock : IO world (list (gmap string pyval)) :=
  fun w =>
    (match feed (trace w) with
     | inl watch_remnants => Returned watch_remnants
     | inr e => Raised e
     end,
     add_event FeedDownloaded w).

Definition get_product_list (page campaign_id access_token : string)
  : IO world (option listing) :=
  let endpoint_url := "https://api.partner.market.yandex.ru/" in
  let headers :=
    [("Content-Type", "application/json");
     ("Authorization", "Bearer " +:+ access_token);
     ("Accept", "application/json");
     ("Host", "api.partner.market.yandex.ru")] in
  let payload := ListingParams page 200 in
  let url :=
    endpoint_url +:+ ("campaigns/" +:+ campaign_id +:+ "/offer-mapping-entries") in
  let* response_object :=
    send {| verb := GET; url := url; headers := headers; body := payload |} in
  io_ret (match response_object with
          | ResultDocument result => Some result
          | OtherDocument _ => None
          end).

Definition update_stocks (stocks : list Market.sku_item)
  (campaign_id access_token : string) : IO world document :=
  let endpoint_url := "https://api.partner.market.yandex.ru/" in
  let headers :=
    [("Content-Type", "application/json");
     ("Authorization", "Bearer " +:+ access_token);
     ("Accept", "application/json");
     ("Host", "api.partner.market.yandex.ru")] in
  let payload := SkusPayload stocks in
  let url := endpoint_url +:+ ("campaigns/" +:+ campaign_id +:+ "/offers/stocks") in
  send {| verb := PUT; url := url; headers := headers; body := payload |}.

Definition update_price (prices : list Market.offer_price)
  (campaign_id access_token : string) : IO world document :=
  let endpoint_url := "https://api.partner.market.yandex.ru/" in
  let headers :=
    [("Content-Type", "application/json");
     ("Authorization", "Bearer " +:+ access_token);
     ("Accept", "application/json");
     ("Host", "api.partner.market.yandex.ru")] in
  let payload := OffersPayload prices in
  let url :=
    endpoint_url +:+ ("campaigns/" +:+ campaign_id +:+ "/offer-prices/updates") in
  send {| verb := POST; url := url; headers := headers; body := payload |}.

(** The [while True] loop of [get_offer_ids]; each round uses one unit of
    [fuel].  [not page] holds for [None] and for the empty string. *)
Fixpoint get_offer_ids_loop (fuel : nat) (campaign_id market_token : string)
  (page : string) (product_list : list entry) : IO world (list entry) :=
  match fuel with
  | O => unfinished
  | S fuel' =>
      let* some_prod := get_product_list page campaign_id market_token in
      match some_prod with
      | None => io_raise (Builtin AttributeError)
      | Some some_prod =>
          let product_list := product_list ++ offerMappingEntries some_prod in
          match nextPageToken (paging some_prod) with
          | None => io_ret product_list
          | Some page =>
              if decide (page = EmptyString) then io_ret product_list
              else
                get_offer_ids_loop fuel' campaign_id market_token page
                  product_list
          end
      end
  end.

Definition get_offer_ids (fuel : nat) (campaign_id market_token : string)
  : IO world (list string) :=
  let* product_list := get_offer_ids_loop fuel campaign_id market_token "" [] in
  io_ret ((fun product => shopSku (entry_offer product)) <$> product_list).

(** A call of [market.py]'s [create_stocks]: it works on the list
    [offer_ids] and reads the clock. *)
Definition call_create_stocks (watch_remnants : list (gmap string pyval))
  (offer_ids : list string) (warehouse_id : string)
  : IO world (list Market.sku_item * list string) :=
  fun w =>
    let run :=
      Market.create_stocks watch_remnants warehouse_id
        {| Market.offer_ids := offer_ids;
           Market.utc := utc;
           Market.ticks := ticks w |} in
    (match run.1 with
     | Ok stocks => Returned (stocks, Market.offer_ids run.2)
     | Raise e => Raised (Builtin e)
     end,
     {| trace := trace w; ticks := Market.ticks run.2 |}).

(** The body of the coroutine [upload_prices]. *)
Definition upload_prices (fuel : nat)
  (watch_remnants : list (gmap string pyval)) (campaign_id market_token : string)
  : IO world (list Market.offer_price) :=
  let* offer_ids := get_offer_ids fuel campaign_id market_token in
  let* prices := call (Market.create_prices watch_remnants) offer_ids in
  let* chunks := call (Seller.divide 500) prices.1 in
  let* _ :=
    io_for_each chunks.1 (fun some_prices =>
      let* _ := update_price some_prices campaign_id market_token in
      io_ret tt) in
  io_ret chunks.2.

(** The [except] clauses of [main]. *)
Definition report (error : exc) : IO world unit :=
  match error with
  | Requests ReadTimeout =>
      print {| printed_error := None;
               printed_text := "Превышено время ожидания..." |}
  | Requests ConnectionError =>
      print {| printed_error := Some error;
               printed_text := "Ошибка соединения" |}
  | _ =>
      print {| printed_error := Some error; printed_text := "ERROR_2" |}
  end.

Definition main (fuel : nat) : IO world unit :=
  let* market_token := env_str env "MARKET_TOKEN" in
  let* campaign_fbs_id := env_str env "FBS_ID" in
  let* campaign_dbs_id := env_str env "DBS_ID" in
  let* warehouse_fbs_id := env_str env "WAREHOUSE_FBS_ID" in
  let* warehouse_dbs_id := env_str env "WAREHOUSE_DBS_ID" in
  let* watch_remnants := download_stock in
  try_except
    (let* offer_ids := get_offer_ids fuel campaign_fbs_id market_token in
     let* stocks := call_create_stocks watch_remnants offer_ids warehouse_fbs_id in
     let* chunks := call (Seller.divide 2000) stocks.1 in
     let* _ :=
       io_for_each chunks.1 (fun some_stock =>
         let* _ := update_stocks some_stock campaign_fbs_id market_token in
         io_ret tt) in
     let* _ :=
       unawaited (upload_prices fuel watch_remnants campaign_fbs_id market_token) in
     let* offer_ids := get_offer_ids fuel campaign_dbs_id market_token in
     let* stocks := call_create_stocks watch_remnants offer_ids warehouse_dbs_id in
     let* chunks := call (Seller.divide 2000) stocks.1 in
     let* _ :=
       io_for_each chunks.1 (fun some_stock =>
         let* _ := update_stocks some_stock campaign_dbs_id market_token in
         io_ret tt) in
     unawaited (upload_prices fuel watch_remnants campaign_dbs_id market_token))
    report.

End Outside.

End MarketApi.

(** The event is a price update sent to Yandex Market. *)
Definition is_yandex_price_update (ev : event MarketApi.request) : Prop :=
  exists q offers,
    ev = Sent q /\ MarketApi.body q = MarketApi.OffersPayload offers.

(** The request [market.py]'s [get_product_list] sends for a page token. *)
Definition yandex_listing_request (campaign_id access_token page : string)
  : MarketApi.request :=
  {| MarketApi.verb := MarketApi.GET;
     MarketApi.url :=
       "https://api.partner.market.yandex.ru/"
       +:+ ("campaigns/" +:+ campaign_id +:+ "/offer-mapping-entries");
     MarketApi.headers :=
       [("Content-Type", "application/json");
        ("Authorization", "Bearer " +:+ access_token);
        ("Accept", "application/json");
        ("Host", "api.partner.market.yandex.ru")];
     MarketApi.body := MarketApi.ListingParams page 200 |}.

(** What the marketplace answers when the requests [sent] are made one after
    the other, starting after [trace]. *)
Fixpoint yandex_transcript
  (server : list (event MarketApi.request) -> MarketApi.request -> MarketApi.reply)
  (trace : list (event MarketApi.request)) (sent : list MarketApi.request)
  : list MarketApi.reply :=
  match sent with
  | [] => []
  | q :: rest =>
      server trace q :: yandex_transcript server (trace ++ [Sent q]) rest
  end.

(** The page token of a listing, the empty string when there is none. *)
Definition yandex_token (page : MarketApi.listing) : string :=
  default EmptyString (MarketApi.nextPageToken (MarketApi.paging page)).

(** The page tokens of the requests that fetch [pages], the first page being
    asked for with the token [first]. *)
Definition yandex_tokens (first : string) (pages : list MarketApi.listing)
  : list string :=
  take (length pages) (first :: (yandex_token <$> pages)).

(** The computation [m] adds to the trace events that satisfy [P], and no
    other. *)
Definition only_adds {A : Type} (P : event MarketApi.request -> Prop)
  (m : IO MarketApi.world A) : Prop :=
  forall w, exists added,
    MarketApi.trace (m w).2 = MarketApi.trace w ++ added /\ Forall P added.

(** An environment, a feed and a Yandex Market for the examples. *)
Definition example_seller_env : gmap string string :=
  {[ "SELLER_TOKEN" := "token"; "CLIENT_ID" := "id" ]}.

Definition example_market_env : gmap string string :=
  {[ "MARKET_TOKEN" := "token"; "FBS_ID" := "fbs"; "DBS_ID" := "dbs";
     "WAREHOUSE_FBS_ID" := "W1"; "WAREHOUSE_DBS_ID" := "W2" ]}.

Definition example_feed {Q : Type} (trace : list (event Q))
  : list (gmap string pyval) + exc :=
  inl example_rows.

Definition broken_feed {Q : Type} (trace : list (event Q))
  : list (gmap string pyval) + exc :=
  inr (Requests HTTPError).

Definition example_listing_1 : MarketApi.listing :=
  {| MarketApi.offerMappingEntries :=
       [{| MarketApi.entry_offer := {| MarketApi.shopSku := "A" |} |};
        {| MarketApi.entry_offer := {| MarketApi.shopSku := "B" |} |}];
     MarketApi.paging := {| MarketApi.nextPageToken := Some "t1" |} |}.

Definition example_listing_2 : MarketApi.listing :=
  {| MarketApi.offerMappingEntries :=
       [{| MarketApi.entry_offer := {| MarketApi.shopSku := "C" |} |}];
     MarketApi.paging := {| MarketApi.nextPageToken := None |} |}.

Definition example_yandex (trace : list (event MarketApi.request))
  (q : MarketApi.request) : MarketApi.reply :=
  match MarketApi.body q with
  | MarketApi.ListingParams page _ =>
      if decide (page = EmptyString)
      then MarketApi.Answer (MarketApi.ResultDocument example_listing_1)
      else MarketApi.Answer (MarketApi.ResultDocument example_listing_2)
  | _ => MarketApi.Answer (MarketApi.OtherDocument "{}")
  end.

Definition example_market_world : MarketApi.world :=
  {| MarketApi.trace := []; MarketApi.ticks := 0 |}.

(** A Yandex Market whose every page names a next page. *)
Definition endless_yandex (trace : list (event MarketApi.request))
  (q : MarketApi.request) : MarketApi.reply :=
  MarketApi.Answer
    (MarketApi.ResultDocument
       {| MarketApi.offerMappingEntries :=
            [{| MarketApi.entry_offer := {| MarketApi.shopSku := "A" |} |}];
          MarketApi.paging := {| MarketApi.nextPageToken := Some "next" |} |}).

(** A row without a quantity and without a price. *)
Definition row_code_only : gmap string pyval :=
  {[ "Код" := PyStr "A" ]}.

(** * Properties *)

(** ** The Python operations on examples *)

Example py_int_examples :
  py_int (PyStr " 12 ") = Ok 12 /\ py_int (PyStr "-0") = Ok 0 /\
  py_int (PyStr "1_000") = Ok 1000 /\ py_int (PyStr "007") = Ok 7 /\
  py_int (PyStr "1__0") = Raise ValueError /\ py_int (PyStr "") = Raise ValueError /\
  py_int (PyStr "+ 1") = Raise ValueError /\ py_int (PyStr "1.0") = Raise ValueError /\
  py_int PyNone = Raise TypeError /\ py_str (PyInt (-5)) = "-5" /\
  py_str (PyInt 0) = "0" /\ py_str (PyInt 1) = "1".
Proof. repeat split; reflexivity. Qed.

Example str_split_examples :
  str_split "a.b.c" "." = ["a"; "b"; "c"] /\ str_split "" "." = [""] /\
  str_split ".12" "." = [""; "12"] /\ str_split "abc" "." = ["abc"].
Proof. repeat split; reflexivity. Qed.

Example py_range_examples :
  py_range 0 5 2 = Ok [0; 2; 4] /\ py_range 0 0 2 = Ok [] /\
  py_range 0 5 (-1) = Ok [] /\ py_range 0 5 0 = Raise ValueError /\
  py_range 5 0 (-2) = Ok [5; 3; 1] /\
  py_slice [1; 2; 3; 4; 5] 4 6 = [5] /\ py_slice [1; 2; 3; 4; 5] 2 4 = [3; 4] /\
  py_slice [1; 2; 3; 4; 5] (-2) 9 = [4; 5].
Proof. repeat split; reflexivity. Qed.

Example create_stocks_example :
  Seller.create_stocks
    [watch_row (PyStr "X") (PyStr "5") PyNone;
     watch_row (PyStr "Y") (PyStr ">10") PyNone;
     watch_row (PyStr "Z") (PyStr "1") PyNone] ["X"; "Y"; "W"]
  = (Ok [{| Seller.offer_id := "X"; Seller.stock := 5 |};
         {| Seller.offer_id := "Y"; Seller.stock := 100 |};
         {| Seller.offer_id := "W"; Seller.stock := 0 |}], ["W"]).
Proof. vm_compute. reflexivity. Qed.

(** ** Loops whose body cannot fail *)

Section ForEach.
Context {S A B : Type}.

(** A loop that only reads the state and appends one element per round
    is a [map]. *)
Lemma for_each_append (f : S -> A -> B) (xs : list A) (acc : list B) (s : S) :
  for_each xs acc (fun x acc => let! s := get in ret (acc ++ [f s x])) s
  = (Ok (acc ++ (f s <$> xs)), s).
Proof.
  revert acc. induction xs as [|x xs IH]; intros acc; simpl.
  - by rewrite app_nil_r.
  - unfold bind at 1. simpl. rewrite IH. by rewrite <- app_assoc.
Qed.

Lemma for_each_append_pure (f : A -> B) (xs : list A) (acc : list B) (s : S) :
  for_each xs acc (fun x acc => ret (acc ++ [f x])) s
  = (Ok (acc ++ (f <$> xs)), s).
Proof.
  revert acc. induction xs as [|x xs IH]; intros acc; simpl.
  - by rewrite app_nil_r.
  - unfold bind at 1. simpl. rewrite IH. by rewrite <- app_assoc.
Qed.
End ForEach.

(** ** The price normalizer *)

Lemma append_cons (c : ascii) (s1 s2 : string) :
  String c s1 +:+ s2 = String c (s1 +:+ s2).
Proof. reflexivity. Qed.

Lemma append_assoc_char (cur : string) (c : ascii) (s : string) :
  (cur +:+ String c EmptyString) +:+ s = cur +:+ String c s.
Proof.
  induction cur as [|d cur IH]; [done |].
  by rewrite !append_cons, IH.
Qed.

Lemma append_empty_r (s : string) : s +:+ EmptyString = s.
Proof.
  induction s as [|c s IH]; [done |].
  by rewrite append_cons, IH.
Qed.

Lemma split_from_head (sep : ascii) (s cur : string) :
  hd EmptyString (split_from sep cur s) = cur +:+ before_first sep s.
Proof.
  revert cur. induction s as [|c s IH]; intros cur; simpl.
  - by rewrite append_empty_r.
  - destruct (Ascii.eqb c sep); simpl.
    + by rewrite append_empty_r.
    + by rewrite IH, append_assoc_char.
Qed.

Lemma split_from_not_nil (sep : ascii) (s cur : string) :
  split_from sep cur s <> [].
Proof.
  revert cur. induction s as [|c s IH]; intros cur; simpl; [done |].
  destruct (Ascii.eqb c sep); [done | apply IH].
Qed.

(** [split] never returns an empty list, and its element 0 is the text
    before the first separator. *)
Lemma str_split_head (s : string) (sep : ascii) :
  exists rest, str_split s sep = before_first sep s :: rest.
Proof.
  unfold str_split. generalize (split_from_head sep s EmptyString).
  destruct (split_from sep EmptyString s) as [|x rest] eqn:E.
  - by apply split_from_not_nil in E.
  - simpl. intros ->. by exists rest.
Qed.

Lemma before_first_no_sep (sep : ascii) (s : string) :
  ~ In sep (list_ascii_of_string (before_first sep s)).
Proof.
  induction s as [|c s IH]; simpl; [tauto |].
  destruct (Ascii.eqb_spec c sep) as [->|Hne]; simpl; [tauto |].
  intros [Heq | Hin]; [by apply Hne | by apply IH].
Qed.

Lemma before_first_split (sep : ascii) (s : string) :
  (s = before_first sep s /\ ~ In sep (list_ascii_of_string s))
  \/ (exists rest, s = before_first sep s +:+ String sep rest).
Proof.
  induction s as [|c s IH]; simpl.
  - left. tauto.
  - destruct (Ascii.eqb_spec c sep) as [->|Hne]; simpl.
    + right. by exists s.
    + destruct IH as [[Heq Hnot] | [rest Heq]].
      * left. split; [by rewrite <- Heq |].
        intros [H | H]; [by apply Hne | by apply Hnot].
      * right. exists rest. by rewrite append_cons, <- Heq.
Qed.

Lemma re_sub_non_digits_filter (s : string) :
  list_ascii_of_string (re_sub_non_digits s)
  = List.filter is_digit (list_ascii_of_string s).
Proof.
  induction s as [|c s IH]; simpl; [done |].
  destruct (is_digit c); simpl; by rewrite IH.
Qed.

Lemma price_conversion_before_first (s : string) :
  Seller.price_conversion s = re_sub_non_digits (before_first "." s).
Proof.
  unfold Seller.price_conversion.
  destruct (str_split_head s ".") as [rest ->]. done.
Qed.

(** C6. [price_conversion] returns the part of its argument before the
    first ['.'] (all of it when there is none) with every character that is
    not a decimal digit removed; the result may be empty.  It maps
    ["12345.67"] to ["12345"], [".12"] and ["price"] to the empty string and
    ["1,234.5"] to ["1234"]. *)
Theorem price_conversion_spec :
  (forall price : string,
      exists integer_part : string,
        ((price = integer_part /\ ~ In "."%char (list_ascii_of_string price))
         \/ (exists rest, price = integer_part +:+ String "." rest))
        /\ ~ In "."%char (list_ascii_of_string integer_part)
        /\ list_ascii_of_string (Seller.price_conversion price)
           = List.filter is_digit (list_ascii_of_string integer_part))
  /\ Seller.price_conversion "12345.67" = "12345"
  /\ Seller.price_conversion ".12" = ""
  /\ Seller.price_conversion "price" = ""
  /\ Seller.price_conversion "1,234.5" = "1234".
Proof.
  split; [| repeat split; reflexivity].
  intros price. exists (before_first "." price).
  split; [| split].
  - destruct (before_first_split "." price) as [[H1 H2] | H]; [left | right]; auto.
  - apply before_first_no_sep.
  - rewrite price_conversion_before_first. apply re_sub_non_digits_filter.
Qed.

(** ** The chunker *)

Section Divide.
Context {A : Type}.
Implicit Types (lst : list A) (n : Z) (size count k : nat).

Lemma py_slice_chunk lst n k :
  0 < n ->
  py_slice lst (0 + Z.of_nat k * n) (0 + Z.of_nat k * n + n)
  = take (Z.to_nat n) (drop (k * Z.to_nat n) lst).
Proof.
  intros Hn. unfold py_slice, slice_index.
  assert (0 <= Z.of_nat k * n) as Hi by lia.
  rewrite !decide_False by lia.
  assert (Z.of_nat (k * Z.to_nat n) = Z.of_nat k * n) as Hk by lia.
  destruct (decide (Z.of_nat k * n <= Z.of_nat (length lst))) as [Hle|Hgt].
  - replace (Z.to_nat (Z.min (0 + Z.of_nat k * n) (Z.of_nat (length lst))))
      with (k * Z.to_nat n)%nat by lia.
    destruct (decide (Z.of_nat k * n + n <= Z.of_nat (length lst))).
    + f_equal. lia.
    + rewrite !take_ge; [done | |]; rewrite length_drop; lia.
  - rewrite !drop_ge by lia. by rewrite !take_nil.
Qed.

Lemma divide_unfold lst n :
  0 < n ->
  Seller.divide n lst
  = (Ok (chunks_of (Z.to_nat n) lst
           (Z.to_nat ((Z.of_nat (length lst) + n - 1) / n))), lst).
Proof.
  intros Hn. unfold Seller.divide, bind at 1, get at 1. simpl.
  unfold py_range, lift, bind at 1.
  rewrite decide_False, decide_True by lia.
  rewrite (for_each_append (fun s i => py_slice s i (i + n))). simpl.
  replace (Z.of_nat (length lst) - 0 + n - 1)
    with (Z.of_nat (length lst) + n - 1) by lia.
  do 2 f_equal. unfold chunks_of. rewrite <- list_fmap_compose.
  apply list_fmap_ext. intros _ k _. simpl.
  by apply py_slice_chunk.
Qed.

Lemma concat_chunks_of size lst count :
  concat (chunks_of size lst count) = take (count * size) lst.
Proof.
  unfold chunks_of. induction count as [|count IH]; [done |].
  rewrite seq_S, fmap_app, concat_app, IH. simpl.
  rewrite app_nil_r, take_take_drop. f_equal. lia.
Qed.

Lemma length_chunks_of size lst count :
  length (chunks_of size lst count) = count.
Proof. unfold chunks_of. by rewrite length_fmap, length_seq. Qed.

Lemma lookup_chunks_of size lst count k c :
  chunks_of size lst count !! k = Some c ->
  (k < count)%nat /\ c = take size (drop (k * size) lst).
Proof.
  unfold chunks_of. rewrite list_lookup_fmap. intros H.
  destruct (seq 0 count !! k) as [j|] eqn:E; [|done].
  apply lookup_seq in E as [-> ?]. simpl in H. by inversion H.
Qed.

(** The number of chunks is the length divided by the width, rounded up. *)
Lemma chunk_count_bounds (len : nat) n :
  0 < n ->
  let count := Z.to_nat ((Z.of_nat len + n - 1) / n) in
  (len <= count * Z.to_nat n)%nat
  /\ (count = 0%nat <-> len = 0%nat)
  /\ (forall k, (S k <= count)%nat -> (k * Z.to_nat n < len)%nat).
Proof.
  intros Hn count.
  pose proof (Z.mul_div_le (Z.of_nat len + n - 1) n Hn) as Hlo.
  pose proof (Z.mul_succ_div_gt (Z.of_nat len + n - 1) n Hn) as Hhi.
  assert (0 <= (Z.of_nat len + n - 1) / n) as Hq
    by (apply Z.div_pos; lia).
  assert (Z.of_nat count = (Z.of_nat len + n - 1) / n) as Hc
    by (unfold count; lia).
  assert (Z.of_nat (Z.to_nat n) = n) as Hnn by lia.
  split; [| split].
  - nia.
  - split; intros H; [nia |].
    subst len. unfold count. simpl.
    rewrite Z.div_small by lia. done.
  - intros k Hk. nia.
Qed.
End Divide.

(** C7. For a positive chunk size, the chunks [divide] yields concatenate
    to the list it was given; every chunk but the last has exactly [n]
    elements and the last has between 1 and [n]; there is no chunk exactly
    when the list is empty; and the list is left as it was. *)
Theorem divide_spec {A : Type} (lst : list A) (n : Z) :
  0 < n ->
  exists chunks : list (list A),
    Seller.divide n lst = (Ok chunks, lst)
    /\ concat chunks = lst
    /\ (forall (k : nat) (c : list A),
          chunks !! k = Some c -> (S k < length chunks)%nat ->
          Z.of_nat (length c) = n)
    /\ (forall c : list A,
          last chunks = Some c -> 1 <= Z.of_nat (length c) <= n)
    /\ (chunks = [] <-> lst = []).
Proof.
  intros Hn. eexists. split; [by apply divide_unfold |].
  destruct (chunk_count_bounds (length lst) n Hn) as (Hcover & Hzero & Hlt).
  set (count := Z.to_nat ((Z.of_nat (length lst) + n - 1) / n)) in *.
  split; [| split; [| split]].
  - rewrite concat_chunks_of. by apply take_ge.
  - intros k c Hk Hlast. rewrite length_chunks_of in Hlast.
    apply lookup_chunks_of in Hk as [_ ->].
    rewrite length_take, length_drop.
    specialize (Hlt (S k) Hlast). simpl in Hlt. lia.
  - intros c Hc. rewrite last_lookup, length_chunks_of in Hc.
    apply lookup_chunks_of in Hc as [Hk ->].
    rewrite length_take, length_drop.
    specialize (Hlt (pred count)). lia.
  - rewrite <- (length_zero_iff_nil lst), <- Hzero.
    rewrite <- (length_zero_iff_nil (chunks_of _ _ _)).
    by rewrite length_chunks_of.
Qed.

Lemma divide_spec_witness :
  exists chunks : list (list Z),
    Seller.divide 2 [1; 2; 3; 4; 5] = (Ok chunks, [1; 2; 3; 4; 5])
    /\ concat chunks = [1; 2; 3; 4; 5]
    /\ (forall (k : nat) (c : list Z),
          chunks !! k = Some c -> (S k < length chunks)%nat ->
          Z.of_nat (length c) = 2)
    /\ (forall c : list Z,
          last chunks = Some c -> 1 <= Z.of_nat (length c) <= 2)
    /\ (chunks = [] <-> [1; 2; 3; 4; 5] = []).
Proof. apply (divide_spec [1; 2; 3; 4; 5] 2). lia. Defined.

Example divide_examples :
  Seller.divide 2 [1; 2; 3; 4; 5] = (Ok [[1; 2]; [3; 4]; [5]], [1; 2; 3; 4; 5])
  /\ Seller.divide 5 ([] : list Z) = (Ok [], [])
  /\ Seller.divide 0 [1; 2] = (Raise ValueError, [1; 2])
  /\ Seller.divide (-1) [1; 2] = (Ok [], [1; 2]).
Proof. repeat split; reflexivity. Qed.

(** ** The stock reconciler *)

Lemma filter_all {A} (P : A -> Prop) `{!forall x, Decision (P x)} (l : list A) :
  (forall x, x ∈ l -> P x) -> filter P l = l.
Proof.
  induction l as [|x l IH]; intros Hall; [done |].
  rewrite filter_cons_True by (apply Hall; left).
  f_equal. apply IH. intros y Hy. apply Hall. by right.
Qed.

Section ListRemove.
Implicit Types (x y : string) (l : list string).

Lemma list_remove_elem x l : x ∈ l -> is_Some (list_remove x l).
Proof.
  induction l as [|y l IH]; simpl; [by intros ?%elem_of_nil |].
  intros Hin. destruct (decide (x = y)) as [->|Hne]; [by eexists |].
  apply elem_of_cons in Hin as [? | Hin]; [done |].
  destruct (IH Hin) as [l' ->]. by eexists.
Qed.

Lemma list_remove_not_elem x l : x ∉ l -> list_remove x l = None.
Proof.
  induction l as [|y l IH]; simpl; [done |].
  intros Hnot. apply not_elem_of_cons in Hnot as [Hne Hnot].
  rewrite decide_False by done. by rewrite IH.
Qed.

Lemma list_remove_NoDup x l l' :
  NoDup l -> list_remove x l = Some l' ->
  l' = filter (fun y => y <> x) l.
Proof.
  revert l'. induction l as [|y l IH]; intros l' Hnd; simpl; [done |].
  apply NoDup_cons in Hnd as [Hy Hnd].
  destruct (decide (x = y)) as [->|Hne].
  - intros [= <-]. rewrite filter_cons_False by (intros H; by apply H).
    symmetry. apply filter_all. intros z Hz ->. done.
  - destruct (list_remove x l) as [r|] eqn:E; simpl; [|done].
    intros [= <-]. rewrite filter_cons_True by done.
    f_equal. by apply IH.
Qed.

Lemma without_first_NoDup x l :
  NoDup l -> without_first x l = filter (fun y => y <> x) l.
Proof.
  intros Hnd. unfold without_first.
  destruct (list_remove x l) as [l'|] eqn:E; simpl.
  - by apply list_remove_NoDup.
  - symmetry. apply filter_all. intros z Hz ->.
    apply list_remove_elem in Hz as [? Hz]. congruence.
Qed.
End ListRemove.

(** *** The source's loops, round by round *)

Lemma seller_body_round watch stocks offer_ids :
  (let! offer_ids := get in
   if bool_decide (py_str (dict_get watch "Код") ∈ offer_ids) then
     let count := py_str (dict_get watch "Количество") in
     let! stock :=
       lift (if decide (count = ">10") then Ok 100
             else if decide (count = "1") then Ok 0
             else py_int (dict_get watch "Количество")) in
     let stocks :=
       stocks ++ [{| Seller.offer_id := py_str (dict_get watch "Код");
                     Seller.stock := stock |}] in
     let! _ := Seller.offer_ids_remove (py_str (dict_get watch "Код")) in
     ret stocks
   else ret stocks) offer_ids
  = seller_round watch stocks offer_ids.
Proof.
  unfold seller_round, bind at 1, get. simpl. fold (code watch).
  destruct (bool_decide (code watch ∈ offer_ids)) eqn:Hin; [|done].
  apply bool_decide_eq_true in Hin.
  unfold bind at 1, lift. fold (stock_rule watch).
  destruct (stock_rule watch) as [stock|e]; [|done].
  unfold bind, Seller.offer_ids_remove, ret, without_first.
  destruct (list_remove_elem _ _ Hin) as [rest ->]. done.
Qed.

Lemma for_each_ext {S A B} (body body' : A -> B -> M S B) (xs : list A)
  (acc : B) (s : S) :
  (forall x acc s, body x acc s = body' x acc s) ->
  for_each xs acc body s = for_each xs acc body' s.
Proof.
  intros Hext. revert acc s. induction xs as [|x xs IH]; intros acc s; [done |].
  simpl. unfold bind. rewrite Hext.
  destruct (body' x acc s) as [[acc'|e] s']; [apply IH | done].
Qed.

Lemma for_each_seller_rounds ws stocks offer_ids :
  for_each ws stocks seller_round offer_ids = seller_rounds ws stocks offer_ids.
Proof.
  revert stocks offer_ids. induction ws as [|w ws IH]; intros stocks ids; [done |].
  simpl. unfold bind.
  destruct (seller_round w stocks ids) as [[acc'|e] s']; [apply IH | done].
Qed.

(** [seller.py]'s [create_stocks] is its first loop followed by one zero
    record for every identifier the loop left in [offer_ids]. *)
Lemma seller_create_stocks_rounds ws offer_ids :
  Seller.create_stocks ws offer_ids
  = match seller_rounds ws [] offer_ids with
    | (Ok matched, rest) => (Ok (matched ++ (zero_stock <$> rest)), rest)
    | (Raise e, rest) => (Raise e, rest)
    end.
Proof.
  unfold Seller.create_stocks, bind at 1.
  erewrite for_each_ext by (intros; apply seller_body_round).
  rewrite for_each_seller_rounds.
  destruct (seller_rounds ws [] offer_ids) as [[matched|e] rest]; [|done].
  unfold bind, get. by rewrite (for_each_append_pure zero_stock).
Qed.

(** One round of the first loop of [market.py]'s [create_stocks] does what
    a round of [seller.py]'s does, on records of the other shape. *)
Lemma market_round_seller_round warehouse_id date watch stocks w :
  market_round warehouse_id date watch (to_sku warehouse_id date <$> stocks) w
  = (result_map (fmap (to_sku warehouse_id date))
       (seller_round watch stocks (Market.offer_ids w)).1,
     with_offer_ids (seller_round watch stocks (Market.offer_ids w)).2 w).
Proof.
  destruct w as [ids utc ticks].
  unfold market_round, seller_round, bind at 1, Market.get_offer_ids,
    with_offer_ids. simpl.
  fold (code watch).
  destruct (bool_decide (code watch ∈ ids)) eqn:Hin; [|done].
  apply bool_decide_eq_true in Hin.
  unfold bind at 1, lift. fold (stock_rule watch).
  destruct (stock_rule watch) as [stock|e]; [|done].
  unfold bind, Market.offer_ids_remove, ret, without_first. simpl.
  destruct (list_remove_elem _ _ Hin) as [rest ->]. simpl.
  by rewrite fmap_app.
Qed.

Lemma market_create_stocks_unfold ws warehouse_id :
  Market.create_stocks ws warehouse_id
  = (let! date := Market.utcnow_iso in
     let! stocks := for_each ws [] (market_round warehouse_id date) in
     let! offer_ids := Market.get_offer_ids in
     for_each offer_ids stocks (fun offer_id stocks =>
       ret (stocks ++ [to_sku warehouse_id date (zero_stock offer_id)]))).
Proof. reflexivity. Qed.

Lemma market_rounds_seller_rounds warehouse_id date ws stocks w :
  for_each ws (to_sku warehouse_id date <$> stocks)
    (market_round warehouse_id date) w
  = (result_map (fmap (to_sku warehouse_id date))
       (seller_rounds ws stocks (Market.offer_ids w)).1,
     with_offer_ids (seller_rounds ws stocks (Market.offer_ids w)).2 w).
Proof.
  revert stocks w. induction ws as [|watch ws IH]; intros stocks w.
  - simpl. unfold ret, with_offer_ids. by destruct w.
  - simpl. unfold bind at 1. rewrite market_round_seller_round.
    destruct (seller_round watch stocks (Market.offer_ids w))
      as [[stocks'|e] ids']; simpl; [|done].
    by rewrite IH.
Qed.

(** [market.py]'s [create_stocks] reads the clock once and then does what
    [seller.py]'s does, every record stamped with that one reading. *)
Lemma market_create_stocks_seller ws warehouse_id w :
  Market.create_stocks ws warehouse_id w
  = (result_map (fmap (to_sku warehouse_id (Market.utc w (Market.ticks w))))
       (Seller.create_stocks ws (Market.offer_ids w)).1,
     with_offer_ids (Seller.create_stocks ws (Market.offer_ids w)).2
       (after_clock_read w)).
Proof.
  rewrite market_create_stocks_unfold, seller_create_stocks_rounds.
  unfold bind at 1, Market.utcnow_iso. simpl.
  unfold bind at 1.
  rewrite (market_rounds_seller_rounds _ _ ws [] (after_clock_read w)).
  change (Market.offer_ids (after_clock_read w)) with (Market.offer_ids w).
  destruct (seller_rounds ws [] (Market.offer_ids w)) as [[matched|e] rest];
    simpl; [|done].
  unfold bind, Market.get_offer_ids. simpl.
  rewrite (for_each_append_pure
             (fun offer_id => to_sku warehouse_id _ (zero_stock offer_id))).
  by rewrite fmap_app, <- list_fmap_compose.
Qed.

(** *** The worked example *)

(** C2, as the code has it.  On the rows [A: ">10"], [B: "1"] and the
    identifiers [A, B, C], [create_stocks] returns [A: 100], [B: 0],
    [C: 0], the matched rows first in row order, then a zero record for
    each unmatched identifier in the order of the identifier list; the call
    leaves [C], the unmatched identifier, in the list it was given. *)
Theorem create_stocks_worked_example :
  Seller.create_stocks example_rows ["A"; "B"; "C"]
  = (Ok [{| Seller.offer_id := "A"; Seller.stock := 100 |};
         {| Seller.offer_id := "B"; Seller.stock := 0 |};
         {| Seller.offer_id := "C"; Seller.stock := 0 |}],
     ["C"]).
Proof. vm_compute. reflexivity. Qed.

(** C2 as stated fails: the identifier list is not empty after the call. *)
Lemma create_stocks_leaves_unmatched :
  Seller.create_stocks example_rows ["A"; "B"; "C"]
  <> (Ok [{| Seller.offer_id := "A"; Seller.stock := 100 |};
          {| Seller.offer_id := "B"; Seller.stock := 0 |};
          {| Seller.offer_id := "C"; Seller.stock := 0 |}],
      []).
Proof. vm_compute. intros H. discriminate H. Qed.

(** ** The price reconciler leaves the identifiers alone *)

Lemma for_each_state_unchanged {S A B} (body : A -> B -> M S B) (xs : list A)
  (acc : B) (s : S) :
  (forall x acc s, (body x acc s).2 = s) ->
  (for_each xs acc body s).2 = s.
Proof.
  intros Hbody. revert acc. induction xs as [|x xs IH]; intros acc; [done |].
  simpl. unfold bind. specialize (Hbody x acc s).
  destruct (body x acc s) as [[acc'|e] s']; simpl in Hbody; subst s'; [apply IH | done].
Qed.

(** C9. [create_prices], of either marketplace, leaves the identifier list
    it is given as it was: the same elements in the same order, whether the
    call returns or raises. *)
Theorem create_prices_preserves_offer_ids
  (watch_remnants : list (gmap string pyval)) (offer_ids : list string) :
  (Seller.create_prices watch_remnants offer_ids).2 = offer_ids
  /\ (Market.create_prices watch_remnants offer_ids).2 = offer_ids.
Proof.
  split; apply for_each_state_unchanged; intros watch prices ids;
    unfold bind at 1, get; simpl;
    destruct (bool_decide _); [| done | | done].
  - unfold bind, lift, ret.
    by destruct (Seller.price_conversion_cell _).
  - unfold bind at 1, lift.
    destruct (Seller.price_conversion_cell _) as [converted|e]; [|done].
    unfold bind, ret.
    by destruct (int_of_string converted).
Qed.

(** ** One timestamp per call *)

(** C10. Within one call of [market.py]'s [create_stocks] the clock is read
    once, and every record the call returns, for a matched row as for an
    unmatched identifier, carries that reading as its [updatedAt]. *)
Theorem create_stocks_single_timestamp
  (watch_remnants : list (gmap string pyval)) (warehouse_id : string)
  (w w' : Market.world) (stocks : list Market.sku_item) :
  Market.create_stocks watch_remnants warehouse_id w = (Ok stocks, w') ->
  Forall (fun r => Market.updatedAt <$> Market.items r
                   = [Market.utc w (Market.ticks w)]) stocks
  /\ Market.ticks w' = S (Market.ticks w).
Proof.
  rewrite market_create_stocks_seller.
  destruct (Seller.create_stocks watch_remnants (Market.offer_ids w))
    as [[seller_stocks|e] rest]; simpl; [|done].
  intros [= <- <-]. split; [|done].
  apply Forall_fmap, Forall_forall. by intros r _.
Qed.

Lemma create_stocks_single_timestamp_witness :
  Forall (fun r => Market.updatedAt <$> Market.items r
                   = ["2024-05-01T10:00:00Z"])
    [to_sku "W1" "2024-05-01T10:00:00Z"
       {| Seller.offer_id := "A"; Seller.stock := 100 |};
     to_sku "W1" "2024-05-01T10:00:00Z"
       {| Seller.offer_id := "B"; Seller.stock := 0 |};
     to_sku "W1" "2024-05-01T10:00:00Z"
       {| Seller.offer_id := "C"; Seller.stock := 0 |}]
  /\ Market.ticks (with_offer_ids ["C"] (after_clock_read example_world)) = 1%nat.
Proof.
  apply (create_stocks_single_timestamp example_rows "W1" example_world).
  vm_compute. reflexivity.
Defined.

(** ** Reconciling twice *)

(** C8, as the code has it.  Two runs in a row of [seller.py]'s
    [create_stocks] on the same rows, each on a fresh copy of the same
    identifiers, return the same list (or raise the same exception at the
    first run).  Two such runs of [market.py]'s [create_stocks] return the
    records of the [seller.py] run twice, the first stamped with one reading
    of the clock and the second with the next: the two lists agree on
    everything but the [updatedAt] timestamps, and on those too when the two
    readings are the same. *)
Theorem create_stocks_twice
  (watch_remnants : list (gmap string pyval)) (offer_ids : list string)
  (warehouse_id : string) (w : Market.world) :
  seller_twice watch_remnants offer_ids
  = (result_map (fun stocks => (stocks, stocks))
       (Seller.create_stocks watch_remnants offer_ids).1,
     offer_ids)
  /\ (market_twice watch_remnants warehouse_id (with_offer_ids offer_ids w)).1
     = result_map
         (fun stocks =>
            (to_sku warehouse_id (Market.utc w (Market.ticks w)) <$> stocks,
             to_sku warehouse_id (Market.utc w (S (Market.ticks w))) <$> stocks))
         (Seller.create_stocks watch_remnants offer_ids).1
  /\ (forall (date1 date2 : string) (stocks : list Seller.stock_item),
         without_timestamp <$> (to_sku warehouse_id date1 <$> stocks)
         = without_timestamp <$> (to_sku warehouse_id date2 <$> stocks)).
Proof.
  split; [| split].
  - unfold seller_twice, bind, on_copy, ret.
    by destruct (Seller.create_stocks watch_remnants offer_ids) as [[stocks|e] rest].
  - unfold market_twice, bind, on_copy_at, ret.
    rewrite !market_create_stocks_seller. simpl.
    by destruct (Seller.create_stocks watch_remnants offer_ids) as [[stocks|e] rest].
  - intros date1 date2 stocks. by rewrite <- !list_fmap_compose.
Qed.

(** C8 as stated fails for [market.py]: the second of two runs, made on a
    fresh copy of the identifiers after the clock has moved on, returns
    other records than the first. *)
Lemma create_stocks_twice_differs :
  exists first second : list Market.sku_item,
    (market_twice example_rows "W1" example_world).1 = Ok (first, second)
    /\ first <> second.
Proof.
  eexists _, _. split; [vm_compute; reflexivity |].
  intros H. discriminate H.
Qed.

(** Without a fresh copy the second run sees what the first left behind. *)
Example create_stocks_on_used_list :
  (Seller.create_stocks example_rows
     (Seller.create_stocks example_rows ["A"; "B"; "C"]).2).1
  = Ok [{| Seller.offer_id := "C"; Seller.stock := 0 |}].
Proof. vm_compute. reflexivity. Qed.

(** ** Every listed identifier gets one stock record *)

Lemma filter_ext_in {A} (P Q : A -> Prop) `{!forall x, Decision (P x)}
  `{!forall x, Decision (Q x)} (l : list A) :
  (forall x, x ∈ l -> P x <-> Q x) -> filter P l = filter Q l.
Proof.
  induction l as [|x l IH]; intros Hiff; [done |].
  assert (filter P l = filter Q l) as Hl
    by (apply IH; intros y Hy; apply Hiff; by right).
  destruct (decide (P x)) as [HP|HP].
  - rewrite !filter_cons_True; [by rewrite Hl | | done].
    apply Hiff; [left | done].
  - rewrite !filter_cons_False; [done | | done].
    intros HQ. apply HP, Hiff; [left | done].
Qed.

(** With pairwise distinct codes and identifiers the first loop emits one
    record per row whose code is listed, and leaves the identifiers no row
    has. *)
Lemma seller_rounds_distinct ws :
  forall stocks ids,
    NoDup (code <$> ws) -> NoDup ids ->
    (forall w, w ∈ ws -> code w ∈ ids -> exists q, stock_rule w = Ok q) ->
    exists matched,
      seller_rounds ws stocks ids
      = (Ok (stocks ++ matched), filter (fun i => i ∉ code <$> ws) ids)
      /\ Forall2 record_of (filter (fun w => code w ∈ ids) ws) matched.
Proof.
  induction ws as [|w ws IH]; intros stocks ids Hcodes Hids Hok.
  - exists []. simpl. rewrite app_nil_r. split; [|constructor].
    f_equal. symmetry. apply filter_all. intros i _. apply not_elem_of_nil.
  - rewrite fmap_cons in Hcodes. apply NoDup_cons in Hcodes as [Hw Hcodes].
    simpl. unfold seller_round.
    destruct (bool_decide (code w ∈ ids)) eqn:Hin.
    + apply bool_decide_eq_true in Hin.
      destruct (Hok w) as [q Hq]; [left | done |]. rewrite Hq.
      rewrite without_first_NoDup by done.
      destruct (IH (stocks ++ [{| Seller.offer_id := code w; Seller.stock := q |}])
                  (filter (fun y => y <> code w) ids)) as (matched & Hrun & Hrec).
      * done.
      * by apply NoDup_filter.
      * intros w' Hw' Hin'. apply list_elem_of_filter in Hin' as [_ Hin'].
        apply Hok; [by right | done].
      * exists ({| Seller.offer_id := code w; Seller.stock := q |} :: matched).
        rewrite Hrun, <- app_assoc. simpl. split.
        -- f_equal. rewrite list_filter_filter. apply list_filter_iff.
           intros i. rewrite not_elem_of_cons. tauto.
        -- rewrite filter_cons_True by done. constructor; [done |].
           erewrite filter_ext_in; [exact Hrec |].
           intros w' Hw'. simpl. rewrite list_elem_of_filter.
           split; [| tauto]. intros Hin'. split; [| done].
           intros Heq. apply Hw. rewrite <- Heq. by apply list_elem_of_fmap_2.
    + apply bool_decide_eq_false in Hin.
      destruct (IH stocks ids) as (matched & Hrun & Hrec); [done | done | |].
      * intros w' Hw' Hin'. apply Hok; [by right | done].
      * exists matched. rewrite Hrun. split.
        -- f_equal. apply filter_ext_in. intros i Hi.
           rewrite not_elem_of_cons. split; [| tauto].
           intros Hnot. split; [| done]. by intros ->.
        -- by rewrite filter_cons_False.
Qed.

Lemma record_of_keys ws matched :
  Forall2 record_of ws matched -> Seller.offer_id <$> matched = code <$> ws.
Proof.
  induction 1 as [|w r ws matched [Hkey _] _ IH]; [done |].
  rewrite !fmap_cons. by rewrite Hkey, IH.
Qed.

Lemma reconciled_seller ws ids matched :
  NoDup (code <$> ws) -> NoDup ids ->
  Forall2 record_of (filter (fun w => code w ∈ ids) ws) matched ->
  reconciled Seller.offer_id (fun r q => Seller.stock r = q) ws ids
    (matched ++ (zero_stock <$> filter (fun i => i ∉ code <$> ws) ids)).
Proof.
  intros Hcodes Hids Hrec.
  set (rest := filter (fun i => i ∉ code <$> ws) ids).
  assert (Seller.offer_id <$> (matched ++ (zero_stock <$> rest))
          = (code <$> filter (fun w => code w ∈ ids) ws) ++ rest) as Hkeys.
  { rewrite fmap_app, (record_of_keys _ _ Hrec), <- list_fmap_compose.
    f_equal. by rewrite <- (list_fmap_id rest) at 2. }
  assert (NoDup (Seller.offer_id <$> (matched ++ (zero_stock <$> rest)))) as Hnd.
  { rewrite Hkeys. apply NoDup_app. split; [| split].
    - eapply sublist_NoDup; [exact Hcodes |].
      apply fmap_sublist, sublist_filter.
    - intros i Hi Hrest. apply list_elem_of_filter in Hrest as [Hnot _].
      apply Hnot. apply list_elem_of_fmap in Hi as (w & -> & Hw).
      apply list_elem_of_filter in Hw as [_ Hw]. by apply list_elem_of_fmap_2.
    - by apply NoDup_filter. }
  assert (forall k r, (matched ++ (zero_stock <$> rest)) !! k = Some r ->
            forall k' r', (matched ++ (zero_stock <$> rest)) !! k' = Some r' ->
              Seller.offer_id r' = Seller.offer_id r -> k' = k) as Honce.
  { intros k r Hk k' r' Hk' Heq.
    apply (proj1 (NoDup_alt _) Hnd k' k (Seller.offer_id r));
      rewrite list_lookup_fmap; [rewrite Hk' | rewrite Hk]; simpl; by f_equal. }
  intros id Hid. destruct (decide (id ∈ code <$> ws)) as [Hin|Hnot].
  - apply list_elem_of_fmap in Hin as (w & -> & Hw).
    assert (w ∈ filter (fun w => code w ∈ ids) ws) as Hfw
      by (by apply list_elem_of_filter).
    apply list_elem_of_lookup in Hfw as [k Hk].
    destruct (Forall2_lookup_l _ _ _ _ _ Hrec Hk) as (r & Hr & Hkey & Hq).
    exists k, r. apply (lookup_app_l_Some _ (zero_stock <$> rest)) in Hr.
    split; [done |]. split; [done |]. split.
    + intros k' r' Hk' Hkey'. apply (Honce k r Hr k' r' Hk'). congruence.
    + left. by exists w, (Seller.stock r).
  - assert (id ∈ rest) as Hrest by (by apply list_elem_of_filter).
    apply list_elem_of_lookup in Hrest as [k Hk].
    assert ((matched ++ (zero_stock <$> rest)) !! (length matched + k)%nat
            = Some (zero_stock id)) as Hr.
    { rewrite lookup_app_r by lia.
      replace (length matched + k - length matched)%nat with k by lia.
      by rewrite list_lookup_fmap, Hk. }
    exists (length matched + k)%nat, (zero_stock id).
    split; [done |]. split; [done |]. split.
    + intros k' r' Hk' Hkey'. by apply (Honce _ _ Hr k' r' Hk').
    + right. split; [| done]. intros w Hw <-. apply Hnot.
      by apply list_elem_of_fmap_2.
Qed.

Lemma reconciled_fmap {R R'} (f : R -> R') (key : R -> string)
  (key' : R' -> string) (quantity : R -> Z -> Prop)
  (quantity' : R' -> Z -> Prop) ws ids (stocks : list R) :
  (forall r, key' (f r) = key r) ->
  (forall r q, quantity r q -> quantity' (f r) q) ->
  reconciled key quantity ws ids stocks ->
  reconciled key' quantity' ws ids (f <$> stocks).
Proof.
  intros Hkey Hquantity Hrec id Hid.
  destruct (Hrec id Hid) as (k & r & Hk & Hr & Honce & Hq).
  exists k, (f r). split; [by rewrite list_lookup_fmap, Hk |].
  split; [by rewrite Hkey |]. split.
  - intros k' r' Hk' Hr'. rewrite list_lookup_fmap in Hk'.
    apply fmap_Some in Hk' as (r0 & Hk0 & ->).
    apply (Honce k' r0 Hk0). by rewrite <- Hkey.
  - destruct Hq as [(w & q & Hw & Hc & Hrule & Hq) | [Hnone Hq]].
    + left. exists w, q. auto.
    + right. auto.
Qed.

(** C1. When the rows have pairwise distinct codes, the identifiers are
    pairwise distinct and the quantity of every row with a listed code is
    one the rule table handles, [create_stocks] returns, and each identifier
    of the list it was given is in exactly one record of the result, with
    the quantity of the row of that code, or zero when there is no such
    row.  This holds for [seller.py] and for [market.py]. *)
Theorem create_stocks_reconciles
  (watch_remnants : list (gmap string pyval)) (offer_ids : list string) :
  NoDup (code <$> watch_remnants) ->
  NoDup offer_ids ->
  (forall watch, watch ∈ watch_remnants -> code watch ∈ offer_ids ->
                 exists q, stock_rule watch = Ok q) ->
  (exists stocks rest,
      Seller.create_stocks watch_remnants offer_ids = (Ok stocks, rest)
      /\ reconciled Seller.offer_id (fun r q => Seller.stock r = q)
           watch_remnants offer_ids stocks)
  /\ (forall (warehouse_id : string) (w : Market.world),
         exists stocks w',
           Market.create_stocks watch_remnants warehouse_id
             (with_offer_ids offer_ids w) = (Ok stocks, w')
           /\ reconciled Market.sku
                (fun r q => Market.count <$> Market.items r = [q])
                watch_remnants offer_ids stocks).
Proof.
  intros Hcodes Hids Hok.
  destruct (seller_rounds_distinct watch_remnants [] offer_ids Hcodes Hids Hok)
    as (matched & Hrun & Hrec).
  pose proof (reconciled_seller _ _ _ Hcodes Hids Hrec) as Hseller.
  assert (Seller.create_stocks watch_remnants offer_ids
          = (Ok (matched ++ (zero_stock <$>
                   filter (fun i => i ∉ code <$> watch_remnants) offer_ids)),
             filter (fun i => i ∉ code <$> watch_remnants) offer_ids)) as Hcall
    by (by rewrite seller_create_stocks_rounds, Hrun).
  split.
  - by eexists _, _.
  - intros warehouse_id w. eexists _, _.
    rewrite market_create_stocks_seller. simpl. rewrite Hcall. simpl.
    split; [reflexivity |].
    by apply (reconciled_fmap _ Seller.offer_id _ (fun r q => Seller.stock r = q));
      [| intros r q <- |].
Qed.

Lemma create_stocks_reconciles_witness :
  (exists stocks rest,
      Seller.create_stocks example_rows ["A"; "B"; "C"] = (Ok stocks, rest)
      /\ reconciled Seller.offer_id (fun r q => Seller.stock r = q)
           example_rows ["A"; "B"; "C"] stocks)
  /\ (forall (warehouse_id : string) (w : Market.world),
         exists stocks w',
           Market.create_stocks example_rows warehouse_id
             (with_offer_ids ["A"; "B"; "C"] w) = (Ok stocks, w')
           /\ reconciled Market.sku
                (fun r q => Market.count <$> Market.items r = [q])
                example_rows ["A"; "B"; "C"] stocks).
Proof.
  apply (create_stocks_reconciles example_rows ["A"; "B"; "C"]).
  - apply (bool_decide_unpack _). vm_compute. exact I.
  - apply (bool_decide_unpack _). vm_compute. exact I.
  - intros watch Hwatch _. apply list_elem_of_In in Hwatch. simpl in Hwatch.
    destruct Hwatch as [<- | [<- | []]]; eexists; vm_compute; reflexivity.
Defined.

(** ** The quantity rule at a matched row *)

Lemma seller_rounds_acc ws :
  forall stocks ids,
    seller_rounds ws stocks ids
    = (result_map (app stocks) (seller_rounds ws [] ids).1,
       (seller_rounds ws [] ids).2).
Proof.
  induction ws as [|w ws IH]; intros stocks ids; simpl.
  - by rewrite app_nil_r.
  - unfold seller_round. destruct (bool_decide (code w ∈ ids)); [|apply IH].
    destruct (stock_rule w) as [q|e]; [|done].
    rewrite IH. rewrite (IH ([] ++ _)). simpl.
    destruct (seller_rounds ws [] _) as [[matched|e] rest]; simpl; [|done].
    by rewrite <- app_assoc.
Qed.

Lemma seller_rounds_app ws1 ws2 stocks ids :
  seller_rounds (ws1 ++ ws2) stocks ids
  = match seller_rounds ws1 stocks ids with
    | (Ok stocks', ids') => seller_rounds ws2 stocks' ids'
    | (Raise e, ids') => (Raise e, ids')
    end.
Proof.
  revert stocks ids. induction ws1 as [|w ws1 IH]; intros stocks ids; [done |].
  simpl. destruct (seller_round w stocks ids) as [[stocks'|e] ids']; [apply IH | done].
Qed.

(** What a returning call of [create_stocks] tells about its first loop. *)
Lemma seller_create_stocks_Ok ws ids stocks rest :
  Seller.create_stocks ws ids = (Ok stocks, rest) ->
  exists matched,
    seller_rounds ws [] ids = (Ok matched, rest)
    /\ stocks = matched ++ (zero_stock <$> rest)
    /\ (length stocks - length rest)%nat = length matched.
Proof.
  rewrite seller_create_stocks_rounds.
  destruct (seller_rounds ws [] ids) as [[matched|e] rest']; [|done].
  intros [= <- <-]. exists matched. split; [done |]. split; [done |].
  rewrite length_app, length_fmap. lia.
Qed.

(** The first loop on a row whose code is listed when its turn comes. *)
Lemma seller_rounds_at_match ws1 w ws2 ids matched1 rest1 :
  seller_rounds ws1 [] ids = (Ok matched1, rest1) ->
  code w ∈ rest1 ->
  seller_rounds (ws1 ++ w :: ws2) [] ids
  = match stock_rule w with
    | Ok q =>
        seller_rounds ws2
          (matched1 ++ [{| Seller.offer_id := code w; Seller.stock := q |}])
          (without_first (code w) rest1)
    | Raise e => (Raise e, rest1)
    end.
Proof.
  intros Hrun Hin. rewrite seller_rounds_app, Hrun. simpl.
  unfold seller_round. rewrite bool_decide_eq_true_2 by done.
  by destruct (stock_rule w).
Qed.

(** C3. Take a row whose code is in the identifier list when its turn
    comes, that is, in the list left by reconciling the rows before it.  In
    the result of a returning call the record of that row, which comes right
    after the records of the matched rows before it, has quantity 100 when
    the row's quantity text is [">10"], 0 when it is ["1"], and otherwise
    the integer the cell parses to.  [market.py] emits the same quantity at
    the same position. *)
Theorem stock_quantity_rule
  (before : list (gmap string pyval)) (watch : gmap string pyval)
  (after : list (gmap string pyval)) (offer_ids : list string)
  (stocks_before stocks : list Seller.stock_item)
  (rest_ids rest : list string) :
  Seller.create_stocks before offer_ids = (Ok stocks_before, rest_ids) ->
  code watch ∈ rest_ids ->
  Seller.create_stocks (before ++ watch :: after) offer_ids = (Ok stocks, rest) ->
  let count := py_str (dict_get watch "Количество") in
  let position := (length stocks_before - length rest_ids)%nat in
  exists q : Z,
    (count = ">10" -> q = 100)
    /\ (count = "1" -> q = 0)
    /\ (count <> ">10" -> count <> "1" ->
        py_int (dict_get watch "Количество") = Ok q)
    /\ stocks !! position
       = Some {| Seller.offer_id := code watch; Seller.stock := q |}
    /\ forall (warehouse_id : string) (w : Market.world),
         exists market_stocks w',
           Market.create_stocks (before ++ watch :: after) warehouse_id
             (with_offer_ids offer_ids w) = (Ok market_stocks, w')
           /\ market_stocks !! position
              = Some {| Market.sku := code watch;
                        Market.warehouseId := warehouse_id;
                        Market.items :=
                          [{| Market.count := q;
                              Market.type := "FIT";
                              Market.updatedAt := Market.utc w (Market.ticks w) |}] |}.
Proof.
  intros Hbefore Hin Hcall count position.
  apply seller_create_stocks_Ok in Hbefore as (matched1 & Hrun1 & _ & Hpos).
  fold position in Hpos.
  destruct (seller_create_stocks_Ok _ _ _ _ Hcall) as (matched & Hrun & -> & _).
  rewrite (seller_rounds_at_match _ _ _ _ _ _ Hrun1 Hin) in Hrun.
  destruct (stock_rule watch) as [q|e] eqn:Hrule; [|done].
  rewrite seller_rounds_acc in Hrun.
  destruct (seller_rounds after [] _) as [[matched2|e] rest2]; [|done].
  simpl in Hrun. injection Hrun as <- _.
  assert (((matched1 ++ [{| Seller.offer_id := code watch; Seller.stock := q |}])
             ++ matched2 ++ (zero_stock <$> rest)) !! position
          = Some {| Seller.offer_id := code watch; Seller.stock := q |}) as Hlookup
    by (rewrite <- app_assoc, Hpos; by apply list_lookup_middle).
  exists q. unfold stock_rule in Hrule. fold count in Hrule.
  split; [| split; [| split; [| split]]].
  - intros Hc. rewrite decide_True in Hrule by done. congruence.
  - intros Hc. destruct (decide (count = ">10")) as [Hc'|_]; [congruence |].
    rewrite decide_True in Hrule by done. congruence.
  - intros H1 H2. by rewrite !decide_False in Hrule.
  - by rewrite <- app_assoc.
  - intros warehouse_id w. eexists _, _.
    rewrite market_create_stocks_seller. simpl. rewrite Hcall. simpl.
    split; [reflexivity |].
    by rewrite list_lookup_fmap, <- app_assoc, Hlookup.
Qed.

Lemma stock_quantity_rule_witness :
  exists q : Z,
    (py_str (dict_get row_B5 "Количество") = ">10" -> q = 100)
    /\ (py_str (dict_get row_B5 "Количество") = "1" -> q = 0)
    /\ (py_str (dict_get row_B5 "Количество") <> ">10" ->
        py_str (dict_get row_B5 "Количество") <> "1" ->
        py_int (dict_get row_B5 "Количество") = Ok q)
    /\ [{| Seller.offer_id := "A"; Seller.stock := 100 |};
        {| Seller.offer_id := "B"; Seller.stock := 5 |};
        {| Seller.offer_id := "C"; Seller.stock := 0 |}] !! 1%nat
       = Some {| Seller.offer_id := code row_B5; Seller.stock := q |}
    /\ forall (warehouse_id : string) (w : Market.world),
         exists market_stocks w',
           Market.create_stocks (take 1 example_rows ++ row_B5 :: [])
             warehouse_id (with_offer_ids ["A"; "B"; "C"] w)
           = (Ok market_stocks, w')
           /\ market_stocks !! 1%nat
              = Some {| Market.sku := code row_B5;
                        Market.warehouseId := warehouse_id;
                        Market.items :=
                          [{| Market.count := q;
                              Market.type := "FIT";
                              Market.updatedAt := Market.utc w (Market.ticks w) |}] |}.
Proof.
  apply (stock_quantity_rule (take 1 example_rows) row_B5 [] ["A"; "B"; "C"]
           [{| Seller.offer_id := "A"; Seller.stock := 100 |};
            {| Seller.offer_id := "B"; Seller.stock := 0 |};
            {| Seller.offer_id := "C"; Seller.stock := 0 |}]
           [{| Seller.offer_id := "A"; Seller.stock := 100 |};
            {| Seller.offer_id := "B"; Seller.stock := 5 |};
            {| Seller.offer_id := "C"; Seller.stock := 0 |}]
           ["B"; "C"] ["C"]).
  - vm_compute. reflexivity.
  - apply (bool_decide_unpack _). vm_compute. exact I.
  - vm_compute. reflexivity.
Defined.

(** ** The price reconciler *)

Lemma seller_create_prices_rounds ws ids :
  Seller.create_prices ws ids = (price_rounds seller_price_of ids ws [], ids).
Proof.
  unfold Seller.create_prices. generalize (@nil Seller.price_item) at 1 3.
  unfold bind, get, lift, ret.
  induction ws as [|w ws IH]; intros prices; [done |].
  simpl. unfold bind. simpl. fold (code w).
  destruct (bool_decide (code w ∈ ids)); [| apply IH].
  unfold seller_price_of.
  destruct (Seller.price_conversion_cell _) as [converted|e]; simpl; [apply IH | done].
Qed.

Lemma market_create_prices_rounds ws ids :
  Market.create_prices ws ids = (price_rounds market_price_of ids ws [], ids).
Proof.
  unfold Market.create_prices. generalize (@nil Market.offer_price) at 1 3.
  unfold bind, get, lift, ret.
  induction ws as [|w ws IH]; intros prices; [done |].
  simpl. unfold bind. simpl. fold (code w).
  destruct (bool_decide (code w ∈ ids)); [| apply IH].
  unfold market_price_of.
  destruct (Seller.price_conversion_cell _) as [converted|e]; simpl; [| done].
  destruct (int_of_string converted) as [value|e]; simpl; [apply IH | done].
Qed.

Section PriceRounds.
Context {R : Type} (price_of : gmap string pyval -> result R).
Implicit Types (ws : list (gmap string pyval)) (ids : list string)
  (prices : list R).

Lemma price_rounds_app ws1 ws2 ids prices :
  price_rounds price_of ids (ws1 ++ ws2) prices
  = match price_rounds price_of ids ws1 prices with
    | Ok prices' => price_rounds price_of ids ws2 prices'
    | Raise e => Raise e
    end.
Proof.
  revert prices. induction ws1 as [|w ws1 IH]; intros prices; [done |].
  simpl. destruct (bool_decide (code w ∈ ids)); [| apply IH].
  destruct (price_of w); [apply IH | done].
Qed.

(** When every listed row yields a record, the loop returns the records
    of the listed rows, in row order. *)
Lemma price_rounds_all_ok ws ids :
  (forall w, w ∈ ws -> code w ∈ ids -> exists p, price_of w = Ok p) ->
  forall prices,
  exists emitted,
    price_rounds price_of ids ws prices = Ok (prices ++ emitted)
    /\ Forall2 (fun w p => price_of w = Ok p)
         (filter (fun w => code w ∈ ids) ws) emitted.
Proof.
  induction ws as [|w ws IH]; intros Hok prices.
  - exists []. simpl. rewrite app_nil_r. split; [done | constructor].
  - simpl. destruct (bool_decide (code w ∈ ids)) eqn:Hin.
    + apply bool_decide_eq_true in Hin.
      destruct (Hok w) as [p Hp]; [left | done |]. rewrite Hp.
      destruct (IH (fun w' Hw' => Hok w' (list_elem_of_further _ _ _ Hw'))
                  (prices ++ [p])) as (emitted & Hrun & Hrec).
      exists (p :: emitted). rewrite Hrun, <- app_assoc.
      split; [done |]. rewrite filter_cons_True by done. by constructor.
    + apply bool_decide_eq_false in Hin.
      destruct (IH (fun w' Hw' => Hok w' (list_elem_of_further _ _ _ Hw'))
                  prices) as (emitted & Hrun & Hrec).
      exists emitted. split; [done |]. by rewrite filter_cons_False.
Qed.

(** A listed row that yields no record makes the loop raise. *)
Lemma price_rounds_raise ws1 w ws2 ids prices prices1 e :
  price_rounds price_of ids ws1 prices = Ok prices1 ->
  code w ∈ ids -> price_of w = Raise e ->
  price_rounds price_of ids (ws1 ++ w :: ws2) prices = Raise e.
Proof.
  intros Hrun Hin Hraise. rewrite price_rounds_app, Hrun. simpl.
  by rewrite bool_decide_eq_true_2, Hraise.
Qed.
End PriceRounds.

(** *** [int()] on the output of the normalizer *)

Lemma re_sub_non_digits_all_digits (s : string) :
  all_digits (re_sub_non_digits s) = true.
Proof.
  induction s as [|c s IH]; simpl; [done |].
  destruct (is_digit c) eqn:Hc; simpl; [by rewrite Hc | done].
Qed.

Lemma is_digit_cases (c : ascii) :
  is_digit c = true ->
  is_space c = false /\ Ascii.eqb c "_" = false
  /\ c <> "-"%char /\ c <> "+"%char.
Proof.
  destruct c as [[] [] [] [] [] [] [] []]; vm_compute; intros H;
    try discriminate H; repeat split; discriminate.
Qed.

Lemma lstrip_all_digits (s : string) : all_digits s = true -> lstrip s = s.
Proof.
  destruct s as [|c s]; simpl; [done |].
  intros [Hc _]%andb_prop. by destruct (is_digit_cases c Hc) as [-> _].
Qed.

Lemma rstrip_all_digits (s : string) : all_digits s = true -> rstrip s = s.
Proof.
  induction s as [|c s IH]; [done |].
  intros [Hc Hs]%andb_prop. simpl. rewrite (IH Hs).
  destruct (is_digit_cases c Hc) as [-> _]. by destruct s.
Qed.

Lemma parse_digits_all_digits (s : string) :
  forall (acc : Z) (after_digit : bool),
    all_digits s = true -> s <> EmptyString \/ after_digit = true ->
    parse_digits acc after_digit s = Some (decimal_from acc s).
Proof.
  induction s as [|c s IH]; intros acc after_digit Hs Hne; simpl.
  - by destruct Hne as [? | ->].
  - apply andb_prop in Hs as [Hc Hs]. rewrite Hc. apply IH; auto.
Qed.

Lemma int_of_string_digits (s : string) :
  all_digits s = true -> s <> EmptyString ->
  int_of_string s = Ok (decimal_value s).
Proof.
  intros Hs Hne. unfold int_of_string.
  rewrite (lstrip_all_digits s Hs), (rstrip_all_digits s Hs).
  assert (parse_digits 0 false s = Some (decimal_value s)) as Hparse
    by (apply parse_digits_all_digits; auto).
  destruct s as [|c s]; [done |].
  apply andb_prop in Hs as [Hc _].
  destruct (is_digit_cases c Hc) as (_ & _ & Hminus & Hplus).
  destruct c as [[] [] [] [] [] [] [] []];
    try discriminate Hc; try done; by rewrite Hparse.
Qed.

Lemma market_price_of_text watch s :
  dict_get watch "Цена" = PyStr s ->
  market_price_of watch
  = if decide (Seller.price_conversion s = EmptyString) then Raise ValueError
    else Ok {| Market.id := code watch;
               Market.price :=
                 {| Market.value := decimal_value (Seller.price_conversion s);
                    Market.currencyId := "RUR" |} |}.
Proof.
  intros Hcell. unfold market_price_of. rewrite Hcell. simpl.
  destruct (decide (Seller.price_conversion s = EmptyString)) as [-> | Hne]; [done |].
  rewrite int_of_string_digits; [done | | done].
  rewrite price_conversion_before_first. apply re_sub_non_digits_all_digits.
Qed.

Lemma seller_price_of_text watch s :
  dict_get watch "Цена" = PyStr s ->
  seller_price_of watch
  = Ok {| Seller.auto_action_enabled := "UNKNOWN";
          Seller.currency_code := "RUB";
          Seller.price_offer_id := code watch;
          Seller.old_price := "0";
          Seller.price := Seller.price_conversion s |}.
Proof. intros Hcell. unfold seller_price_of. by rewrite Hcell. Qed.

(** With a text price in every listed row, [seller.py]'s [create_prices]
    returns one record per listed row, in row order. *)
Lemma seller_create_prices_text ws ids :
  (forall w, w ∈ ws -> code w ∈ ids -> exists s, dict_get w "Цена" = PyStr s) ->
  exists prices,
    Seller.create_prices ws ids = (Ok prices, ids)
    /\ Forall2 seller_price_record (filter (fun w => code w ∈ ids) ws) prices.
Proof.
  intros Htext. rewrite seller_create_prices_rounds.
  destruct (price_rounds_all_ok seller_price_of ws ids) with (prices := @nil Seller.price_item)
    as (emitted & -> & Hrec).
  - intros w Hw Hin. destruct (Htext w Hw Hin) as [s Hs].
    rewrite (seller_price_of_text w s Hs). by eexists.
  - exists emitted. split; [done |].
    eapply Forall2_impl; [exact Hrec |].
    intros w p Hp. unfold seller_price_of in Hp. unfold seller_price_record.
    destruct (dict_get w "Цена") as [|s|z]; simpl in Hp; try done.
    exists s. split; [done | congruence].
Qed.

Lemma Forall2_impl_Forall {A B} (P P' : A -> B -> Prop) (Q : A -> Prop)
  (l : list A) (k : list B) :
  Forall2 P l k -> Forall Q l ->
  (forall x y, Q x -> P x y -> P' x y) ->
  Forall2 P' l k.
Proof.
  intros HP HQ Himpl. induction HP as [|x y l k Hxy _ IH]; [constructor |].
  apply Forall_cons in HQ as [Hx HQ]. constructor; auto.
Qed.

(** C5, as the code has it.  When every row with a listed code has a text
    price whose normalized form is not empty, [create_prices] returns one
    record for each such row, in row order, and nothing else, so no record
    for an identifier no row has.  In [market.py] the record's price is the
    number the normalized digits denote; in [seller.py] it is the normalized
    string itself.  The row [A: "999.00"] with the identifiers [A, B] gives
    the single record [A: 999] in [market.py] and [A: "999"] in
    [seller.py]. *)
Theorem create_prices_records :
  (forall (watch_remnants : list (gmap string pyval)) (offer_ids : list string),
      (forall watch,
          watch ∈ watch_remnants -> code watch ∈ offer_ids ->
          exists s, dict_get watch "Цена" = PyStr s
                    /\ Seller.price_conversion s <> EmptyString) ->
      exists (market_prices : list Market.offer_price)
             (seller_prices : list Seller.price_item),
        Market.create_prices watch_remnants offer_ids = (Ok market_prices, offer_ids)
        /\ Forall2 market_price_record
             (filter (fun watch => code watch ∈ offer_ids) watch_remnants)
             market_prices
        /\ Seller.create_prices watch_remnants offer_ids = (Ok seller_prices, offer_ids)
        /\ Forall2 seller_price_record
             (filter (fun watch => code watch ∈ offer_ids) watch_remnants)
             seller_prices)
  /\ Market.create_prices [row_A999] ["A"; "B"]
     = (Ok [{| Market.id := "A";
               Market.price := {| Market.value := 999;
                                  Market.currencyId := "RUR" |} |}],
        ["A"; "B"])
  /\ Seller.create_prices [row_A999] ["A"; "B"]
     = (Ok [{| Seller.auto_action_enabled := "UNKNOWN";
               Seller.currency_code := "RUB";
               Seller.price_offer_id := "A";
               Seller.old_price := "0";
               Seller.price := "999" |}],
        ["A"; "B"]).
Proof.
  split; [| split; vm_compute; reflexivity].
  intros ws ids Htext.
  destruct (seller_create_prices_text ws ids) as (seller_prices & Hseller & Hrec).
  { intros w Hw Hin. destruct (Htext w Hw Hin) as (s & Hs & _). by exists s. }
  destruct (price_rounds_all_ok market_price_of ws ids) with (prices := @nil Market.offer_price)
    as (market_prices & Hmarket & Hmrec).
  { intros w Hw Hin. destruct (Htext w Hw Hin) as (s & Hs & Hne).
    rewrite (market_price_of_text w s Hs), decide_False by done. by eexists. }
  exists market_prices, seller_prices.
  rewrite market_create_prices_rounds, Hmarket.
  split; [done |]. split; [| done].
  assert (Forall (fun w => w ∈ ws /\ code w ∈ ids)
            (filter (fun w => code w ∈ ids) ws)) as Hall.
  { apply Forall_forall. intros w [? ?]%list_elem_of_filter. done. }
  apply (Forall2_impl_Forall _ _ _ _ _ Hmrec Hall).
  intros w p [Hw Hin] Hp. destruct (Htext w Hw Hin) as (s & Hs & Hne).
  rewrite (market_price_of_text w s Hs), decide_False in Hp by done.
  exists s. split; [done | congruence].
Qed.

Lemma create_prices_records_witness :
  exists (market_prices : list Market.offer_price)
         (seller_prices : list Seller.price_item),
    Market.create_prices [row_A999] ["A"; "B"] = (Ok market_prices, ["A"; "B"])
    /\ Forall2 market_price_record
         (filter (fun watch => code watch ∈ ["A"; "B"]) [row_A999]) market_prices
    /\ Seller.create_prices [row_A999] ["A"; "B"] = (Ok seller_prices, ["A"; "B"])
    /\ Forall2 seller_price_record
         (filter (fun watch => code watch ∈ ["A"; "B"]) [row_A999]) seller_prices.
Proof.
  apply (proj1 create_prices_records [row_A999] ["A"; "B"]).
  intros watch Hwatch _. apply list_elem_of_In in Hwatch. simpl in Hwatch.
  destruct Hwatch as [<- | []]. exists "999.00". split; [reflexivity |].
  vm_compute. intros H. discriminate H.
Defined.

(** C5 as stated fails: a listed row whose normalized price is empty does
    not give a record with price 0; the call raises. *)
Lemma create_prices_empty_price_raises :
  Market.create_prices [row_fraction_only] ["A"; "B"]
  = (Raise ValueError, ["A"; "B"]).
Proof. vm_compute. reflexivity. Qed.

(** ** Malformed cells *)

(** C4, as the code has it.  In [seller.py]'s [create_prices] a text
    price, however malformed, never makes the call raise: the record carries
    the digits found before the first ['.'], possibly none.  The other
    reconcilers do raise on a malformed cell.  [create_stocks] raises, with
    the exception of [int()], at the first row whose code is still listed
    and whose quantity is neither [">10"] nor ["1"] nor accepted by [int()];
    [market.py]'s [create_prices] raises [ValueError] at the first listed row
    whose normalized price is empty. *)
Theorem malformed_cells :
  (forall (watch_remnants : list (gmap string pyval)) (offer_ids : list string),
      (forall watch,
          watch ∈ watch_remnants -> code watch ∈ offer_ids ->
          exists s, dict_get watch "Цена" = PyStr s) ->
      exists seller_prices : list Seller.price_item,
        Seller.create_prices watch_remnants offer_ids = (Ok seller_prices, offer_ids)
        /\ Forall2 seller_price_record
             (filter (fun watch => code watch ∈ offer_ids) watch_remnants)
             seller_prices)
  /\ (forall (before : list (gmap string pyval)) (watch : gmap string pyval)
             (after : list (gmap string pyval)) (offer_ids rest_ids : list string)
             (stocks_before : list Seller.stock_item) (e : pyexc),
         Seller.create_stocks before offer_ids = (Ok stocks_before, rest_ids) ->
         code watch ∈ rest_ids ->
         py_str (dict_get watch "Количество") <> ">10" ->
         py_str (dict_get watch "Количество") <> "1" ->
         py_int (dict_get watch "Количество") = Raise e ->
         Seller.create_stocks (before ++ watch :: after) offer_ids
         = (Raise e, rest_ids)
         /\ forall (warehouse_id : string) (w : Market.world),
              (Market.create_stocks (before ++ watch :: after) warehouse_id
                 (with_offer_ids offer_ids w)).1 = Raise e)
  /\ (forall (before : list (gmap string pyval)) (watch : gmap string pyval)
             (after : list (gmap string pyval)) (offer_ids : list string)
             (prices_before : list Market.offer_price) (s : string),
         Market.create_prices before offer_ids = (Ok prices_before, offer_ids) ->
         code watch ∈ offer_ids ->
         dict_get watch "Цена" = PyStr s ->
         Seller.price_conversion s = EmptyString ->
         Market.create_prices (before ++ watch :: after) offer_ids
         = (Raise ValueError, offer_ids)).
Proof.
  split; [exact seller_create_prices_text | split].
  - intros before watch after ids rest_ids stocks_before e Hbefore Hin H10 H1 Hint.
    apply seller_create_stocks_Ok in Hbefore as (matched1 & Hrun1 & _ & _).
    assert (stock_rule watch = Raise e) as Hrule
      by (unfold stock_rule; by rewrite !decide_False).
    assert (Seller.create_stocks (before ++ watch :: after) ids
            = (Raise e, rest_ids)) as Hcall.
    { rewrite seller_create_stocks_rounds.
      by rewrite (seller_rounds_at_match _ _ _ _ _ _ Hrun1 Hin), Hrule. }
    split; [done |]. intros warehouse_id w.
    rewrite market_create_stocks_seller. simpl. by rewrite Hcall.
  - intros before watch after ids prices_before s Hbefore Hin Hcell Hempty.
    rewrite market_create_prices_rounds in Hbefore |- *.
    injection Hbefore as Hbefore. f_equal.
    apply (price_rounds_raise _ _ _ _ _ _ _ _ Hbefore Hin).
    by rewrite (market_price_of_text watch s Hcell), decide_True.
Qed.

Lemma malformed_cells_witness :
  Seller.create_stocks ([] ++ row_bad_quantity :: []) ["A"; "B"]
  = (Raise ValueError, ["A"; "B"])
  /\ forall (warehouse_id : string) (w : Market.world),
       (Market.create_stocks ([] ++ row_bad_quantity :: []) warehouse_id
          (with_offer_ids ["A"; "B"] w)).1 = Raise ValueError.
Proof.
  apply (proj1 (proj2 malformed_cells) [] row_bad_quantity [] ["A"; "B"]
           ["A"; "B"] [zero_stock "A"; zero_stock "B"] ValueError).
  - vm_compute. reflexivity.
  - apply (bool_decide_unpack _). vm_compute. exact I.
  - vm_compute. intros H. discriminate H.
  - vm_compute. intros H. discriminate H.
  - vm_compute. reflexivity.
Defined.

(** C4 as stated fails: a listed row with the quantity ["abc"] makes
    [create_stocks] raise, and a listed row with the price [".12"] makes
    [market.py]'s [create_prices] raise. *)
Lemma malformed_cell_raises :
  Seller.create_stocks [row_bad_quantity] ["A"; "B"]
  = (Raise ValueError, ["A"; "B"])
  /\ Market.create_prices [row_fraction_only] ["A"; "B"]
     = (Raise ValueError, ["A"; "B"]).
Proof. split; vm_compute; reflexivity. Qed.

(** * Further properties of the reconcilers *)

(** ** Stock records and identifiers, duplicates allowed *)

Lemma list_remove_Permutation x l l' :
  list_remove x l = Some l' -> l ≡ₚ x :: l' /\ l' `sublist_of` l.
Proof.
  revert l'. induction l as [|y l IH]; intros l'; simpl; [done |].
  destruct (decide (x = y)) as [->|Hne].
  - intros [= <-]. split; [done | by apply sublist_cons].
  - destruct (list_remove x l) as [r|] eqn:E; simpl; [|done].
    intros [= <-]. destruct (IH r eq_refl) as [Hperm Hsub]. split.
    + rewrite Hperm. apply Permutation_swap.
    + by apply sublist_skip.
Qed.

(** Each round that emits a record takes one occurrence of the record's
    identifier out of the list. *)
Lemma seller_rounds_Permutation ws :
  forall stocks ids matched rest,
    seller_rounds ws stocks ids = (Ok matched, rest) ->
    (Seller.offer_id <$> matched) ++ rest ≡ₚ (Seller.offer_id <$> stocks) ++ ids
    /\ rest `sublist_of` ids.
Proof.
  induction ws as [|w ws IH]; intros stocks ids matched rest; simpl.
  - by intros [= <- <-].
  - unfold seller_round.
    destruct (bool_decide (code w ∈ ids)) eqn:Hin; [| apply IH].
    apply bool_decide_eq_true in Hin.
    destruct (stock_rule w) as [q|e]; [|done].
    intros Hrun. apply IH in Hrun as [Hperm Hsub].
    unfold without_first in Hperm, Hsub.
    destruct (list_remove_elem _ _ Hin) as [ids' Hids'].
    rewrite Hids' in Hperm, Hsub. simpl in Hperm, Hsub.
    destruct (list_remove_Permutation _ _ _ Hids') as [Hperm' Hsub'].
    split; [| by etransitivity].
    rewrite Hperm, fmap_app, Hperm', <- app_assoc. done.
Qed.

(** X1. Whatever the duplicates among codes and identifiers, the
    identifiers of the records a returning [create_stocks] gives are a
    rearrangement of the identifier list it was given: one record for each
    occurrence of an identifier, and none for a code that is not listed.  The
    identifiers left in the list are some of the original ones, in their
    original order. *)
Theorem create_stocks_identifiers
  (watch_remnants : list (gmap string pyval)) (offer_ids rest : list string)
  (stocks : list Seller.stock_item) :
  Seller.create_stocks watch_remnants offer_ids = (Ok stocks, rest) ->
  Seller.offer_id <$> stocks ≡ₚ offer_ids
  /\ length stocks = length offer_ids
  /\ rest `sublist_of` offer_ids
  /\ forall (warehouse_id : string) (w : Market.world),
       exists market_stocks w',
         Market.create_stocks watch_remnants warehouse_id
           (with_offer_ids offer_ids w) = (Ok market_stocks, w')
         /\ Market.sku <$> market_stocks ≡ₚ offer_ids
         /\ Market.offer_ids w' `sublist_of` offer_ids.
Proof.
  intros Hcall.
  destruct (seller_create_stocks_Ok _ _ _ _ Hcall) as (matched & Hrun & -> & _).
  destruct (seller_rounds_Permutation _ _ _ _ _ Hrun) as [Hperm Hsub].
  simpl in Hperm.
  assert (Seller.offer_id <$> matched ++ (zero_stock <$> rest) ≡ₚ offer_ids) as Hkeys.
  { rewrite fmap_app, <- list_fmap_compose, <- Hperm.
    f_equiv. by rewrite <- (list_fmap_id rest) at 2. }
  split; [done |]. split; [| split; [done |]].
  - by rewrite <- Hkeys, length_fmap.
  - intros warehouse_id w. eexists _, _.
    rewrite market_create_stocks_seller. simpl. rewrite Hcall. simpl.
    split; [reflexivity |]. split; [| done].
    by rewrite <- list_fmap_compose.
Qed.

Lemma create_stocks_identifiers_witness :
  Seller.offer_id <$>
    [{| Seller.offer_id := "A"; Seller.stock := 100 |};
     {| Seller.offer_id := "C"; Seller.stock := 0 |};
     {| Seller.offer_id := "A"; Seller.stock := 0 |}] ≡ₚ ["A"; "C"; "A"]
  /\ length
       [{| Seller.offer_id := "A"; Seller.stock := 100 |};
        {| Seller.offer_id := "C"; Seller.stock := 0 |};
        {| Seller.offer_id := "A"; Seller.stock := 0 |}]
     = length ["A"; "C"; "A"]
  /\ ["C"; "A"] `sublist_of` ["A"; "C"; "A"]
  /\ forall (warehouse_id : string) (w : Market.world),
       exists market_stocks w',
         Market.create_stocks (take 1 example_rows) warehouse_id
           (with_offer_ids ["A"; "C"; "A"] w) = (Ok market_stocks, w')
         /\ Market.sku <$> market_stocks ≡ₚ ["A"; "C"; "A"]
         /\ Market.offer_ids w' `sublist_of` ["A"; "C"; "A"].
Proof.
  apply (create_stocks_identifiers (take 1 example_rows) ["A"; "C"; "A"] ["C"; "A"]).
  vm_compute. reflexivity.
Defined.

(** ** Prices after stocks, on the same list *)

(** With distinct identifiers, no row's code is left in the list once the
    first loop is over: a row whose code was listed has had it removed. *)
Lemma seller_rounds_consume ws :
  forall stocks ids matched rest,
    NoDup ids ->
    seller_rounds ws stocks ids = (Ok matched, rest) ->
    forall w, w ∈ ws -> code w ∉ rest.
Proof.
  induction ws as [|w ws IH]; intros stocks ids matched rest Hids Hrun w0 Hw0.
  - by apply elem_of_nil in Hw0.
  - simpl in Hrun. unfold seller_round in Hrun.
    destruct (bool_decide (code w ∈ ids)) eqn:Hin.
    + destruct (stock_rule w) as [q|e]; [|done].
      rewrite without_first_NoDup in Hrun by done.
      apply elem_of_cons in Hw0 as [-> | Hw0].
      * destruct (seller_rounds_Permutation _ _ _ _ _ Hrun) as [_ Hsub].
        intros Hrest. apply (elem_of_sublist _ _ _ Hrest) in Hsub.
        apply list_elem_of_filter in Hsub as [Hne _]. by apply Hne.
      * by apply (IH _ _ _ _ (NoDup_filter _ _ Hids) Hrun).
    + apply bool_decide_eq_false in Hin.
      apply elem_of_cons in Hw0 as [-> | Hw0].
      * destruct (seller_rounds_Permutation _ _ _ _ _ Hrun) as [_ Hsub].
        intros Hrest. by apply Hin, (elem_of_sublist _ _ _ Hrest).
      * by apply (IH _ _ _ _ Hids Hrun).
Qed.

Lemma price_rounds_unlisted {R} (price_of : gmap string pyval -> result R)
  ws ids prices :
  (forall w, w ∈ ws -> code w ∉ ids) ->
  price_rounds price_of ids ws prices = Ok prices.
Proof.
  induction ws as [|w ws IH]; intros Hnone; [done |].
  simpl. rewrite bool_decide_eq_false_2 by (apply Hnone; left).
  apply IH. intros w' Hw'. apply Hnone. by right.
Qed.

Lemma create_prices_on_used_list ws ids rest stocks :
  NoDup ids ->
  Seller.create_stocks ws ids = (Ok stocks, rest) ->
  Seller.create_prices ws rest = (Ok [], rest).
Proof.
  intros Hids Hcall.
  destruct (seller_create_stocks_Ok _ _ _ _ Hcall) as (matched & Hrun & _ & _).
  rewrite seller_create_prices_rounds. f_equal.
  apply price_rounds_unlisted.
  by apply (seller_rounds_consume _ _ _ _ _ Hids Hrun).
Qed.

(** X2. [seller.py]'s [main] hands [create_prices] the very list
    [create_stocks] has just worked on.  When the identifiers are pairwise
    distinct and [create_stocks] has returned, that list holds no code of any
    row any more, and [create_prices] returns no record at all, whatever the
    price cells hold. *)
Theorem create_prices_after_create_stocks
  (watch_remnants : list (gmap string pyval)) (offer_ids rest : list string)
  (stocks : list Seller.stock_item) :
  NoDup offer_ids ->
  Seller.create_stocks watch_remnants offer_ids = (Ok stocks, rest) ->
  Seller.create_prices watch_remnants rest = (Ok [], rest).
Proof. apply create_prices_on_used_list. Qed.

Lemma create_prices_after_create_stocks_witness :
  Seller.create_prices example_rows ["C"] = (Ok [], ["C"]).
Proof.
  apply (create_prices_after_create_stocks example_rows ["A"; "B"; "C"] ["C"]
           [{| Seller.offer_id := "A"; Seller.stock := 100 |};
            {| Seller.offer_id := "B"; Seller.stock := 0 |};
            {| Seller.offer_id := "C"; Seller.stock := 0 |}]).
  - apply (bool_decide_unpack _). vm_compute. exact I.
  - vm_compute. reflexivity.
Defined.

(** ** A feed without listed codes *)

Lemma seller_rounds_unlisted ws :
  forall stocks ids,
    (forall w, w ∈ ws -> code w ∉ ids) ->
    seller_rounds ws stocks ids = (Ok stocks, ids).
Proof.
  induction ws as [|w ws IH]; intros stocks ids Hnone; [done |].
  simpl. unfold seller_round.
  rewrite bool_decide_eq_false_2 by (apply Hnone; left).
  apply IH. intros w' Hw'. apply Hnone. by right.
Qed.

(** X3. When no row of the feed has a listed code, and so in particular
    when the feed is empty, [create_stocks] returns a zero record for every
    identifier, in the order of the list, and leaves the list as it was;
    the quantity cells are not looked at, so nothing in them can make the
    call raise. *)
Theorem create_stocks_unlisted_feed
  (watch_remnants : list (gmap string pyval)) (offer_ids : list string) :
  (forall watch, watch ∈ watch_remnants -> code watch ∉ offer_ids) ->
  Seller.create_stocks watch_remnants offer_ids
  = (Ok (zero_stock <$> offer_ids), offer_ids)
  /\ forall (warehouse_id : string) (w : Market.world),
       Market.create_stocks watch_remnants warehouse_id (with_offer_ids offer_ids w)
       = (Ok (to_sku warehouse_id (Market.utc w (Market.ticks w))
                <$> (zero_stock <$> offer_ids)),
          with_offer_ids offer_ids (after_clock_read w)).
Proof.
  intros Hnone.
  assert (Seller.create_stocks watch_remnants offer_ids
          = (Ok (zero_stock <$> offer_ids), offer_ids)) as Hcall
    by (by rewrite seller_create_stocks_rounds, seller_rounds_unlisted).
  split; [done |]. intros warehouse_id w.
  rewrite market_create_stocks_seller. simpl. by rewrite Hcall.
Qed.

Lemma create_stocks_unlisted_feed_witness :
  Seller.create_stocks [row_bad_quantity] ["B"; "C"]
  = (Ok (zero_stock <$> ["B"; "C"]), ["B"; "C"])
  /\ forall (warehouse_id : string) (w : Market.world),
       Market.create_stocks [row_bad_quantity] warehouse_id
         (with_offer_ids ["B"; "C"] w)
       = (Ok (to_sku warehouse_id (Market.utc w (Market.ticks w))
                <$> (zero_stock <$> ["B"; "C"])),
          with_offer_ids ["B"; "C"] (after_clock_read w)).
Proof.
  apply (create_stocks_unlisted_feed [row_bad_quantity] ["B"; "C"]).
  intros watch Hwatch. apply list_elem_of_In in Hwatch. simpl in Hwatch.
  destruct Hwatch as [<- | []].
  apply (bool_decide_unpack _). vm_compute. exact I.
Defined.

(** ** The chunker on other sizes, and the number of chunks *)

(** X4. With the chunk size 0 [divide] raises [ValueError] (the step of
    [range] must not be zero); with a negative chunk size it yields no chunk
    at all, whatever the list holds.  The list is left as it was in both
    cases. *)
Theorem divide_degenerate_size {A : Type} (lst : list A) (n : Z) :
  (n = 0 -> Seller.divide n lst = (Raise ValueError, lst))
  /\ (n < 0 -> Seller.divide n lst = (Ok [], lst)).
Proof.
  split; intros Hn; unfold Seller.divide, bind at 1, get at 1; simpl;
    unfold py_range, lift, bind at 1.
  - by rewrite decide_True.
  - rewrite !decide_False by lia.
    assert ((0 - Z.of_nat (length lst) - n - 1) / - n < 1) as Hcount
      by (apply Z.div_lt_upper_bound; lia).
    replace (Z.to_nat ((0 - Z.of_nat (length lst) - n - 1) / - n)) with 0%nat by lia.
    done.
Qed.

(** X5. For a positive chunk size [n] the number of chunks is the length
    of the list divided by [n], rounded up, and the chunk of index [k] holds
    the elements of indices [k * n] to [k * n + n - 1] of the list, as far
    as they exist. *)
Theorem divide_chunk_count {A : Type} (lst : list A) (n : Z) :
  0 < n ->
  exists chunks : list (list A),
    Seller.divide n lst = (Ok chunks, lst)
    /\ Z.of_nat (length chunks) = (Z.of_nat (length lst) + n - 1) / n
    /\ forall (k : nat) (c : list A),
         chunks !! k = Some c ->
         forall (i : nat) (x : A),
           c !! i = Some x <->
           (Z.of_nat i < n /\ lst !! (k * Z.to_nat n + i)%nat = Some x).
Proof.
  intros Hn. eexists. split; [by apply divide_unfold |]. split.
  - rewrite length_chunks_of. apply Z2Nat.id, Z.div_pos; lia.
  - intros k c Hk i x. apply lookup_chunks_of in Hk as [_ ->].
    destruct (decide (i < Z.to_nat n)%nat) as [Hi|Hi].
    + rewrite lookup_take_lt by done. rewrite lookup_drop.
      split; [intros H; split; [lia | done] | by intros [_ H]].
    + rewrite lookup_take_ge by lia. split; [done | lia].
Qed.

Lemma divide_chunk_count_witness :
  exists chunks : list (list Z),
    Seller.divide 2 [1; 2; 3; 4; 5] = (Ok chunks, [1; 2; 3; 4; 5])
    /\ Z.of_nat (length chunks) = (Z.of_nat (length [1; 2; 3; 4; 5]) + 2 - 1) / 2
    /\ forall (k : nat) (c : list Z),
         chunks !! k = Some c ->
         forall (i : nat) (x : Z),
           c !! i = Some x <->
           (Z.of_nat i < 2
            /\ [1; 2; 3; 4; 5] !! (k * Z.to_nat 2 + i)%nat = Some x).
Proof. apply (divide_chunk_count [1; 2; 3; 4; 5] 2). lia. Defined.

(** ** Laws of the price normalizer *)

Lemma re_sub_non_digits_fixed (s : string) :
  all_digits s = true -> re_sub_non_digits s = s.
Proof.
  induction s as [|c s IH]; [done |].
  intros [Hc Hs]%andb_prop. simpl. by rewrite Hc, IH.
Qed.

Lemma before_first_all_digits (s : string) :
  all_digits s = true -> before_first "." s = s.
Proof.
  induction s as [|c s IH]; [done |].
  intros [Hc Hs]%andb_prop. simpl.
  destruct (Ascii.eqb_spec c ".") as [-> | _]; [discriminate Hc |].
  by rewrite IH.
Qed.

Lemma re_sub_non_digits_length (s : string) :
  (String.length (re_sub_non_digits s) <= String.length s)%nat.
Proof.
  induction s as [|c s IH]; simpl; [done |].
  destruct (is_digit c); simpl; lia.
Qed.

Lemma before_first_length (sep : ascii) (s : string) :
  (String.length (before_first sep s) <= String.length s)%nat.
Proof.
  induction s as [|c s IH]; simpl; [done |].
  destruct (Ascii.eqb c sep); simpl; lia.
Qed.

Lemma re_sub_non_digits_append (s t : string) :
  re_sub_non_digits (s +:+ t) = re_sub_non_digits s +:+ re_sub_non_digits t.
Proof.
  induction s as [|c s IH]; [done |].
  rewrite append_cons. simpl. rewrite IH. by destruct (is_digit c).
Qed.

Lemma before_first_append (sep : ascii) (s t : string) :
  ~ In sep (list_ascii_of_string s) ->
  before_first sep (s +:+ t) = s +:+ before_first sep t.
Proof.
  induction s as [|c s IH]; [done |].
  simpl. intros Hnot. rewrite !append_cons. simpl.
  destruct (Ascii.eqb_spec c sep) as [-> | _]; [tauto |].
  rewrite IH; [done | tauto].
Qed.

(** X6. The result of [price_conversion] consists of decimal digits only,
    is no longer than the argument, and is left as it is by a second
    [price_conversion]. *)
Theorem price_conversion_normal_form (price : string) :
  all_digits (Seller.price_conversion price) = true
  /\ (String.length (Seller.price_conversion price) <= String.length price)%nat
  /\ Seller.price_conversion (Seller.price_conversion price)
     = Seller.price_conversion price.
Proof.
  rewrite (price_conversion_before_first price).
  pose proof (re_sub_non_digits_all_digits (before_first "." price)) as Hdigits.
  split; [done |]. split.
  - etransitivity; [apply re_sub_non_digits_length | apply before_first_length].
  - rewrite price_conversion_before_first.
    by rewrite before_first_all_digits, re_sub_non_digits_fixed.
Qed.

(** X7. On a text whose first part [whole] has no ['.'], [price_conversion]
    works part by part: the digits of [whole] followed by the normalized
    rest.  So whatever follows a ['.'] is dropped, and a sign, a space or a
    comma anywhere before it goes unnoticed. *)
Theorem price_conversion_by_parts (whole rest : string) :
  ~ In "."%char (list_ascii_of_string whole) ->
  Seller.price_conversion (whole +:+ rest)
  = re_sub_non_digits whole +:+ Seller.price_conversion rest
  /\ Seller.price_conversion (whole +:+ String "." rest)
     = re_sub_non_digits whole.
Proof.
  intros Hwhole. rewrite !price_conversion_before_first.
  rewrite !(before_first_append "." whole) by done.
  rewrite !re_sub_non_digits_append. split; [done |].
  simpl. apply append_empty_r.
Qed.

Lemma price_conversion_by_parts_witness :
  Seller.price_conversion ("-1 234,5" +:+ "6.78")
  = re_sub_non_digits "-1 234,5" +:+ Seller.price_conversion "6.78"
  /\ Seller.price_conversion ("-1 234,5" +:+ String "." "6.78")
     = re_sub_non_digits "-1 234,5".
Proof.
  apply (price_conversion_by_parts "-1 234,5" "6.78").
  vm_compute. intros H. repeat destruct H as [H | H]; try discriminate H. exact H.
Defined.

(** ** What a price record can hold *)

Section PriceRoundsInversion.
  Context {R : Type} (price_of : gmap string pyval -> result R).

Lemma price_rounds_Ok_inv ws ids :
  forall prices out,
    price_rounds price_of ids ws prices = Ok out ->
    exists emitted,
      out = prices ++ emitted
      /\ Forall2 (fun w p => price_of w = Ok p)
           (filter (fun w => code w ∈ ids) ws) emitted.
Proof.
  induction ws as [|w ws IH]; intros prices out; simpl.
  - intros [= <-]. exists []. by rewrite app_nil_r.
  - destruct (bool_decide (code w ∈ ids)) eqn:Hin.
    + apply bool_decide_eq_true in Hin.
      destruct (price_of w) as [p|e] eqn:Hp; [|done].
      intros (emitted & -> & Hrec)%IH. exists (p :: emitted).
      rewrite <- app_assoc. split; [done |].
      rewrite filter_cons_True by done. by constructor.
    + apply bool_decide_eq_false in Hin.
      intros (emitted & -> & Hrec)%IH. exists emitted.
      split; [done |]. by rewrite filter_cons_False.
Qed.
End PriceRoundsInversion.

Lemma Forall2_Forall_right {A B} (P : A -> B -> Prop) (Q : B -> Prop)
  (l : list A) (k : list B) :
  Forall2 P l k -> (forall x y, P x y -> Q y) -> Forall Q k.
Proof.
  intros HP Himpl. induction HP as [|x y l k Hxy _ IH]; constructor; eauto.
Qed.

Lemma decimal_from_nonneg (s : string) :
  forall acc : Z, all_digits s = true -> 0 <= acc -> 0 <= decimal_from acc s.
Proof.
  induction s as [|c s IH]; intros acc Hs Hacc; [done |].
  apply andb_prop in Hs as [Hc Hs]. simpl. apply IH; [done |].
  unfold is_digit in Hc. apply andb_prop in Hc as [Hlo _].
  apply Nat.leb_le in Hlo. unfold digit_value. lia.
Qed.

(** X8. Every record a returning [create_prices] gives is made from a row
    with a listed code and a text price, and there is one per such row, in
    row order.  A [market.py] record has the currency ["RUR"] and a price
    that is not negative; a [seller.py] record has the fixed fields
    ["UNKNOWN"], ["RUB"] and ["0"] and a price made of digits only. *)
Theorem create_prices_record_shape
  (watch_remnants : list (gmap string pyval)) (offer_ids : list string) :
  (forall market_prices rest,
      Market.create_prices watch_remnants offer_ids = (Ok market_prices, rest) ->
      Forall2 market_price_record
        (filter (fun watch => code watch ∈ offer_ids) watch_remnants)
        market_prices
      /\ Forall (fun p => Market.id p ∈ offer_ids
                          /\ 0 <= Market.value (Market.price p)
                          /\ Market.currencyId (Market.price p) = "RUR")
           market_prices)
  /\ (forall seller_prices rest,
         Seller.create_prices watch_remnants offer_ids = (Ok seller_prices, rest) ->
         Forall2 seller_price_record
           (filter (fun watch => code watch ∈ offer_ids) watch_remnants)
           seller_prices
         /\ Forall (fun p => Seller.price_offer_id p ∈ offer_ids
                             /\ all_digits (Seller.price p) = true
                             /\ Seller.auto_action_enabled p = "UNKNOWN"
                             /\ Seller.currency_code p = "RUB"
                             /\ Seller.old_price p = "0")
              seller_prices).
Proof.
  assert (Forall (fun w => code w ∈ offer_ids)
            (filter (fun w => code w ∈ offer_ids) watch_remnants)) as Hlisted.
  { apply Forall_forall. by intros w [? _]%list_elem_of_filter. }
  split.
  - intros market_prices rest. rewrite market_create_prices_rounds.
    intros [= Hrun _]. apply price_rounds_Ok_inv in Hrun as (emitted & -> & Hrec).
    simpl.
    assert (Forall2 (fun w p => code w ∈ offer_ids /\ market_price_record w p)
              (filter (fun w => code w ∈ offer_ids) watch_remnants) emitted) as Hboth.
    { apply (Forall2_impl_Forall _ _ _ _ _ Hrec Hlisted).
      intros w p Hin Hp. split; [done |].
      unfold market_price_of in Hp.
      destruct (dict_get w "Цена") as [|s|z] eqn:Hcell; simpl in Hp; try done.
      pose proof (market_price_of_text w s Hcell) as Htext.
      unfold market_price_of in Htext. rewrite Hcell in Htext. simpl in Htext.
      rewrite Htext in Hp.
      destruct (decide (Seller.price_conversion s = EmptyString)); [done |].
      exists s. split; [done | congruence]. }
    split.
    + eapply Forall2_impl; [exact Hboth |]. by intros w p [_ ?].
    + apply (Forall2_Forall_right _ _ _ _ Hboth).
      intros w p [Hin (s & Hcell & ->)]. simpl.
      split; [done |]. split; [| done].
      apply decimal_from_nonneg; [| done].
      apply price_conversion_normal_form.
  - intros seller_prices rest. rewrite seller_create_prices_rounds.
    intros [= Hrun _]. apply price_rounds_Ok_inv in Hrun as (emitted & -> & Hrec).
    simpl.
    assert (Forall2 (fun w p => code w ∈ offer_ids /\ seller_price_record w p)
              (filter (fun w => code w ∈ offer_ids) watch_remnants) emitted) as Hboth.
    { apply (Forall2_impl_Forall _ _ _ _ _ Hrec Hlisted).
      intros w p Hin Hp. split; [done |].
      unfold seller_price_of in Hp.
      destruct (dict_get w "Цена") as [|s|z] eqn:Hcell; simpl in Hp; try done.
      exists s. split; [done | congruence]. }
    split.
    + eapply Forall2_impl; [exact Hboth |]. by intros w p [_ ?].
    + apply (Forall2_Forall_right _ _ _ _ Hboth).
      intros w p [Hin (s & Hcell & ->)]. simpl.
      split; [done |]. split; [| done].
      apply price_conversion_normal_form.
Qed.

(** * The calls to Ozon *)

(** ** Computations over a trace *)

Lemma io_bind_Returned {W A B} (m : IO W A) (k : A -> IO W B) w a w' :
  m w = (Returned a, w') -> io_bind m k w = k a w'.
Proof. unfold io_bind. by intros ->. Qed.

Lemma io_bind_Raised {W A B} (m : IO W A) (k : A -> IO W B) w e w' :
  m w = (Raised e, w') -> io_bind m k w = (Raised e, w').
Proof. unfold io_bind. by intros ->. Qed.

Lemma io_bind_Unfinished {W A B} (m : IO W A) (k : A -> IO W B) w w' :
  m w = (Unfinished, w') -> io_bind m k w = (Unfinished, w').
Proof. unfold io_bind. by intros ->. Qed.

Lemma io_for_each_cons {W A} (x : A) (xs : list A) (body : A -> IO W unit) w :
  io_for_each (x :: xs) body w
  = match body x w with
    | (Returned _, w') => io_for_each xs body w'
    | (Raised e, w') => (Raised e, w')
    | (Unfinished, w') => (Unfinished, w')
    end.
Proof. reflexivity. Qed.

(** ** Listing the products *)

Lemma ozon_count_cons k page pages :
  ozon_count (S k) (page :: pages)
  = (length (SellerApi.items page) + ozon_count k pages)%nat.
Proof. unfold ozon_count. simpl. by rewrite length_app. Qed.

Section OzonListing.
  Variable server :
    list (event SellerApi.request) -> SellerApi.request -> SellerApi.reply.
  Variables client_id seller_token : string.

Lemma get_product_list_page last_id trace page :
  server trace (ozon_listing_request client_id seller_token last_id)
  = SellerApi.Answer (SellerApi.ResultDocument page) ->
  SellerApi.get_product_list server last_id client_id seller_token trace
  = (Returned (Some page),
     trace ++ [Sent (ozon_listing_request client_id seller_token last_id)]).
Proof.
  intros Hreply. unfold SellerApi.get_product_list, io_bind, SellerApi.post.
  fold (ozon_listing_request client_id seller_token last_id).
  by rewrite Hreply.
Qed.

(** The loop, on a marketplace that serves [pages] and whose count of
    products first meets the reported total on the last of them. *)
Lemma get_offer_ids_loop_pages pages :
  forall fuel last_id product_list trace,
    pages <> [] ->
    ozon_transcript server trace
      (ozon_listing_request client_id seller_token <$> ozon_cursors last_id pages)
    = (SellerApi.Answer ∘ SellerApi.ResultDocument) <$> pages ->
    (forall k page,
        pages !! k = Some page ->
        SellerApi.total page
        = Z.of_nat (length product_list + ozon_count (S k) pages)
        <-> S k = length pages) ->
    (length pages <= fuel)%nat ->
    SellerApi.get_offer_ids_loop server fuel client_id seller_token last_id
      product_list trace
    = (Returned (product_list ++ concat (SellerApi.items <$> pages)),
       trace ++ (Sent <$> (ozon_listing_request client_id seller_token
                             <$> ozon_cursors last_id pages))).
Proof.
  induction pages as [|page pages IH];
    intros fuel last_id product_list trace Hne Hreplies Hstop Hfuel; [done |].
  destruct fuel as [|fuel]; [simpl in Hfuel; lia |].
  unfold ozon_cursors in Hreplies |- *. simpl in Hreplies |- *.
  injection Hreplies as Hreply Hreplies.
  rewrite (io_bind_Returned _ _ _ _ _ (get_product_list_page _ _ _ Hreply)).
  pose proof (Hstop 0%nat page eq_refl) as Hfirst.
  rewrite ozon_count_cons in Hfirst. unfold ozon_count in Hfirst.
  rewrite take_0 in Hfirst. simpl in Hfirst.
  rewrite Nat.add_0_r, <- length_app in Hfirst.
  destruct (decide (SellerApi.total page
                    = Z.of_nat (length (product_list ++ SellerApi.items page))))
    as [Htotal|Htotal].
  - apply Hfirst in Htotal. destruct pages; [| simpl in Htotal; lia].
    simpl. by rewrite app_nil_r.
  - destruct pages as [|page' pages'] eqn:Hpages.
    { exfalso. by apply Htotal, Hfirst. }
    rewrite <- Hpages in *.
    rewrite (IH fuel (SellerApi.last_id page)
               (product_list ++ SellerApi.items page)
               (trace ++ [Sent (ozon_listing_request client_id seller_token last_id)])).
    + unfold ozon_cursors. simpl. by rewrite <- !app_assoc.
    + by rewrite Hpages.
    + exact Hreplies.
    + intros k page0 Hk. pose proof (Hstop (S k) page0 Hk) as Hlater.
      assert ((length (product_list ++ SellerApi.items page)
               + ozon_count (S k) pages)%nat
              = (length product_list + ozon_count (S (S k)) (page :: pages))%nat)
        as -> by (rewrite ozon_count_cons, length_app; lia).
      rewrite Hlater. simpl. lia.
    + simpl in Hfuel. lia.
Qed.

End OzonListing.

(** X9. Let Ozon answer the successive product-list requests with the
    pages [pages], the count of products fetched so far meeting the reported
    total on the last of them and on none before.  Then [get_offer_ids],
    given fuel for that many rounds, returns the offer identifiers of all
    those pages in order, after exactly one request per page: the first
    with the cursor [""], each next one with the [last_id] of the page
    before. *)
Theorem ozon_get_offer_ids_pages
  (server : list (event SellerApi.request) -> SellerApi.request -> SellerApi.reply)
  (client_id seller_token : string) (trace : list (event SellerApi.request))
  (pages : list SellerApi.product_page) (fuel : nat) :
  pages <> [] ->
  ozon_transcript server trace
    (ozon_listing_request client_id seller_token <$> ozon_cursors "" pages)
  = (SellerApi.Answer ∘ SellerApi.ResultDocument) <$> pages ->
  (forall k page,
      pages !! k = Some page ->
      SellerApi.total page = Z.of_nat (ozon_count (S k) pages)
      <-> S k = length pages) ->
  (length pages <= fuel)%nat ->
  SellerApi.get_offer_ids server fuel client_id seller_token trace
  = (Returned (SellerApi.offer_id <$> concat (SellerApi.items <$> pages)),
     trace ++ (Sent <$> (ozon_listing_request client_id seller_token
                           <$> ozon_cursors "" pages))).
Proof.
  intros Hne Hreplies Hstop Hfuel. unfold SellerApi.get_offer_ids.
  by rewrite (io_bind_Returned _ _ _ _ _
                (get_offer_ids_loop_pages server client_id seller_token pages
                   fuel "" [] trace Hne Hreplies Hstop Hfuel)).
Qed.

Lemma ozon_get_offer_ids_pages_witness :
  SellerApi.get_offer_ids example_ozon 5 "id" "token" []
  = (Returned (SellerApi.offer_id
                 <$> concat (SellerApi.items <$> [example_page_1; example_page_2])),
     [] ++ (Sent <$> (ozon_listing_request "id" "token"
                        <$> ozon_cursors "" [example_page_1; example_page_2]))).
Proof.
  apply (ozon_get_offer_ids_pages example_ozon "id" "token" []
           [example_page_1; example_page_2] 5).
  - discriminate.
  - vm_compute. reflexivity.
  - intros [|[|k]] page Hk; simpl in Hk; [| | discriminate Hk];
      injection Hk as <-; vm_compute; split; intros H; discriminate H || reflexivity.
  - simpl. lia.
Defined.

(** ** A total that is never met *)

Section OzonOvershoot.
  Variable server :
    list (event SellerApi.request) -> SellerApi.request -> SellerApi.reply.
  Variables client_id seller_token : string.
  Variable bound : Z.
  Hypothesis server_pages :
    forall trace q, exists page,
      server trace q = SellerApi.Answer (SellerApi.ResultDocument page)
      /\ SellerApi.total page <= bound.

Lemma get_offer_ids_loop_overshoot fuel :
  forall last_id product_list trace,
    bound < Z.of_nat (length product_list) ->
    exists sent,
      SellerApi.get_offer_ids_loop server fuel client_id seller_token last_id
        product_list trace
      = (Unfinished, trace ++ (Sent <$> sent))
      /\ length sent = fuel.
Proof.
  induction fuel as [|fuel IH]; intros last_id product_list trace Hlong.
  - exists []. simpl. by rewrite app_nil_r.
  - destruct (server_pages trace (ozon_listing_request client_id seller_token last_id))
      as (page & Hreply & Htotal).
    simpl.
    rewrite (io_bind_Returned _ _ _ _ _ (get_product_list_page _ _ _ _ _ _ Hreply)).
    rewrite decide_False by (rewrite length_app; lia).
    destruct (IH (SellerApi.last_id page) (product_list ++ SellerApi.items page)
                (trace ++ [Sent (ozon_listing_request client_id seller_token last_id)]))
      as (sent & -> & Hsent); [rewrite length_app; lia |].
    exists (ozon_listing_request client_id seller_token last_id :: sent).
    simpl. rewrite <- app_assoc. split; [done | by rewrite Hsent].
Qed.

End OzonOvershoot.

(** X10. [get_offer_ids] leaves its loop only when the reported total
    equals the number of products fetched.  If Ozon answers every request
    with a page, never reports a total above [bound], and its first page
    holds more than [bound] products, the loop does not end: with whatever
    fuel, the run is unfinished after one request per unit of fuel. *)
Theorem ozon_get_offer_ids_overshoot
  (server : list (event SellerApi.request) -> SellerApi.request -> SellerApi.reply)
  (client_id seller_token : string) (trace : list (event SellerApi.request))
  (bound : Z) (fuel : nat) :
  (forall trace q, exists page,
      server trace q = SellerApi.Answer (SellerApi.ResultDocument page)
      /\ SellerApi.total page <= bound) ->
  (forall page,
      server trace (ozon_listing_request client_id seller_token "")
      = SellerApi.Answer (SellerApi.ResultDocument page) ->
      bound < Z.of_nat (length (SellerApi.items page))) ->
  exists sent,
    SellerApi.get_offer_ids server fuel client_id seller_token trace
    = (Unfinished, trace ++ (Sent <$> sent))
    /\ length sent = fuel.
Proof.
  intros Hpages Hfirst. unfold SellerApi.get_offer_ids.
  destruct fuel as [|fuel].
  - exists []. simpl. unfold io_bind, unfinished. by rewrite app_nil_r.
  - destruct (Hpages trace (ozon_listing_request client_id seller_token ""))
      as (page & Hreply & Htotal).
    pose proof (Hfirst page Hreply) as Hlong.
    destruct (get_offer_ids_loop_overshoot server client_id seller_token bound
                Hpages fuel (SellerApi.last_id page) (SellerApi.items page)
                (trace ++ [Sent (ozon_listing_request client_id seller_token "")])
                Hlong) as (sent & Hrun & Hsent).
    exists (ozon_listing_request client_id seller_token "" :: sent).
    assert (SellerApi.get_offer_ids_loop server (S fuel) client_id seller_token
              "" [] trace
            = (Unfinished,
               trace ++ (Sent <$> ozon_listing_request client_id seller_token ""
                                  :: sent))) as Hloop.
    { simpl.
      rewrite (io_bind_Returned _ _ _ _ _ (get_product_list_page _ _ _ _ _ _ Hreply)).
      simpl. rewrite decide_False by lia.
      rewrite Hrun. by rewrite <- app_assoc. }
    rewrite (io_bind_Unfinished _ _ _ _ Hloop).
    split; [done | by rewrite <- Hsent].
Qed.

Lemma ozon_get_offer_ids_overshoot_witness :
  exists sent,
    SellerApi.get_offer_ids overfull_ozon 7 "id" "token" []
    = (Unfinished, [] ++ (Sent <$> sent))
    /\ length sent = 7%nat.
Proof.
  apply (ozon_get_offer_ids_overshoot overfull_ozon "id" "token" [] 1 7).
  - intros trace q. eexists. split; [reflexivity |]. simpl. lia.
  - intros page [= <-]. simpl. lia.
Defined.

(** ** Sending the batches *)

Section OzonBatches.
  Variable server :
    list (event SellerApi.request) -> SellerApi.request -> SellerApi.reply.
  Context {X : Type} (request_of : X -> SellerApi.request).

Lemma post_discard (q : SellerApi.request) trace :
  (let* _ := SellerApi.post server q in io_ret tt) trace
  = (match server trace q with
     | SellerApi.Answer _ => Returned tt
     | SellerApi.Failed f => Raised (Requests f)
     end,
     trace ++ [Sent q]).
Proof. unfold io_bind, SellerApi.post, io_ret. by destruct (server trace q). Qed.

(** A loop that posts one request per element sends them in order and stops
    at the first one that fails. *)
Lemma post_loop (xs : list X) :
  forall trace,
  exists (k : nat) (o : outcome unit),
    (k <= length xs)%nat
    /\ io_for_each xs (fun x =>
         let* _ := SellerApi.post server (request_of x) in
         io_ret tt) trace
       = (o, trace ++ (Sent <$> (request_of <$> take k xs)))
    /\ ((o = Returned tt /\ k = length xs)
        \/ (exists (f : failure) (j : nat) (x : X),
               o = Raised (Requests f) /\ k = S j /\ xs !! j = Some x
               /\ server (trace ++ (Sent <$> (request_of <$> take j xs)))
                    (request_of x) = SellerApi.Failed f)).
Proof.
  induction xs as [|x xs IH]; intros trace.
  - exists 0%nat, (Returned tt). simpl. rewrite app_nil_r.
    split; [done |]. split; [done |]. by left.
  - rewrite io_for_each_cons, post_discard.
    destruct (server trace (request_of x)) as [d|f] eqn:Hreply.
    + destruct (IH (trace ++ [Sent (request_of x)])) as (k & o & Hk & Hrun & Hend).
      exists (S k), o. simpl. split; [lia |]. split.
      * rewrite Hrun. by rewrite <- app_assoc.
      * destruct Hend as [[-> ->] | (f & j & x' & -> & -> & Hj & Hfail)]; [by left |].
        right. exists f, (S j), x'. simpl. rewrite <- app_assoc in Hfail.
        by repeat split.
    + exists 1%nat, (Raised (Requests f)). simpl.
      split; [lia |]. split; [done |].
      right. exists f, 0%nat, x. simpl. rewrite app_nil_r. by repeat split.
Qed.

End OzonBatches.

(** What [list(divide(xs, n))] is for a positive [n], from the claims'
    lemmas on [chunks_of]. *)
Lemma call_divide {W A} (n : Z) (xs : list A) (w : W) :
  0 < n ->
  exists chunks : list (list A),
    call (Seller.divide n) xs w = (Returned (chunks, xs), w)
    /\ concat chunks = xs
    /\ Forall (fun c => 1 <= Z.of_nat (length c) <= n) chunks.
Proof.
  intros Hn. unfold call. rewrite (divide_unfold xs n Hn).
  eexists. split; [reflexivity |].
  destruct (chunk_count_bounds (length xs) n Hn) as (Hcover & _ & Hlt).
  split.
  - rewrite concat_chunks_of. by apply take_ge.
  - apply Forall_forall. intros c Hc. apply list_elem_of_lookup in Hc as [k Hk].
    apply lookup_chunks_of in Hk as [Hk ->].
    rewrite length_take, length_drop. specialize (Hlt k Hk). lia.
Qed.



(** ** What [main] sends and how it ends *)

Section OzonMain.
  Variable server :
    list (event SellerApi.request) -> SellerApi.request -> SellerApi.reply.
  Variable feed : list (event SellerApi.request) -> list (gmap string pyval) + exc.
  Variables client_id seller_token : string.

Lemma get_product_list_run last_id trace :
  SellerApi.get_product_list server last_id client_id seller_token trace
  = (match server trace (ozon_listing_request client_id seller_token last_id) with
     | SellerApi.Answer (SellerApi.ResultDocument page) => Returned (Some page)
     | SellerApi.Answer (SellerApi.OtherDocument _) => Returned None
     | SellerApi.Failed f => Raised (Requests f)
     end,
     trace ++ [Sent (ozon_listing_request client_id seller_token last_id)]).
Proof.
  unfold SellerApi.get_product_list, io_bind, SellerApi.post.
  fold (ozon_listing_request client_id seller_token last_id).
  by destruct (server trace _) as [[page|text]|f].
Qed.

(** Whatever the marketplace answers, [get_offer_ids] sends product-list
    requests only. *)
Lemma get_offer_ids_loop_trace fuel :
  forall last_id product_list trace,
  exists cursors,
    (SellerApi.get_offer_ids_loop server fuel client_id seller_token last_id
       product_list trace).2
    = trace ++ (Sent <$> (ozon_listing_request client_id seller_token <$> cursors)).
Proof.
  induction fuel as [|fuel IH]; intros last_id product_list trace.
  - exists []. simpl. by rewrite app_nil_r.
  - simpl. unfold io_bind at 1. rewrite get_product_list_run.
    destruct (server trace _) as [[page|text]|f].
    + destruct (decide _).
      * by exists [last_id].
      * destruct (IH (SellerApi.last_id page)
                    (product_list ++ SellerApi.items page)
                    (trace ++ [Sent (ozon_listing_request client_id seller_token last_id)]))
          as [cursors ->].
        exists (last_id :: cursors). simpl. by rewrite <- app_assoc.
    + by exists [last_id].
    + by exists [last_id].
Qed.

Lemma get_offer_ids_trace fuel trace :
  exists cursors,
    (SellerApi.get_offer_ids server fuel client_id seller_token trace).2
    = trace ++ (Sent <$> (ozon_listing_request client_id seller_token <$> cursors)).
Proof.
  destruct (get_offer_ids_loop_trace fuel "" [] trace) as [cursors Htrace].
  exists cursors. unfold SellerApi.get_offer_ids, io_bind.
  by destruct (SellerApi.get_offer_ids_loop _ _ _ _ _ _ _) as [[products|e|] trace'].
Qed.

End OzonMain.

Lemma io_bind_ret {W A B} (a : A) (k : A -> IO W B) :
  io_bind (io_ret a) k = k a.
Proof. reflexivity. Qed.

Lemma not_price_update_listing client_id seller_token cursors :
  Forall (fun ev => ~ is_ozon_price_update ev)
    (Sent <$> (ozon_listing_request client_id seller_token <$> cursors)).
Proof.
  apply Forall_fmap, Forall_fmap, Forall_forall.
  intros c _ (q & prices & [= <-] & Hjson). discriminate Hjson.
Qed.

Lemma not_price_update_stocks client_id seller_token batches :
  Forall (fun ev => ~ is_ozon_price_update ev)
    (Sent <$> (ozon_stocks_request client_id seller_token <$> batches)).
Proof.
  apply Forall_fmap, Forall_fmap, Forall_forall.
  intros c _ (q & prices & [= <-] & Hjson). discriminate Hjson.
Qed.

Lemma report_run (e : exc) trace :
  exists l, SellerApi.report e trace = (Returned tt, trace ++ [Printed l]).
Proof.
  unfold SellerApi.report, SellerApi.print.
  destruct e as [e|[]|class]; by eexists.
Qed.

Lemma not_price_update_printed l :
  Forall (fun ev => ~ is_ozon_price_update ev) [@Printed SellerApi.request l].
Proof.
  constructor; [| constructor]. intros (q & prices & Hq & _). discriminate Hq.
Qed.

Lemma not_price_update_downloaded :
  Forall (fun ev => ~ is_ozon_price_update ev) [@FeedDownloaded SellerApi.request].
Proof.
  constructor; [| constructor]. intros (q & prices & Hq & _). discriminate Hq.
Qed.

Lemma concat_nil_nonempty {A} (chunks : list (list A)) (n : Z) :
  concat chunks = [] ->
  Forall (fun c => 1 <= Z.of_nat (length c) <= n) chunks ->
  chunks = [].
Proof.
  destruct chunks as [|c chunks]; [done |].
  intros Hconcat [Hc _]%Forall_cons. simpl in Hconcat.
  apply app_eq_nil in Hconcat as [-> _]. simpl in Hc. lia.
Qed.

Lemma ozon_main_run server feed env fuel client_id seller_token trace :
  env !! "SELLER_TOKEN" = Some seller_token ->
  env !! "CLIENT_ID" = Some client_id ->
  exists added o,
    SellerApi.main server feed env fuel trace = (o, trace ++ added)
    /\ (o = Returned tt \/ o = Unfinished)
    /\ ((forall ids listed,
            SellerApi.get_offer_ids server fuel client_id seller_token trace
            = (Returned ids, listed) -> NoDup ids) ->
        Forall (fun ev => ~ is_ozon_price_update ev) added).
Proof.
  intros Htoken Hclient. unfold SellerApi.main, env_str.
  rewrite Htoken, Hclient, !io_bind_ret. unfold try_except.
  destruct (get_offer_ids_trace server client_id seller_token fuel trace)
    as [cursors Hlisted].
  unfold io_bind at 1.
  destruct (SellerApi.get_offer_ids server fuel client_id seller_token trace)
    as [[ids|e|] listed] eqn:Hlist; simpl in Hlisted; subst listed.
  2: { destruct (report_run e (trace ++ (Sent <$> (ozon_listing_request client_id
                    seller_token <$> cursors)))) as [l ->].
       eexists _, _. rewrite <- app_assoc. split; [reflexivity |].
       split; [by left |]. intros _. apply Forall_app.
       auto using not_price_update_listing, not_price_update_printed. }
  2: { eexists _, _. split; [reflexivity |]. split; [by right |].
       intros _. apply not_price_update_listing. }
  unfold io_bind at 1, SellerApi.download_stock at 1.
  destruct (feed _) as [watch_remnants|e].
  2: { destruct (report_run e ((trace ++ (Sent <$> (ozon_listing_request client_id
                    seller_token <$> cursors))) ++ [FeedDownloaded])) as [l ->].
       eexists _, _. rewrite <- !app_assoc. split; [reflexivity |].
       split; [by left |]. intros _. repeat (apply Forall_app; split);
       auto using not_price_update_listing, not_price_update_printed,
         not_price_update_downloaded. }
  unfold io_bind at 1, call at 1.
  destruct (Seller.create_stocks watch_remnants ids) as [[stocks|e] rest] eqn:Hstocks.
  2: { destruct (report_run (Builtin e)
                   ((trace ++ (Sent <$> (ozon_listing_request client_id
                      seller_token <$> cursors))) ++ [FeedDownloaded])) as [l ->].
       eexists _, _. rewrite <- !app_assoc. split; [reflexivity |].
       split; [by left |]. intros _. repeat (apply Forall_app; split);
       auto using not_price_update_listing, not_price_update_printed,
         not_price_update_downloaded. }
  simpl.
  destruct (call_divide 100 stocks
              ((trace ++ (Sent <$> (ozon_listing_request client_id seller_token
                                      <$> cursors))) ++ [FeedDownloaded]))
    as (batches & Hdivide & _ & _); [lia |].
  rewrite (io_bind_Returned _ _ _ _ _ Hdivide). simpl.
  destruct (post_loop server (ozon_stocks_request client_id seller_token) batches
              ((trace ++ (Sent <$> (ozon_listing_request client_id seller_token
                                      <$> cursors))) ++ [FeedDownloaded]))
    as (k & o & _ & Hrun & Hend).
  assert (io_for_each batches (fun some_stock =>
            let* _ := SellerApi.update_stocks server some_stock client_id
                        seller_token in
            io_ret tt)
            ((trace ++ (Sent <$> (ozon_listing_request client_id seller_token
                                    <$> cursors))) ++ [FeedDownloaded])
          = (o, ((trace ++ (Sent <$> (ozon_listing_request client_id seller_token
                                        <$> cursors))) ++ [FeedDownloaded])
                ++ (Sent <$> (ozon_stocks_request client_id seller_token
                                <$> take k batches)))) as Hrun'
    by exact Hrun.
  unfold io_bind at 1. rewrite Hrun'. clear Hrun Hrun'.
  destruct Hend as [[-> _] | (f & j & batch & -> & _)].
  2: { destruct (report_run (Requests f)
                   (((trace ++ (Sent <$> (ozon_listing_request client_id
                       seller_token <$> cursors))) ++ [FeedDownloaded])
                    ++ (Sent <$> (ozon_stocks_request client_id seller_token
                                    <$> take k batches)))) as [l ->].
       eexists _, _. rewrite <- !app_assoc. split; [reflexivity |].
       split; [by left |]. intros _. repeat (apply Forall_app; split);
       auto using not_price_update_listing, not_price_update_printed,
         not_price_update_downloaded, not_price_update_stocks. }
  unfold io_bind at 1, call at 1.
  destruct (Seller.create_prices watch_remnants rest) as [[prices|e] rest'] eqn:Hprices.
  2: { destruct (report_run (Builtin e)
                   (((trace ++ (Sent <$> (ozon_listing_request client_id
                       seller_token <$> cursors))) ++ [FeedDownloaded])
                    ++ (Sent <$> (ozon_stocks_request client_id seller_token
                                    <$> take k batches)))) as [l ->].
       eexists _, _. rewrite <- !app_assoc. split; [reflexivity |].
       split; [by left |]. intros _. repeat (apply Forall_app; split);
       auto using not_price_update_listing, not_price_update_printed,
         not_price_update_downloaded, not_price_update_stocks. }
  simpl.
  destruct (call_divide 900 prices
              (((trace ++ (Sent <$> (ozon_listing_request client_id seller_token
                                       <$> cursors))) ++ [FeedDownloaded])
               ++ (Sent <$> (ozon_stocks_request client_id seller_token
                               <$> take k batches))))
    as (price_batches & Hdivide' & Hconcat & Hsizes); [lia |].
  rewrite (io_bind_Returned _ _ _ _ _ Hdivide'). simpl.
  destruct (post_loop server (ozon_prices_request client_id seller_token)
              price_batches
              (((trace ++ (Sent <$> (ozon_listing_request client_id seller_token
                                       <$> cursors))) ++ [FeedDownloaded])
               ++ (Sent <$> (ozon_stocks_request client_id seller_token
                               <$> take k batches))))
    as (k' & o' & _ & Hrun & Hend).
  assert (io_for_each price_batches (fun some_price =>
            let* _ := SellerApi.update_price server some_price client_id
                        seller_token in
            io_ret tt)
            (((trace ++ (Sent <$> (ozon_listing_request client_id seller_token
                                     <$> cursors))) ++ [FeedDownloaded])
             ++ (Sent <$> (ozon_stocks_request client_id seller_token
                             <$> take k batches)))
          = (o', (((trace ++ (Sent <$> (ozon_listing_request client_id seller_token
                                          <$> cursors))) ++ [FeedDownloaded])
                  ++ (Sent <$> (ozon_stocks_request client_id seller_token
                                  <$> take k batches)))
                 ++ (Sent <$> (ozon_prices_request client_id seller_token
                                 <$> take k' price_batches)))) as Hrun'
    by exact Hrun.
  rewrite Hrun'. clear Hrun Hrun'.
  assert ((forall ids0 listed,
              (Returned ids,
               trace ++ (Sent <$> (ozon_listing_request client_id seller_token
                                     <$> cursors)))
              = (@Returned (list string) ids0, listed) -> NoDup ids0) ->
          price_batches = []) as Hnone.
  { intros Hdistinct.
    rewrite (create_prices_on_used_list _ _ _ _ (Hdistinct _ _ eq_refl) Hstocks)
      in Hprices.
    injection Hprices as <- _. by apply (concat_nil_nonempty _ 900). }
  destruct Hend as [[-> _] | (f & j & batch & -> & _)].
  - eexists _, _. rewrite <- !app_assoc. split; [reflexivity |].
    split; [by left |]. intros Hdistinct. rewrite (Hnone Hdistinct), take_nil.
    repeat (apply Forall_app; split);
      auto using not_price_update_listing, not_price_update_printed,
        not_price_update_downloaded, not_price_update_stocks.
  - destruct (report_run (Requests f)
                ((((trace ++ (Sent <$> (ozon_listing_request client_id
                      seller_token <$> cursors))) ++ [FeedDownloaded])
                  ++ (Sent <$> (ozon_stocks_request client_id seller_token
                                  <$> take k batches)))
                 ++ (Sent <$> (ozon_prices_request client_id seller_token
                                 <$> take k' price_batches)))) as [l ->].
    eexists _, _. rewrite <- !app_assoc. split; [reflexivity |].
    split; [by left |]. intros Hdistinct. rewrite (Hnone Hdistinct), take_nil.
    repeat (apply Forall_app; split);
      auto using not_price_update_listing, not_price_update_printed,
        not_price_update_downloaded, not_price_update_stocks.
Qed.

(** * The calls to Yandex Market *)

(** ** What a computation adds to the trace *)

Section OnlyAdds.
  Variable P : event MarketApi.request -> Prop.

Lemma only_adds_ret {A} (a : A) : only_adds P (io_ret a).
Proof. intros w. exists []. by rewrite app_nil_r. Qed.

Lemma only_adds_raise {A} (e : exc) : only_adds P (@io_raise _ A e).
Proof. intros w. exists []. by rewrite app_nil_r. Qed.

Lemma only_adds_unfinished {A} : only_adds P (@unfinished _ A).
Proof. intros w. exists []. by rewrite app_nil_r. Qed.

Lemma only_adds_unawaited {A} (body : IO MarketApi.world A) :
  only_adds P (unawaited body).
Proof. apply only_adds_ret. Qed.

Lemma only_adds_bind {A B} (m : IO MarketApi.world A)
  (k : A -> IO MarketApi.world B) :
  only_adds P m -> (forall a, only_adds P (k a)) -> only_adds P (io_bind m k).
Proof.
  intros Hm Hk w. unfold io_bind. destruct (Hm w) as (added & Htrace & Hadded).
  destruct (m w) as [[a|e|] w']; simpl in Htrace; [| by exists added..].
  destruct (Hk a w') as (added' & Htrace' & Hadded').
  exists (added ++ added'). rewrite Htrace', Htrace, <- app_assoc.
  split; [done | by apply Forall_app].
Qed.

Lemma only_adds_for_each {A} (xs : list A) (body : A -> IO MarketApi.world unit) :
  (forall x, only_adds P (body x)) -> only_adds P (io_for_each xs body).
Proof.
  intros Hbody. induction xs as [|x xs IH]; [apply only_adds_ret |].
  simpl. apply only_adds_bind; [apply Hbody | by intros _].
Qed.

Lemma only_adds_call {S A} (f : M S A) (s : S) : only_adds P (call f s).
Proof.
  intros w. exists []. unfold call. rewrite app_nil_r.
  by destruct (f s) as [[a|e] s'].
Qed.

Lemma only_adds_try {A} (body : IO MarketApi.world A)
  (handler : exc -> IO MarketApi.world A) :
  only_adds P body -> (forall e, only_adds P (handler e)) ->
  only_adds P (try_except body handler).
Proof.
  intros Hbody Hhandler w. unfold try_except.
  destruct (Hbody w) as (added & Htrace & Hadded).
  destruct (body w) as [[a|e|] w']; simpl in Htrace; [by exists added | | by exists added].
  destruct (Hhandler e w') as (added' & Htrace' & Hadded').
  exists (added ++ added'). rewrite Htrace', Htrace, <- app_assoc.
  split; [done | by apply Forall_app].
Qed.

Lemma only_adds_env_str env name : only_adds P (env_str env name).
Proof.
  unfold env_str. destruct (env !! name); [apply only_adds_ret | apply only_adds_raise].
Qed.

Lemma only_adds_send server q :
  P (Sent q) -> only_adds P (MarketApi.send server q).
Proof. intros Hq w. exists [Sent q]. split; [done | by constructor]. Qed.

Lemma only_adds_print l :
  P (Printed l) -> only_adds P (MarketApi.print l).
Proof. intros Hl w. exists [Printed l]. split; [done | by constructor]. Qed.

Lemma only_adds_download feed :
  P FeedDownloaded -> only_adds P (MarketApi.download_stock feed).
Proof. intros Hd w. exists [FeedDownloaded]. split; [done | by constructor]. Qed.

Lemma only_adds_call_create_stocks utc ws ids warehouse_id :
  only_adds P (MarketApi.call_create_stocks utc ws ids warehouse_id).
Proof. intros w. exists []. by rewrite app_nil_r. Qed.

Lemma only_adds_report e :
  (forall l, P (Printed l)) -> only_adds P (MarketApi.report e).
Proof.
  intros Hl. unfold MarketApi.report.
  destruct e as [e|[]|class]; by apply only_adds_print.
Qed.

End OnlyAdds.

(** ** What [market.py]'s [main] sends *)

Section YandexMain.
  Variable server :
    list (event MarketApi.request) -> MarketApi.request -> MarketApi.reply.
  Variable feed : list (event MarketApi.request) -> list (gmap string pyval) + exc.
  Variable env : gmap string string.
  Variable utc : nat -> string.

(** An event that is not a request, or a request that lists the offers or
    updates stocks. *)
Let quiet (ev : event MarketApi.request) : Prop := ~ is_yandex_price_update ev.

Lemma quiet_listing page campaign_id token :
  only_adds quiet (MarketApi.get_product_list server page campaign_id token).
Proof.
  unfold MarketApi.get_product_list.
  apply only_adds_bind; [| intros d; apply only_adds_ret].
  apply only_adds_send. intros (q & offers & [= <-] & Hbody). discriminate Hbody.
Qed.

Lemma quiet_get_offer_ids fuel campaign_id token :
  only_adds quiet (MarketApi.get_offer_ids server fuel campaign_id token).
Proof.
  unfold MarketApi.get_offer_ids.
  apply only_adds_bind; [| intros products; apply only_adds_ret].
  generalize (@nil MarketApi.entry). generalize EmptyString.
  induction fuel as [|fuel IH]; intros page products; [apply only_adds_unfinished |].
  simpl. apply only_adds_bind; [apply quiet_listing |].
  intros [result|]; [| apply only_adds_raise].
  destruct (MarketApi.nextPageToken _) as [next|]; [| apply only_adds_ret].
  destruct (decide _); [apply only_adds_ret | apply IH].
Qed.

Lemma quiet_update_stocks stocks campaign_id token :
  only_adds quiet (MarketApi.update_stocks server stocks campaign_id token).
Proof.
  apply only_adds_send. intros (q & offers & [= <-] & Hbody). discriminate Hbody.
Qed.

Lemma quiet_batches batches campaign_id token :
  only_adds quiet
    (io_for_each batches (fun some_stock =>
       let* _ := MarketApi.update_stocks server some_stock campaign_id token in
       io_ret tt)).
Proof.
  apply only_adds_for_each. intros batch.
  apply only_adds_bind; [apply quiet_update_stocks | intros d; apply only_adds_ret].
Qed.

Lemma quiet_main fuel :
  only_adds quiet (MarketApi.main server feed env utc fuel).
Proof.
  unfold MarketApi.main.
  do 5 (apply only_adds_bind; [apply only_adds_env_str | intros ?]).
  apply only_adds_bind.
  { apply only_adds_download. intros (q & offers & Hq & _). discriminate Hq. }
  intros watch_remnants. apply only_adds_try.
  - apply only_adds_bind; [apply quiet_get_offer_ids | intros ids].
    apply only_adds_bind; [apply only_adds_call_create_stocks | intros stocks].
    apply only_adds_bind; [apply only_adds_call | intros chunks].
    apply only_adds_bind; [apply quiet_batches | intros _].
    apply only_adds_bind; [apply only_adds_unawaited | intros _].
    apply only_adds_bind; [apply quiet_get_offer_ids | intros ids'].
    apply only_adds_bind; [apply only_adds_call_create_stocks | intros stocks'].
    apply only_adds_bind; [apply only_adds_call | intros chunks'].
    apply only_adds_bind; [apply quiet_batches | intros _].
    apply only_adds_unawaited.
  - intros e. apply only_adds_report.
    intros l (q & offers & Hq & _). discriminate Hq.
Qed.

End YandexMain.

(** X16. [market.py]'s [main] never sends a price update, whatever the
    marketplace, the feed, the environment and the clock: [upload_prices] is
    a coroutine function, [main] calls it without awaiting the coroutine, and
    so its body does not run.  Every request [main] sends lists the offers or
    updates stocks. *)
Theorem yandex_main_sends_no_price_update
  (server : list (event MarketApi.request) -> MarketApi.request -> MarketApi.reply)
  (feed : list (event MarketApi.request) -> list (gmap string pyval) + exc)
  (env : gmap string string) (utc : nat -> string) (fuel : nat)
  (w : MarketApi.world) :
  exists added : list (event MarketApi.request),
    MarketApi.trace (MarketApi.main server feed env utc fuel w).2
    = MarketApi.trace w ++ added
    /\ Forall (fun ev => ~ is_yandex_price_update ev) added.
Proof. apply quiet_main. Qed.

Lemma yandex_report_run (e : exc) (w : MarketApi.world) :
  exists l, MarketApi.report e w = (Returned tt, MarketApi.add_event (Printed l) w).
Proof.
  unfold MarketApi.report, MarketApi.print.
  destruct e as [e|[]|class]; by eexists.
Qed.

(** X17. [market.py]'s [main] downloads the feed before its [try] block:
    with the five environment variables set, a failing download makes
    [main] raise that very exception, before any request is sent.  Once the
    feed is there, whatever goes wrong is caught and printed, and [main]
    does not raise. *)
Theorem yandex_main_outcome
  (server : list (event MarketApi.request) -> MarketApi.request -> MarketApi.reply)
  (feed : list (event MarketApi.request) -> list (gmap string pyval) + exc)
  (env : gmap string string) (utc : nat -> string) (fuel : nat)
  (w : MarketApi.world) :
  is_Some (env !! "MARKET_TOKEN") -> is_Some (env !! "FBS_ID") ->
  is_Some (env !! "DBS_ID") -> is_Some (env !! "WAREHOUSE_FBS_ID") ->
  is_Some (env !! "WAREHOUSE_DBS_ID") ->
  (forall e,
      feed (MarketApi.trace w) = inr e ->
      MarketApi.main server feed env utc fuel w
      = (Raised e, MarketApi.add_event FeedDownloaded w))
  /\ (forall watch_remnants,
         feed (MarketApi.trace w) = inl watch_remnants ->
         (MarketApi.main server feed env utc fuel w).1 = Returned tt
         \/ (MarketApi.main server feed env utc fuel w).1 = Unfinished).
Proof.
  intros [token Htoken] [fbs Hfbs] [dbs Hdbs] [wfbs Hwfbs] [wdbs Hwdbs]. split.
  - intros e He. unfold MarketApi.main, env_str.
    rewrite Htoken, Hfbs, Hdbs, Hwfbs, Hwdbs, !io_bind_ret.
    unfold io_bind at 1, MarketApi.download_stock. by rewrite He.
  - intros watch_remnants Hfeed.
    assert (exists o w',
               MarketApi.main server feed env utc fuel w = (o, w')
               /\ (o = Returned tt \/ o = Unfinished)) as (o & w' & -> & Ho);
      [| exact Ho].
    unfold MarketApi.main, env_str.
    rewrite Htoken, Hfbs, Hdbs, Hwfbs, Hwdbs, !io_bind_ret.
    unfold io_bind at 1, MarketApi.download_stock. rewrite Hfeed.
    unfold try_except.
    match goal with
    | |- context [let (o, w') := ?body ?w0 in _] =>
        destruct (body w0) as [[[]|e|] w1]
    end; [by eexists _, _; split; [| left] | | by eexists _, _; split; [| right]].
    destruct (yandex_report_run e w1) as [l ->].
    eexists _, _. split; [reflexivity | by left].
Qed.

Lemma yandex_main_outcome_witness :
  (forall e,
      broken_feed (MarketApi.trace example_market_world) = inr e ->
      MarketApi.main example_yandex broken_feed example_market_env
        two_second_clock 5 example_market_world
      = (Raised e, MarketApi.add_event FeedDownloaded example_market_world))
  /\ (forall watch_remnants,
         broken_feed (MarketApi.trace example_market_world) = inl watch_remnants ->
         (MarketApi.main example_yandex broken_feed example_market_env
            two_second_clock 5 example_market_world).1 = Returned tt
         \/ (MarketApi.main example_yandex broken_feed example_market_env
               two_second_clock 5 example_market_world).1 = Unfinished).
Proof.
  apply (yandex_main_outcome example_yandex broken_feed example_market_env
           two_second_clock 5 example_market_world);
    vm_compute; by eexists.
Defined.

(** What [main] does on the example marketplace: two listing requests and
    one stock update for each of the two campaigns, and no price update. *)
Example yandex_main_example :
  (MarketApi.main example_yandex example_feed example_market_env
     two_second_clock 5 example_market_world).1 = Returned tt
  /\ length
       (MarketApi.trace
          (MarketApi.main example_yandex example_feed example_market_env
             two_second_clock 5 example_market_world).2) = 7%nat.
Proof. split; vm_compute; reflexivity. Qed.

(** * [seller.py]'s [main] *)

(** X12. [seller.py]'s [main] reads its two environment variables before
    anything else: if one is missing it raises at once, with nothing sent.
    With both set it never raises: whatever fails in the listing, the
    download, the reconcilers or an update is caught and printed, and
    [main] returns, unless the listing never ends. *)
Theorem ozon_main_outcome
  (server : list (event SellerApi.request) -> SellerApi.request -> SellerApi.reply)
  (feed : list (event SellerApi.request) -> list (gmap string pyval) + exc)
  (env : gmap string string) (fuel : nat)
  (trace : list (event SellerApi.request)) :
  (env !! "SELLER_TOKEN" = None \/ env !! "CLIENT_ID" = None ->
   SellerApi.main server feed env fuel trace = (Raised (Other "EnvError"), trace))
  /\ (is_Some (env !! "SELLER_TOKEN") -> is_Some (env !! "CLIENT_ID") ->
      (SellerApi.main server feed env fuel trace).1 = Returned tt
      \/ (SellerApi.main server feed env fuel trace).1 = Unfinished).
Proof.
  split.
  - unfold SellerApi.main, env_str. intros [Hnone | Hnone].
    + by rewrite Hnone.
    + rewrite Hnone. by destruct (env !! "SELLER_TOKEN").
  - intros [token Htoken] [client Hclient].
    destruct (ozon_main_run server feed env fuel client token trace Htoken Hclient)
      as (added & o & -> & Ho & _).
    exact Ho.
Qed.

(** X13. [seller.py]'s [main] never sends a price update when the
    marketplace lists pairwise distinct identifiers: [create_prices] gets the
    list [create_stocks] has emptied of every code of the feed, returns no
    record, and there is no batch to send.  Every request [main] sends lists
    the products or updates stocks. *)
Theorem ozon_main_sends_no_price_update
  (server : list (event SellerApi.request) -> SellerApi.request -> SellerApi.reply)
  (feed : list (event SellerApi.request) -> list (gmap string pyval) + exc)
  (env : gmap string string) (fuel : nat) (client_id seller_token : string)
  (trace : list (event SellerApi.request)) :
  env !! "SELLER_TOKEN" = Some seller_token ->
  env !! "CLIENT_ID" = Some client_id ->
  (forall ids listed,
      SellerApi.get_offer_ids server fuel client_id seller_token trace
      = (Returned ids, listed) -> NoDup ids) ->
  exists added : list (event SellerApi.request),
    (SellerApi.main server feed env fuel trace).2 = trace ++ added
    /\ Forall (fun ev => ~ is_ozon_price_update ev) added.
Proof.
  intros Htoken Hclient Hdistinct.
  destruct (ozon_main_run server feed env fuel client_id seller_token trace
              Htoken Hclient) as (added & o & -> & _ & Hquiet).
  exists added. split; [done | by apply Hquiet].
Qed.

Lemma ozon_main_sends_no_price_update_witness :
  exists added : list (event SellerApi.request),
    (SellerApi.main example_ozon example_feed example_seller_env 5 []).2
    = [] ++ added
    /\ Forall (fun ev => ~ is_ozon_price_update ev) added.
Proof.
  apply (ozon_main_sends_no_price_update example_ozon example_feed
           example_seller_env 5 "id" "token" []).
  - reflexivity.
  - reflexivity.
  - intros ids listed Hlist. vm_compute in Hlist. injection Hlist as <- _.
    apply (bool_decide_unpack _). vm_compute. exact I.
Defined.

(** What [main] does on the example marketplace: two listing requests, the
    download and one stock update with the three records. *)
Example ozon_main_example :
  SellerApi.main example_ozon example_feed example_seller_env 5 []
  = (Returned tt,
     [Sent (ozon_listing_request "id" "token" "");
      Sent (ozon_listing_request "id" "token" "p1");
      FeedDownloaded;
      Sent (ozon_stocks_request "id" "token"
              [{| Seller.offer_id := "A"; Seller.stock := 100 |};
               {| Seller.offer_id := "B"; Seller.stock := 0 |};
               {| Seller.offer_id := "C"; Seller.stock := 0 |}])]).
Proof. vm_compute. reflexivity. Qed.

(** * Listing the offers of Yandex Market *)

Section YandexListing.
  Variable server :
    list (event MarketApi.request) -> MarketApi.request -> MarketApi.reply.
  Variables campaign_id market_token : string.

Lemma yandex_get_product_list_page page w result :
  server (MarketApi.trace w) (yandex_listing_request campaign_id market_token page)
  = MarketApi.Answer (MarketApi.ResultDocument result) ->
  MarketApi.get_product_list server page campaign_id market_token w
  = (Returned (Some result),
     MarketApi.add_event
       (Sent (yandex_listing_request campaign_id market_token page)) w).
Proof.
  intros Hreply. unfold MarketApi.get_product_list, io_bind, MarketApi.send.
  fold (yandex_listing_request campaign_id market_token page).
  by rewrite Hreply.
Qed.

Lemma yandex_get_offer_ids_loop_pages pages :
  forall fuel page products w,
    pages <> [] ->
    yandex_transcript server (MarketApi.trace w)
      (yandex_listing_request campaign_id market_token <$> yandex_tokens page pages)
    = (MarketApi.Answer ∘ MarketApi.ResultDocument) <$> pages ->
    (forall k result,
        pages !! k = Some result ->
        yandex_token result = EmptyString <-> S k = length pages) ->
    (length pages <= fuel)%nat ->
    MarketApi.get_offer_ids_loop server fuel campaign_id market_token page
      products w
    = (Returned (products ++ concat (MarketApi.offerMappingEntries <$> pages)),
       {| MarketApi.trace :=
            MarketApi.trace w
            ++ (Sent <$> (yandex_listing_request campaign_id market_token
                            <$> yandex_tokens page pages));
          MarketApi.ticks := MarketApi.ticks w |}).
Proof.
  induction pages as [|result pages IH];
    intros fuel page products w Hne Hreplies Hstop Hfuel; [done |].
  destruct fuel as [|fuel]; [simpl in Hfuel; lia |].
  unfold yandex_tokens in Hreplies |- *. simpl in Hreplies |- *.
  injection Hreplies as Hreply Hreplies.
  rewrite (io_bind_Returned _ _ _ _ _ (yandex_get_product_list_page _ _ _ Hreply)).
  pose proof (Hstop 0%nat result eq_refl) as Hfirst. simpl in Hfirst.
  assert (pages = [] \/ pages <> []) as [-> | Hmore]
    by (destruct pages; [by left | by right]).
  - assert (yandex_token result = EmptyString) as Hlast by (by apply Hfirst).
    unfold yandex_token in Hlast. simpl. rewrite app_nil_r.
    destruct (MarketApi.nextPageToken (MarketApi.paging result)) as [next|];
      simpl in Hlast; [by rewrite decide_True |]. done.
  - assert (yandex_token result <> EmptyString) as Hnext.
    { intros Hlast. apply Hfirst in Hlast. destruct pages; [done |].
      simpl in Hlast. lia. }
    destruct (MarketApi.nextPageToken (MarketApi.paging result)) as [next|] eqn:Htoken.
    2: { exfalso. apply Hnext. unfold yandex_token. by rewrite Htoken. }
    assert (yandex_token result = next) as Hnext'
      by (unfold yandex_token; by rewrite Htoken).
    rewrite Hnext' in Hnext, Hreplies |- *.
    rewrite decide_False by done.
    rewrite (IH fuel next (products ++ MarketApi.offerMappingEntries result)
               (MarketApi.add_event
                  (Sent (yandex_listing_request campaign_id market_token page)) w)).
    + unfold yandex_tokens. simpl. by rewrite <- !app_assoc.
    + done.
    + exact Hreplies.
    + intros k result' Hk. rewrite (Hstop (S k) result' Hk). simpl. lia.
    + simpl in Hfuel. lia.
Qed.

End YandexListing.

(** X14. Let Yandex Market answer the successive listing requests with
    the pages [pages], every page but the last carrying a non-empty
    [nextPageToken] and the last none, or an empty one.  Then
    [market.py]'s [get_offer_ids], given fuel for that many rounds, returns
    the [shopSku] of all entries of those pages in order, after exactly one
    request per page: the first with the page token [""], each next one
    with the token of the page before. *)
Theorem yandex_get_offer_ids_pages
  (server : list (event MarketApi.request) -> MarketApi.request -> MarketApi.reply)
  (campaign_id market_token : string) (w : MarketApi.world)
  (pages : list MarketApi.listing) (fuel : nat) :
  pages <> [] ->
  yandex_transcript server (MarketApi.trace w)
    (yandex_listing_request campaign_id market_token <$> yandex_tokens "" pages)
  = (MarketApi.Answer ∘ MarketApi.ResultDocument) <$> pages ->
  (forall k result,
      pages !! k = Some result ->
      yandex_token result = EmptyString <-> S k = length pages) ->
  (length pages <= fuel)%nat ->
  MarketApi.get_offer_ids server fuel campaign_id market_token w
  = (Returned
       ((fun product => MarketApi.shopSku (MarketApi.entry_offer product))
          <$> concat (MarketApi.offerMappingEntries <$> pages)),
     {| MarketApi.trace :=
          MarketApi.trace w
          ++ (Sent <$> (yandex_listing_request campaign_id market_token
                          <$> yandex_tokens "" pages));
        MarketApi.ticks := MarketApi.ticks w |}).
Proof.
  intros Hne Hreplies Hstop Hfuel. unfold MarketApi.get_offer_ids.
  by rewrite (io_bind_Returned _ _ _ _ _
                (yandex_get_offer_ids_loop_pages server campaign_id market_token
                   pages fuel "" [] w Hne Hreplies Hstop Hfuel)).
Qed.

Lemma yandex_get_offer_ids_pages_witness :
  MarketApi.get_offer_ids example_yandex 5 "fbs" "token" example_market_world
  = (Returned
       ((fun product => MarketApi.shopSku (MarketApi.entry_offer product))
          <$> concat (MarketApi.offerMappingEntries
                        <$> [example_listing_1; example_listing_2])),
     {| MarketApi.trace :=
          MarketApi.trace example_market_world
          ++ (Sent <$> (yandex_listing_request "fbs" "token"
                          <$> yandex_tokens "" [example_listing_1; example_listing_2]));
        MarketApi.ticks := MarketApi.ticks example_market_world |}).
Proof.
  apply (yandex_get_offer_ids_pages example_yandex "fbs" "token"
           example_market_world [example_listing_1; example_listing_2] 5).
  - discriminate.
  - vm_compute. reflexivity.
  - intros [|[|k]] result Hk; simpl in Hk; [| | discriminate Hk];
      injection Hk as <-; vm_compute; split; intros H; discriminate H || reflexivity.
  - simpl. lia.
Defined.

(** ** A page token that never runs out *)

Section YandexEndless.
  Variable server :
    list (event MarketApi.request) -> MarketApi.request -> MarketApi.reply.
  Variables campaign_id market_token : string.
  Hypothesis server_pages :
    forall trace q, exists result token,
      server trace q = MarketApi.Answer (MarketApi.ResultDocument result)
      /\ MarketApi.nextPageToken (MarketApi.paging result) = Some token
      /\ token <> EmptyString.

Lemma yandex_get_offer_ids_loop_endless fuel :
  forall page products w,
  exists sent,
    MarketApi.get_offer_ids_loop server fuel campaign_id market_token page
      products w
    = (Unfinished,
       {| MarketApi.trace := MarketApi.trace w ++ (Sent <$> sent);
          MarketApi.ticks := MarketApi.ticks w |})
    /\ length sent = fuel.
Proof.
  induction fuel as [|fuel IH]; intros page products w.
  - exists []. simpl. unfold unfinished. rewrite app_nil_r. by destruct w.
  - destruct (server_pages (MarketApi.trace w)
                (yandex_listing_request campaign_id market_token page))
      as (result & token & Hreply & Htoken & Hne).
    simpl.
    rewrite (io_bind_Returned _ _ _ _ _
               (yandex_get_product_list_page _ _ _ _ _ _ Hreply)).
    rewrite Htoken, decide_False by done.
    destruct (IH token (products ++ MarketApi.offerMappingEntries result)
                (MarketApi.add_event
                   (Sent (yandex_listing_request campaign_id market_token page)) w))
      as (sent & -> & Hsent).
    exists (yandex_listing_request campaign_id market_token page :: sent).
    simpl. rewrite <- app_assoc. split; [done | by rewrite Hsent].
Qed.

End YandexEndless.

(** X15. [market.py]'s [get_offer_ids] leaves its loop only on a page
    without a [nextPageToken], or with an empty one.  If Yandex Market
    answers every request with a page that names a next page, the loop does
    not end: with whatever fuel, the run is unfinished after one request per
    unit of fuel. *)
Theorem yandex_get_offer_ids_endless
  (server : list (event MarketApi.request) -> MarketApi.request -> MarketApi.reply)
  (campaign_id market_token : string) (w : MarketApi.world) (fuel : nat) :
  (forall trace q, exists result token,
      server trace q = MarketApi.Answer (MarketApi.ResultDocument result)
      /\ MarketApi.nextPageToken (MarketApi.paging result) = Some token
      /\ token <> EmptyString) ->
  exists sent,
    MarketApi.get_offer_ids server fuel campaign_id market_token w
    = (Unfinished,
       {| MarketApi.trace := MarketApi.trace w ++ (Sent <$> sent);
          MarketApi.ticks := MarketApi.ticks w |})
    /\ length sent = fuel.
Proof.
  intros Hpages.
  destruct (yandex_get_offer_ids_loop_endless server campaign_id market_token
              Hpages fuel "" [] w) as (sent & Hrun & Hsent).
  exists sent. unfold MarketApi.get_offer_ids.
  by rewrite (io_bind_Unfinished _ _ _ _ Hrun).
Qed.

Lemma yandex_get_offer_ids_endless_witness :
  exists sent,
    MarketApi.get_offer_ids endless_yandex 6 "fbs" "token" example_market_world
    = (Unfinished,
       {| MarketApi.trace := MarketApi.trace example_market_world ++ (Sent <$> sent);
          MarketApi.ticks := MarketApi.ticks example_market_world |})
    /\ length sent = 6%nat.
Proof.
  apply (yandex_get_offer_ids_endless endless_yandex "fbs" "token"
           example_market_world 6).
  intros trace q. eexists _, "next". split; [reflexivity |].
  split; [reflexivity | discriminate].
Defined.

(** * [upload_prices] on a list of its own *)



(** * Rows with missing cells *)

(** X19. A row is looked at only when its code is listed at its turn.
    Then a row without a quantity cell makes [create_stocks] raise
    [TypeError] ([int(None)]), and a row whose price cell is missing, or is
    not text, makes [create_prices] raise [AttributeError], in [seller.py]
    and in [market.py]. *)
Theorem missing_cells_raise
  (before : list (gmap string pyval)) (watch : gmap string pyval)
  (after : list (gmap string pyval)) (offer_ids : list string) :
  (forall (stocks_before : list Seller.stock_item) (rest_ids : list string),
      Seller.create_stocks before offer_ids = (Ok stocks_before, rest_ids) ->
      code watch ∈ rest_ids ->
      watch !! "Количество" = None ->
      Seller.create_stocks (before ++ watch :: after) offer_ids
      = (Raise TypeError, rest_ids)
      /\ forall (warehouse_id : string) (w : Market.world),
           (Market.create_stocks (before ++ watch :: after) warehouse_id
              (with_offer_ids offer_ids w)).1 = Raise TypeError)
  /\ (forall (prices_before : list Seller.price_item),
         Seller.create_prices before offer_ids = (Ok prices_before, offer_ids) ->
         code watch ∈ offer_ids ->
         (forall s, dict_get watch "Цена" <> PyStr s) ->
         Seller.create_prices (before ++ watch :: after) offer_ids
         = (Raise AttributeError, offer_ids))
  /\ (forall (prices_before : list Market.offer_price),
         Market.create_prices before offer_ids = (Ok prices_before, offer_ids) ->
         code watch ∈ offer_ids ->
         (forall s, dict_get watch "Цена" <> PyStr s) ->
         Market.create_prices (before ++ watch :: after) offer_ids
         = (Raise AttributeError, offer_ids)).
Proof.
  assert (forall v, (forall s, v <> PyStr s) ->
            Seller.price_conversion_cell v = Raise AttributeError) as Hcell.
  { intros [|s|z] Hv; [done | by destruct (Hv s) | done]. }
  split; [| split].
  - intros stocks_before rest_ids Hbefore Hin Hnone.
    apply seller_create_stocks_Ok in Hbefore as (matched1 & Hrun1 & _ & _).
    assert (stock_rule watch = Raise TypeError) as Hrule.
    { unfold stock_rule, dict_get. rewrite Hnone. reflexivity. }
    assert (Seller.create_stocks (before ++ watch :: after) offer_ids
            = (Raise TypeError, rest_ids)) as Hcall.
    { rewrite seller_create_stocks_rounds.
      by rewrite (seller_rounds_at_match _ _ _ _ _ _ Hrun1 Hin), Hrule. }
    split; [done |]. intros warehouse_id w.
    rewrite market_create_stocks_seller. simpl. by rewrite Hcall.
  - intros prices_before Hbefore Hin Hprice.
    rewrite seller_create_prices_rounds in Hbefore |- *.
    injection Hbefore as Hbefore. f_equal.
    apply (price_rounds_raise _ _ _ _ _ _ _ _ Hbefore Hin).
    unfold seller_price_of. by rewrite (Hcell _ Hprice).
  - intros prices_before Hbefore Hin Hprice.
    rewrite market_create_prices_rounds in Hbefore |- *.
    injection Hbefore as Hbefore. f_equal.
    apply (price_rounds_raise _ _ _ _ _ _ _ _ Hbefore Hin).
    unfold market_price_of. by rewrite (Hcell _ Hprice).
Qed.

Lemma missing_cells_raise_witness :
  Seller.create_stocks ([] ++ row_code_only :: []) ["A"; "B"]
  = (Raise TypeError, ["A"; "B"])
  /\ forall (warehouse_id : string) (w : Market.world),
       (Market.create_stocks ([] ++ row_code_only :: []) warehouse_id
          (with_offer_ids ["A"; "B"] w)).1 = Raise TypeError.
Proof.
  apply (proj1 (missing_cells_raise [] row_code_only [] ["A"; "B"])
           [zero_stock "A"; zero_stock "B"] ["A"; "B"]).
  - vm_compute. reflexivity.
  - apply (bool_decide_unpack _). vm_compute. exact I.
  - vm_compute. reflexivity.
Defined.

(** * The remaining witnesses *)

Lemma divide_degenerate_size_witness :
  Seller.divide (-2) [1; 2; 3] = (Ok [], [1; 2; 3]).
Proof. apply (proj2 (divide_degenerate_size [1; 2; 3] (-2))). lia. Defined.

Lemma create_prices_record_shape_witness :
  Forall2 market_price_record
    (filter (fun watch => code watch ∈ ["A"; "B"]) [row_A999])
    [{| Market.id := "A";
        Market.price := {| Market.value := 999; Market.currencyId := "RUR" |} |}]
  /\ Forall (fun p => Market.id p ∈ ["A"; "B"]
                      /\ 0 <= Market.value (Market.price p)
                      /\ Market.currencyId (Market.price p) = "RUR")
       [{| Market.id := "A";
           Market.price := {| Market.value := 999; Market.currencyId := "RUR" |} |}].
Proof.
  apply (proj1 (create_prices_record_shape [row_A999] ["A"; "B"]) _ ["A"; "B"]).
  vm_compute. reflexivity.
Defined.

Lemma ozon_main_outcome_witness :
  SellerApi.main example_ozon example_feed ∅ 5 []
  = (Raised (Other "EnvError"), []).
Proof.
  apply (proj1 (ozon_main_outcome example_ozon example_feed ∅ 5 [])).
  left. reflexivity.
Defined.
